(** * Brian: offer-acceptance probability, reliability and suggested markup

    A shallow embedding of [src/probability.js] (three TypeScript modules:
    [ProbabilityCalculator], [ReliabilityRepository] and
    [SuggestedMarkupRepository]) and the properties of its specification.

    Conventions of the embedding.
    - A JavaScript [number] is an extended rational: a finite value carries an
      exact [Q], next to [Infinity], [-Infinity] and [NaN].  The special values
      follow IEEE 754 (so [0/0] is [NaN] and [NaN] poisons comparisons);
      binary64 rounding of finite values and the sign of zero are not
      modelled, and [0.7] is the rational [7/10].  Where a property gives the
      value of a result, it is written with the operations of the code in
      the order of the code, so that it reads the same over doubles.
    - [null] and [undefined] are [None].
    - [async] code that may throw is a computation in the [Completion] monad:
      [Return v] for a fulfilled promise, [Throw e] for a rejected one.
    - Optional parameters ([quantity = 1], [purchasePrice = 0], [rate = 1])
      are passed explicitly.
    - [console.log] and [console.error] calls are omitted. *)

From Stdlib Require Import ZArith QArith Qabs Qround Qminmax Lia Lqa.
From Stdlib Require Import List String Ascii Bool Sorted Permutation.
Import ListNotations.

Local Open Scope Q_scope.

(** ** JavaScript numbers *)

Module JS.

Inductive number : Type :=
| Fin (q : Q)
| PInf
| NInf
| NaN.

Definition Qlt_bool (x y : Q) : bool := negb (Qle_bool y x).

Definition of_Z (z : Z) : number := Fin (inject_Z z).
Definition of_nat (n : nat) : number := of_Z (Z.of_nat n).

(** Sign of a number as a comparison with zero ([NaN] has none). *)
Definition sign (a : number) : option comparison :=
  match a with
  | Fin q => Some (q ?= 0)
  | PInf => Some Gt
  | NInf => Some Lt
  | NaN => None
  end.

Definition inf_of_sign (c : comparison) : number :=
  match c with Gt => PInf | Lt => NInf | Eq => NaN end.

Definition neg (a : number) : number :=
  match a with
  | Fin q => Fin (- q)
  | PInf => NInf
  | NInf => PInf
  | NaN => NaN
  end.

Definition add (a b : number) : number :=
  match a, b with
  | NaN, _ | _, NaN => NaN
  | Fin x, Fin y => Fin (x + y)
  | PInf, NInf | NInf, PInf => NaN
  | PInf, _ | _, PInf => PInf
  | NInf, _ | _, NInf => NInf
  end.

Definition sub (a b : number) : number := add a (neg b).

Definition mul_sign (c d : comparison) : comparison :=
  match c, d with
  | Eq, _ | _, Eq => Eq
  | Gt, Gt | Lt, Lt => Gt
  | _, _ => Lt
  end.

Definition mul (a b : number) : number :=
  match a, b with
  | Fin x, Fin y => Fin (x * y)
  | _, _ =>
      match sign a, sign b with
      | Some c, Some d => inf_of_sign (mul_sign c d)
      | _, _ => NaN
      end
  end.

(** A zero divisor is taken as [+0]. *)
Definition div (a b : number) : number :=
  match a, b with
  | NaN, _ | _, NaN => NaN
  | Fin x, Fin y => if Qeq_bool y 0 then inf_of_sign (x ?= 0) else Fin (x / y)
  | Fin _, _ => Fin 0
  | _, Fin y => if Qlt_bool y 0 then neg a else a
  | _, _ => NaN
  end.

(** [a < b], [a > b], [a <= b]: false as soon as one side is [NaN]. *)
Definition lt (a b : number) : bool :=
  match a, b with
  | NaN, _ | _, NaN => false
  | Fin x, Fin y => Qlt_bool x y
  | NInf, NInf | PInf, _ | _, NInf => false
  | _, _ => true
  end.

Definition gt (a b : number) : bool := lt b a.

Definition le (a b : number) : bool :=
  match a, b with
  | NaN, _ | _, NaN => false
  | Fin x, Fin y => Qle_bool x y
  | NInf, _ | _, PInf => true
  | _, _ => false
  end.

(** [a === b] on numbers. *)
Definition strict_eq (a b : number) : bool :=
  match a, b with
  | Fin x, Fin y => Qeq_bool x y
  | PInf, PInf | NInf, NInf => true
  | _, _ => false
  end.

Definition isNaN (a : number) : bool :=
  match a with NaN => true | _ => false end.

(** Truthiness of a number: [0] and [NaN] are falsy. *)
Definition truthy (a : number) : bool :=
  match a with
  | Fin q => negb (Qeq_bool q 0)
  | NaN => false
  | _ => true
  end.

(** [v || d] for a possibly missing number [v]. *)
Definition or_default (v : option number) (d : number) : number :=
  match v with
  | Some a => if truthy a then a else d
  | None => d
  end.

Module Math.

Definition max (a b : number) : number :=
  match a, b with
  | NaN, _ | _, NaN => NaN
  | _, _ => if lt a b then b else a
  end.

Definition min (a b : number) : number :=
  match a, b with
  | NaN, _ | _, NaN => NaN
  | _, _ => if lt b a then b else a
  end.

Definition abs (a : number) : number :=
  match a with
  | Fin q => Fin (Qabs q)
  | PInf | NInf => PInf
  | NaN => NaN
  end.

Definition floor (a : number) : number :=
  match a with
  | Fin q => of_Z (Qfloor q)
  | _ => a
  end.

(** [Math.round] rounds half-way cases up. *)
Definition round (a : number) : number :=
  match a with
  | Fin q => of_Z (Qfloor (q + (1 # 2)))
  | _ => a
  end.

(** Square root of a non-negative rational, from below, exact on the
    rationals [n/d] with [n*d] a perfect square and otherwise within
    [2^-52/d] of the real root. *)
Definition Qsqrt (q : Q) : Q :=
  Z.sqrt (Qnum q * Zpos (Qden q) * 2 ^ 104) # (Qden q * 2 ^ 52).

Definition sqrt (a : number) : number :=
  match a with
  | Fin q => if Qlt_bool q 0 then NaN else Fin (Qsqrt q)
  | PInf => PInf
  | _ => NaN
  end.

(** [Math.pow(a, 2)]. *)
Definition pow2 (a : number) : number := mul a a.

End Math.

(** [Number(a.toFixed(1))]: one decimal, half-way cases away from zero. *)
Definition toFixed1 (a : number) : number :=
  match a with
  | Fin q =>
      if Qlt_bool q 0
      then Fin (- (inject_Z (Qfloor (- q * 10 + (1 # 2))) / 10))
      else Fin (inject_Z (Qfloor (q * 10 + (1 # 2))) / 10)
  | _ => a
  end.

(** [s.split('').reduce((sum, char) => sum + char.charCodeAt(0), 0)]
    (identifiers are ASCII strings). *)
Fixpoint charCodeSum_from (sum : Z) (s : string) : Z :=
  match s with
  | EmptyString => sum
  | String c rest => charCodeSum_from (sum + Z.of_nat (nat_of_ascii c)) rest
  end.

Definition charCodeSum (s : string) : Z := charCodeSum_from 0 s.

(** [s.slice(-2)]: the last two characters (all of [s] if it is shorter). *)
Definition slice_last2 (s : string) : string :=
  substring (String.length s - 2) 2 s.

Definition is_space (c : ascii) : bool :=
  let n := nat_of_ascii c in
  ((9 <=? n) && (n <=? 13))%nat || (n =? 32)%nat.

Fixpoint skip_spaces (s : string) : string :=
  match s with
  | String c rest => if is_space c then skip_spaces rest else s
  | EmptyString => s
  end.

Definition digit_value (radix : Z) (c : ascii) : option Z :=
  let n := Z.of_nat (nat_of_ascii c) in
  let v :=
    if ((48 <=? n) && (n <=? 57))%Z then Some (n - 48)%Z
    else if ((97 <=? n) && (n <=? 122))%Z then Some (n - 87)%Z
    else if ((65 <=? n) && (n <=? 90))%Z then Some (n - 55)%Z
    else None in
  match v with
  | Some d => if (d <? radix)%Z then Some d else None
  | None => None
  end.

(** Longest prefix of digits, as [Some value], or [None] without a digit. *)
Fixpoint parse_digits (radix : Z) (acc : option Z) (s : string) : option Z :=
  match s with
  | String c rest =>
      match digit_value radix c with
      | Some d =>
          parse_digits radix
            (Some (match acc with Some a => a * radix + d | None => d end)%Z)
            rest
      | None => acc
      end
  | EmptyString => acc
  end.

(** [parseInt(s)] without an explicit radix. *)
Definition parseInt (s : string) : number :=
  let s1 := skip_spaces s in
  let '(sgn, s2) :=
    match s1 with
    | String "-" r => ((-1)%Z, r)
    | String "+" r => (1%Z, r)
    | _ => (1%Z, s1)
    end in
  let '(radix, s3) :=
    match s2 with
    | String "0" (String "x" r) | String "0" (String "X" r) => (16%Z, r)
    | _ => (10%Z, s2)
    end in
  match parse_digits radix None s3 with
  | Some v => of_Z (sgn * v)
  | None => NaN
  end.

End JS.

Declare Scope js_scope.
Delimit Scope js_scope with js.
Bind Scope js_scope with JS.number.
Infix "+" := JS.add : js_scope.
Infix "-" := JS.sub : js_scope.
Infix "*" := JS.mul : js_scope.
Infix "/" := JS.div : js_scope.
Infix "<?" := JS.lt : js_scope.
Infix ">?" := JS.gt : js_scope.
Infix "<=?" := JS.le : js_scope.
Infix "===" := JS.strict_eq (at level 70) : js_scope.
Coercion JS.Fin : Q >-> JS.number.

(** ** Promises that may reject *)

Inductive Completion (A : Type) : Type :=
| Return (v : A)
| Throw (e : string).

Arguments Return {A} v.
Arguments Throw {A} e.

Definition bind {A B : Type} (c : Completion A) (k : A -> Completion B)
  : Completion B :=
  match c with
  | Return v => k v
  | Throw e => Throw e
  end.

(** [try { body } catch (error) { handler }]. *)
Definition try_catch {A : Type} (body : Completion A)
    (handler : string -> Completion A) : Completion A :=
  match body with
  | Return v => Return v
  | Throw e => handler e
  end.

Notation "x <- c ;; k" := (bind c (fun x => k))
  (at level 61, c at next level, right associativity).

(** ** The store *)

(** A row of the [offers] relation as a query returns it; a column that the
    statement does not select, or that holds NULL, is [None]. *)
Record HistoricalOffer : Type := {
  success : option JS.number;
  offer__nr : option string;
  product__id : option string;
  offer_answer__box_price_chf : option JS.number;
  purchase_price__gross_purchase_price : option JS.number;
  rate : option JS.number;
  offer_answer__qty : option JS.number;
  markup : option JS.number;
  offer__encoding_date : option string
}.

(** The SELECT statements of the three modules, by what distinguishes their
    text: the WHERE clause (pair, product or customer), the [markup] column
    (computed from the prices, or the stored [calculated_markup_percentage]),
    the [offer__success = 1] filter and the LIMIT. *)
Inductive Sql : Type :=
| PairComputed20
| ProductComputed30
| CustomerComputed30
| PairStored20
| ProductStored30
| CustomerStored50
| PairSuccess10
| ProductSuccess20
| CustomerSuccess20.

(** [db.prepare(sql).all(params)]: rows, or an exception. *)
Definition Db : Type := Sql -> list string -> Completion (list HistoricalOffer).

(** What a call can observe of its host: the outcome of [await getDb()], the
    clock read by [new Date()] (milliseconds since the epoch) and the value
    that [Math.random()] returns. *)
Record World : Type := {
  getDb : Completion Db;
  Date_now : Z;
  Math_random : Q
}.

Definition length_of {A : Type} (l : list A) : JS.number :=
  JS.of_nat (List.length l).

(** [h.success === 1] *)
Definition succeeded (h : HistoricalOffer) : bool :=
  match success h with
  | Some s => (s === 1)%js
  | None => false
  end.

(** [m !== null && !isNaN(m)] (also [m != null && !isNaN(m)]) *)
Definition valid (m : option JS.number) : bool :=
  match m with
  | Some a => negb (JS.isNaN a)
  | None => false
  end.

(** ** ProbabilityCalculator *)

Module ProbabilityCalculator.

Definition SIMILAR_MARKUP_THRESHOLD : JS.number := 5.

Definition _fetchCompleteProductCustomerHistory (db : Db)
    (customerNr productId : string) : Completion (list HistoricalOffer) :=
  db PairComputed20 [customerNr; productId].

Definition _fetchCompleteProductHistory (db : Db) (productId : string)
  : Completion (list HistoricalOffer) :=
  db ProductComputed30 [productId].

Definition _fetchCompleteCustomerHistory (db : Db) (customerNr : string)
  : Completion (list HistoricalOffer) :=
  db CustomerComputed30 [customerNr].

(** The filter predicate shared by both paths:
    [h.markup !== null && !isNaN(h.markup) &&
     Math.abs(h.markup - markup) <= threshold]. *)
Definition similarMarkup (threshold proposed : JS.number) (h : HistoricalOffer)
  : bool :=
  match markup h with
  | Some m => negb (JS.isNaN m) && (JS.Math.abs (m - proposed) <=? threshold)%js
  | None => false
  end.

Definition _calculateFallbackProbability (db : Db) (markup : JS.number)
    (productId customerNr : string) : Completion JS.number :=
  productHistory <- _fetchCompleteProductHistory db productId ;;
  customerHistory <- _fetchCompleteCustomerHistory db customerNr ;;
  let combinedHistory := productHistory ++ customerHistory in
  if (List.length combinedHistory =? 0)%nat then
    let productIdSum := JS.charCodeSum productId in
    let baseVariation := (Z.rem productIdSum 25 - 12)%Z in
    let baseProbability := (50 + baseVariation)%Z in
    let baseProbability :=
      if (markup >? 35)%js
      then (baseProbability - (15 + Z.rem productIdSum 5))%Z
      else if (markup >? 25)%js
      then (baseProbability - (5 + Z.rem productIdSum 5))%Z
      else if (markup <? 15)%js
      then (baseProbability + (5 + Z.rem productIdSum 5))%Z
      else if (markup <? 10)%js
      then (baseProbability + (10 + Z.rem productIdSum 5))%Z
      else baseProbability in
    Return (JS.Math.min 85 (JS.Math.max 15 (JS.of_Z baseProbability)%js))
  else
    let similarMarkupOffers :=
      filter (similarMarkup (SIMILAR_MARKUP_THRESHOLD * 2)%js markup)
        combinedHistory in
    if (List.length similarMarkupOffers <? 3)%nat then
      let productIdSum := JS.charCodeSum productId in
      let customerIdSum := JS.charCodeSum customerNr in
      let baseVariation := (Z.rem (productIdSum + customerIdSum) 20 - 10)%Z in
      let baseProbability := (50 + baseVariation)%Z in
      let baseProbability :=
        if (markup >? 35)%js then (baseProbability - 15)%Z
        else if (markup >? 25)%js then (baseProbability - 5)%Z
        else if (markup <? 15)%js then (baseProbability + 5)%Z
        else if (markup <? 10)%js then (baseProbability + 10)%Z
        else baseProbability in
      if (0 <? List.length combinedHistory)%nat then
        let generalSuccessRate :=
          (length_of (filter succeeded combinedHistory)
             / length_of combinedHistory * 100)%js in
        Return (JS.of_Z baseProbability * 0.7
                + generalSuccessRate * 0.3)%js
      else
        Return (JS.Math.min 85 (JS.Math.max 15 (JS.of_Z baseProbability)%js))
    else
      let successCount := length_of (filter succeeded similarMarkupOffers) in
      let successRate :=
        (successCount / length_of similarMarkupOffers * 100)%js in
      Return successRate.

Definition _calculateSuccessProbability (db : Db) (markup : JS.number)
    (productId customerNr : string) (quantity purchasePrice rate : JS.number)
  : Completion JS.number :=
  history <- _fetchCompleteProductCustomerHistory db customerNr productId ;;
  if (List.length history =? 0)%nat then
    _calculateFallbackProbability db markup productId customerNr
  else
    let similarMarkupOffers :=
      filter (similarMarkup SIMILAR_MARKUP_THRESHOLD markup) history in
    if (List.length similarMarkupOffers =? 0)%nat then
      _calculateFallbackProbability db markup productId customerNr
    else
      let successCount := length_of (filter succeeded similarMarkupOffers) in
      let successRate :=
        (successCount / length_of similarMarkupOffers * 100)%js in
      Return successRate.

Definition calculateSuccessProbability (w : World)
    (customerNr productId : string)
    (markup quantity purchasePrice rate : JS.number)
  : Completion JS.number :=
  db <- getDb w ;;
  _calculateSuccessProbability db markup productId customerNr
    quantity purchasePrice rate.

End ProbabilityCalculator.

(** The numbers among possibly missing ones, in order. *)
Fixpoint numbers_of (l : list (option JS.number)) : list JS.number :=
  match l with
  | [] => []
  | Some a :: rest => a :: numbers_of rest
  | None :: rest => numbers_of rest
  end.

(** [l.reduce((sum, m) => sum + m, 0)] *)
Definition sum_numbers (l : list JS.number) : JS.number :=
  fold_left JS.add l (JS.Fin 0).

(** ** ReliabilityRepository *)

Module ReliabilityRepository.

Record ReliabilityFactors : Type := {
  directHistory : JS.number;
  dataRecency : JS.number;
  dataConsistency : JS.number;
  fallbacksUsed : JS.number
}.

Record ReliabilityResult : Type := {
  reliability : JS.number;
  reliabilityFactors : ReliabilityFactors
}.

Definition MAX_DAYS_FOR_RECENT_DATA : JS.number := 365.

Definition _fetchCompleteProductCustomerHistory (db : Db)
    (customerNr productId : string) : Completion (list HistoricalOffer) :=
  db PairStored20 [customerNr; productId].

Definition _fetchCompleteProductHistory (db : Db) (productId : string)
  : Completion (list HistoricalOffer) :=
  db ProductStored30 [productId].

Definition _fetchCompleteCustomerHistory (db : Db) (customerNr : string)
  : Completion (list HistoricalOffer) :=
  db CustomerStored50 [customerNr].

(** Truthiness of [h.offer__encoding_date]: present and not the empty string. *)
Definition hasDate (h : HistoricalOffer) : bool :=
  match offer__encoding_date h with
  | Some EmptyString | None => false
  | Some _ => true
  end.

Definition _calculateDataConsistency (history : list HistoricalOffer)
  : JS.number :=
  if (List.length history <? 2)%nat then 0
  else
    let markups := numbers_of (filter valid (map markup history)) in
    if (List.length markups <? 2)%nat then 0
    else
      let mean := (sum_numbers markups / length_of markups)%js in
      let variance :=
        (fold_left (fun sum m => sum + JS.Math.pow2 (m - mean)) markups 0
         / length_of markups)%js in
      let stdDev := JS.Math.sqrt variance in
      let coefficientOfVariation := (stdDev / JS.Math.abs mean * 100)%js in
      let consistencyScore :=
        JS.Math.max 0 (100 - coefficientOfVariation * 2)%js in
      consistencyScore.

Section DateParser.

(** [new Date(s).getTime()]: the time value in milliseconds, [None] for an
    Invalid Date ([NaN]).  Which strings the host parses is left open. *)
Variable Date_parse : string -> option Z.

(** The [forEach] body over the accumulators [(totalAgeDays, count)]. *)
Definition addAge (now : Z) (acc : JS.number * nat) (offer : HistoricalOffer)
  : JS.number * nat :=
  let '(totalAgeDays, count) := acc in
  match offer__encoding_date offer with
  | Some s =>
      match Date_parse s with
      | Some offerDate =>
          let ageInDays :=
            (JS.of_Z (now - offerDate) / JS.of_Z (1000 * 60 * 60 * 24))%js in
          ((totalAgeDays + ageInDays)%js, S count)
      | None => acc
      end
  | None => acc
  end.

Definition _calculateDataRecency (now : Z) (history : list HistoricalOffer)
  : JS.number :=
  if (List.length history =? 0)%nat then 0
  else
    let offersWithDates := filter hasDate history in
    if (List.length offersWithDates =? 0)%nat then 0
    else
      let '(totalAgeDays, count) :=
        fold_left (addAge now) offersWithDates (JS.Fin 0, 0%nat) in
      if (count =? 0)%nat then 50
      else
        let avgAgeDays := (totalAgeDays / JS.of_nat count)%js in
        let recencyScore :=
          JS.Math.max 0
            (100 - avgAgeDays / MAX_DAYS_FOR_RECENT_DATA * 100)%js in
        recencyScore.

Definition degraded : ReliabilityResult :=
  {| reliability := 20;
     reliabilityFactors :=
       {| directHistory := 20; dataRecency := 20; dataConsistency := 20;
          fallbacksUsed := 20 |} |}.

(** The [try] block of [calculateProductReliability]. *)
Definition calculateProductReliability_try (w : World) (db : Db)
    (customerNr productId : string) : Completion ReliabilityResult :=
  productCustomerHistory <-
    _fetchCompleteProductCustomerHistory db customerNr productId ;;
  scores <-
    (if (List.length productCustomerHistory =? 0)%nat then
       let fallbacksUsed : JS.number := 100 in
       productHistory <- _fetchCompleteProductHistory db productId ;;
       if (0 <? List.length productHistory)%nat then
         Return (JS.Fin 0,
                 _calculateDataRecency (Date_now w) productHistory,
                 _calculateDataConsistency productHistory,
                 JS.Math.max 40 (80 - length_of productHistory * 3)%js)
       else
         customerHistory <- _fetchCompleteCustomerHistory db customerNr ;;
         if (0 <? List.length customerHistory)%nat then
           Return (JS.Fin 0,
                   (_calculateDataRecency (Date_now w) customerHistory
                    * 0.5)%js,
                   (_calculateDataConsistency customerHistory * 0.3)%js,
                   (85 - JS.Math.floor (JS.Fin (Math_random w) * 10))%js)
         else
           let productIdSum := JS.charCodeSum productId in
           Return (JS.of_Z (5 + Z.rem productIdSum 15),
                   JS.of_Z (10 + Z.rem productIdSum 20),
                   JS.of_Z (5 + Z.rem productIdSum 20),
                   fallbacksUsed)
     else
       Return (JS.Math.min 100 (length_of productCustomerHistory * 20)%js,
               _calculateDataRecency (Date_now w) productCustomerHistory,
               _calculateDataConsistency productCustomerHistory,
               JS.Fin 0)) ;;
  let '(directHistoryScore, dataRecencyScore, dataConsistencyScore,
        fallbacksUsed) := scores in
  let weightDirectHistory : JS.number := 0.7 in
  let weightDataRecency : JS.number := 0.2 in
  let weightDataConsistency : JS.number := 0.1 in
  let reliabilityScore :=
    JS.Math.round
      (directHistoryScore * weightDirectHistory
       + dataRecencyScore * weightDataRecency
       + dataConsistencyScore * weightDataConsistency)%js in
  Return {| reliability := reliabilityScore;
            reliabilityFactors :=
              {| directHistory := directHistoryScore;
                 dataRecency := dataRecencyScore;
                 dataConsistency := dataConsistencyScore;
                 fallbacksUsed := (100 - fallbacksUsed)%js |} |}.

Definition calculateProductReliability (w : World)
    (customerNr productId : string) : Completion ReliabilityResult :=
  db <- getDb w ;;
  try_catch (calculateProductReliability_try w db customerNr productId)
    (fun error => Return degraded).

End DateParser.

End ReliabilityRepository.

(** ** SuggestedMarkupRepository *)

Module SuggestedMarkupRepository.

Record MarkupFactors : Type := {
  baseMarkup : JS.number;
  clientHistory : option JS.number;
  competitiveAdjustment : option JS.number;
  volumeDiscount : option JS.number;
  urgencyFactor : option JS.number
}.

Record MarkupResult : Type := {
  suggestedMarkup : JS.number;
  probability : JS.number;
  historyCount : nat;
  markupFactors : MarkupFactors
}.

Definition DEFAULT_MARKUP : JS.number := 20.
Definition MIN_MARKUP : JS.number := 1.
Definition MAX_MARKUP : JS.number := 1000.
Definition DEFAULT_AVG_QUANTITY : JS.number := 10.

Definition _fetchProductCustomerHistorySuccess (db : Db)
    (customerNr productId : string) : Completion (list HistoricalOffer) :=
  db PairSuccess10 [customerNr; productId].

Definition _fetchGeneralProductHistorySuccess (db : Db) (productId : string)
  : Completion (list HistoricalOffer) :=
  db ProductSuccess20 [productId].

Definition _fetchGeneralCustomerHistorySuccess (db : Db) (customerNr : string)
  : Completion (list HistoricalOffer) :=
  db CustomerSuccess20 [customerNr].

Definition _fetchCompleteCustomerHistory (db : Db) (customerNr : string)
  : Completion (list HistoricalOffer) :=
  db CustomerComputed30 [customerNr].

Definition _calculateClientHistoryAdjustment (db : Db) (customerNr : string)
  : Completion JS.number :=
  allHistory <- _fetchCompleteCustomerHistory db customerNr ;;
  if (List.length allHistory =? 0)%nat then Return (JS.Fin 0)
  else
    let successCount := length_of (filter succeeded allHistory) in
    let successRate := (successCount / length_of allHistory)%js in
    if (successRate >? 0.7)%js then
      let adjustment := JS.Math.min 5 (JS.Math.round (successRate * 5)%js) in
      Return adjustment
    else if (successRate <? 0.3)%js && (3 <? List.length allHistory)%nat then
      Return (JS.Fin (-2))
    else Return (JS.Fin 0).

Definition _calculateVolumeDiscount (quantity : JS.number)
    (history : list HistoricalOffer) : JS.number :=
  if (List.length history =? 0)%nat then 0
  else
    let avgQuantity :=
      (fold_left
         (fun sum h => sum + JS.or_default (offer_answer__qty h) 0)
         history 0
       / length_of history)%js in
    if (quantity >? avgQuantity * 2)%js then (-5)
    else if (quantity >? avgQuantity * 1.5)%js then (-3)
    else if (quantity <? avgQuantity * 0.5)%js then 2
    else 0.

(** [a.sort(compare)], as a stable insertion sort; [x] goes before the first
    element [y] that does not have [compare(x, y) > 0]. *)
Fixpoint insert (compare : JS.number -> JS.number -> JS.number)
    (x : JS.number) (sorted : list JS.number) : list JS.number :=
  match sorted with
  | [] => [x]
  | y :: rest =>
      if (compare x y >? 0)%js then y :: insert compare x rest
      else x :: sorted
  end.

Fixpoint sort (compare : JS.number -> JS.number -> JS.number)
    (a : list JS.number) : list JS.number :=
  match a with
  | [] => []
  | x :: rest => insert compare x (sort compare rest)
  end.

Definition _computeWeightedMarkup (history : list HistoricalOffer)
  : JS.number :=
  let validMarkups :=
    sort (fun a b => a - b)%js
      (numbers_of (map markup (filter (fun h => valid (markup h)) history))) in
  if (List.length validMarkups =? 0)%nat then DEFAULT_MARKUP
  else
    let medianIndex := (List.length validMarkups / 2)%nat in
    let medianMarkup := nth medianIndex validMarkups JS.NaN in
    let sum := sum_numbers validMarkups in
    let averageMarkup := (sum / length_of validMarkups)%js in
    (JS.Math.max medianMarkup averageMarkup + 2)%js.

Definition _adjustForQuantity (currentQty : JS.number)
    (history : list HistoricalOffer) (baseMarkup : JS.number) : JS.number :=
  let avgHistoricalQty :=
    if (0 <? List.length history)%nat then
      (fold_left
         (fun sum h => sum + JS.or_default (offer_answer__qty h) 1)
         history 0
       / length_of history)%js
    else DEFAULT_AVG_QUANTITY in
  let qtyRatio := (currentQty / avgHistoricalQty)%js in
  if (qtyRatio >? 2)%js then (baseMarkup * 0.9)%js
  else if (qtyRatio <? 0.5)%js then (baseMarkup * 1.1)%js
  else baseMarkup.

Definition _combineFallbackHistories
    (productHistory customerHistory : list HistoricalOffer)
    (currentQty : JS.number) (productId : string) : JS.number :=
  let productMarkup :=
    if (0 <? List.length productHistory)%nat
    then _computeWeightedMarkup productHistory else DEFAULT_MARKUP in
  let customerMarkup :=
    if (0 <? List.length customerHistory)%nat
    then _computeWeightedMarkup customerHistory else DEFAULT_MARKUP in
  let weightProduct : JS.number :=
    if (0 <? List.length productHistory)%nat then 0.7 else 0 in
  let weightCustomer : JS.number :=
    if (0 <? List.length customerHistory)%nat then 0.3 else 0 in
  let totalWeight := (weightProduct + weightCustomer)%js in
  let baseMarkup :=
    if (totalWeight >? 0)%js then
      ((productMarkup * weightProduct + customerMarkup * weightCustomer)
       / totalWeight)%js
    else
      match productId with
      | String _ _ =>
          let productIdSum := JS.charCodeSum productId in
          let variation := (Z.rem productIdSum 20 - 7)%Z in
          let lastTwoDigits :=
            JS.or_default (Some (JS.parseInt (JS.slice_last2 productId))) 0 in
          let categoryAdjustment : JS.number :=
            if (lastTwoDigits <? 20)%js then (-3)
            else if (lastTwoDigits >? 80)%js then 5
            else 0 in
          let baseMarkup :=
            (DEFAULT_MARKUP + JS.of_Z variation + categoryAdjustment)%js in
          JS.Math.max (MIN_MARKUP + 2)%js
            (JS.Math.min (MAX_MARKUP - 5)%js baseMarkup)
      | EmptyString => DEFAULT_MARKUP
      end in
  let combinedHistory := productHistory ++ customerHistory in
  _adjustForQuantity currentQty combinedHistory baseMarkup.

Definition fallback : MarkupResult :=
  {| suggestedMarkup := DEFAULT_MARKUP;
     probability := 50;
     historyCount := 0;
     markupFactors :=
       {| baseMarkup := DEFAULT_MARKUP; clientHistory := None;
          competitiveAdjustment := None; volumeDiscount := None;
          urgencyFactor := None |} |}.

(** [if (adj !== 0) { factors.field = adj; markup += adj; }]: the value of
    the field and the new markup. *)
Definition applyAdjustment (markup adj : JS.number)
  : option JS.number * JS.number :=
  if negb (adj === 0)%js then (Some adj, (markup + adj)%js)
  else (None, markup).

(** The [try] block of [calculateSuggestedMarkup]. *)
Definition calculateSuggestedMarkup_try (db : Db)
    (customerNr productId : string) (quantity purchasePrice rate : JS.number)
  : Completion MarkupResult :=
  history <- _fetchProductCustomerHistorySuccess db customerNr productId ;;
  state <-
    (if (0 <? List.length history)%nat then
       let historyCount := List.length history in
       let markup := _computeWeightedMarkup history in
       let base := markup in
       clientAdjustment <- _calculateClientHistoryAdjustment db customerNr ;;
       let '(clientHistory, markup) :=
         applyAdjustment markup clientAdjustment in
       let volumeDisc := _calculateVolumeDiscount quantity history in
       let '(volumeDiscount, markup) := applyAdjustment markup volumeDisc in
       probability <-
         ProbabilityCalculator._calculateSuccessProbability
           db markup productId customerNr quantity purchasePrice rate ;;
       Return (markup, historyCount, probability,
               {| baseMarkup := base; clientHistory := clientHistory;
                  competitiveAdjustment := None;
                  volumeDiscount := volumeDiscount;
                  urgencyFactor := None |})
     else
       generalProductHistory <-
         _fetchGeneralProductHistorySuccess db productId ;;
       generalCustomerHistory <-
         _fetchGeneralCustomerHistorySuccess db customerNr ;;
       let historyCount :=
         (List.length generalProductHistory
          + List.length generalCustomerHistory)%nat in
       let markup :=
         _combineFallbackHistories generalProductHistory
           generalCustomerHistory quantity productId in
       let base := markup in
       let '(volumeDiscount, markup) :=
         if (0 <? historyCount)%nat then
           applyAdjustment markup
             (_calculateVolumeDiscount quantity
                (generalProductHistory ++ generalCustomerHistory))
         else (None, markup) in
       probability <-
         ProbabilityCalculator._calculateFallbackProbability
           db markup productId customerNr ;;
       Return (markup, historyCount, probability,
               {| baseMarkup := base; clientHistory := None;
                  competitiveAdjustment := None;
                  volumeDiscount := volumeDiscount;
                  urgencyFactor := None |})) ;;
  let '(markup, historyCount, probability, markupFactors) := state in
  let finalMarkup :=
    JS.Math.max MIN_MARKUP (JS.Math.min MAX_MARKUP markup) in
  Return {| suggestedMarkup := JS.toFixed1 finalMarkup;
            probability := JS.Math.round probability;
            historyCount := historyCount;
            markupFactors := markupFactors |}.

Definition calculateSuggestedMarkup (w : World) (customerNr productId : string)
    (quantity purchasePrice rate : JS.number) : Completion MarkupResult :=
  db <- getDb w ;;
  try_catch
    (calculateSuggestedMarkup_try db customerNr productId
       quantity purchasePrice rate)
    (fun error => Return fallback).

End SuggestedMarkupRepository.

(** ** The specification's formulas, for comparison *)

Module Spec.

(** Two numbers denote the same value. *)
Definition same (a b : JS.number) : Prop :=
  match a, b with
  | JS.Fin x, JS.Fin y => x == y
  | JS.PInf, JS.PInf | JS.NInf, JS.NInf | JS.NaN, JS.NaN => True
  | _, _ => False
  end.

(** A record is similar to a proposal: both markups are finite and differ by
    at most [t] points. *)
Definition within (t : Q) (proposed : JS.number) (h : HistoricalOffer) : Prop :=
  exists m p, markup h = Some (JS.Fin m) /\ proposed = JS.Fin p
              /\ Qabs (m - p) <= t.


Definition count {A : Type} (f : A -> bool) (l : list A) : Q :=
  inject_Z (Z.of_nat (List.length (filter f l))).

Definition size {A : Type} (l : list A) : Q :=
  inject_Z (Z.of_nat (List.length l)).

(** Success rate in percent: 100 x successes / records. *)
Definition successRate (l : list HistoricalOffer) : Q :=
  100 * count succeeded l / size l.

(** The markup-tier shift of the no-data branch as section 4.2 lists it,
    over a character sum [sum], the tiers read as ranges (below 10, from 10
    to below 15). *)
Definition tierShift (markup : JS.number) (sum : Z) : Z :=
  if (markup >? 35)%js then (- (15 + Z.rem sum 5))%Z
  else if (markup >? 25)%js then (- (5 + Z.rem sum 5))%Z
  else if (markup <? 10)%js then (10 + Z.rem sum 5)%Z
  else if (markup <? 15)%js then (5 + Z.rem sum 5)%Z
  else 0%Z.

(** The sparse-data blend as the specification words it: 70% of a
    pseudo-score shifted by the tiers of the no-data branch (over the
    character sum [sum]) plus 30% of the overall success rate. *)
Definition sparseBlend (sum : Z) (markup : JS.number)
    (productId customerNr : string) (combined : list HistoricalOffer) : Q :=
  let idSum := (JS.charCodeSum productId + JS.charCodeSum customerNr)%Z in
  (7 # 10) * inject_Z (50 + (Z.rem idSum 20 - 10) + tierShift markup sum)
  + (3 # 10) * successRate combined.

(** The shift that the sparse-data branch applies. *)
Definition sparseShift (markup : JS.number) : Z :=
  if (markup >? 35)%js then (-15)%Z
  else if (markup >? 25)%js then (-5)%Z
  else if (markup <? 15)%js then 5%Z
  else 0%Z.

(** The valid markups of a history, in order. *)
Definition validMarkups (history : list HistoricalOffer) : list JS.number :=
  numbers_of (filter valid (map markup history)).



(** The weighted markup with the median as the specification words it: the
    lower middle element for even counts. *)
Definition weightedMarkupLowerMedian (sorted : list JS.number) : JS.number :=
  let median := nth ((List.length sorted - 1) / 2)%nat sorted JS.NaN in
  let mean := (sum_numbers sorted / length_of sorted)%js in
  (JS.Math.max median mean + 2)%js.

(** The weighted markup over the element of index [floor(n/2)]: the middle
    element, and the upper middle one for even counts. *)
Definition weightedMarkupUpperMedian (sorted : list JS.number) : JS.number :=
  let median := nth (List.length sorted / 2)%nat sorted JS.NaN in
  let mean := (sum_numbers sorted / length_of sorted)%js in
  (JS.Math.max median mean + 2)%js.

Section Recency.

Variable Date_parse : string -> option Z.

(** Time values of the records whose date parses. *)
Fixpoint validTimes (history : list HistoricalOffer) : list Z :=
  match history with
  | [] => []
  | h :: rest =>
      match offer__encoding_date h with
      | Some s =>
          match Date_parse s with
          | Some t => t :: validTimes rest
          | None => validTimes rest
          end
      | None => validTimes rest
      end
  end.

Definition msPerDay : Z := 86400000.

(** Sum of the ages in days, at time [now], of the given time values. *)
Fixpoint totalAgeDays (now : Z) (times : list Z) : Q :=
  match times with
  | [] => 0
  | t :: rest => inject_Z (now - t) / inject_Z msPerDay + totalAgeDays now rest
  end.

Definition avgAgeDays (now : Z) (times : list Z) : Q :=
  totalAgeDays now times / size times.

(** max(0, 100 - avgAgeDays/365 x 100) *)
Definition recencyScore (now : Z) (times : list Z) : Q :=
  Qmax 0 (100 - avgAgeDays now times / 365 * 100).

(** Data recency as the specification words it, reading "carries a date" as
    "has a date that parses": 0 without such a record, else the score. *)
Definition dataRecency (now : Z) (history : list HistoricalOffer) : JS.number :=
  match validTimes history with
  | [] => 0
  | times => JS.Fin (recencyScore now times)
  end.

(** The same, reading "carries a date" as "has a non-empty date field": the
    age of a date that does not parse is [NaN], and so is the average. *)
Definition dataRecencyOfFields (now : Z) (history : list HistoricalOffer)
  : JS.number :=
  match filter ReliabilityRepository.hasDate history with
  | [] => 0
  | dated =>
      if (List.length (validTimes dated) =? List.length dated)%nat
      then JS.Fin (recencyScore now (validTimes dated))
      else JS.NaN
  end.

End Recency.


(** Two hosts hold the same store: [getDb] fails alike, or hands out
    databases that answer every query alike. *)
Definition sameStore (w1 w2 : World) : Prop :=
  match getDb w1, getDb w2 with
  | Return db1, Return db2 => forall sql params, db1 sql params = db2 sql params
  | Throw e1, Throw e2 => e1 = e2
  | _, _ => False
  end.

(** The computation ends in an exception. *)
Definition throws {A : Type} (c : Completion A) : Prop :=
  exists e, c = Throw e.

(** Some query that [calculateProductReliability] issues throws. *)
Definition reliabilityQueryThrows (db : Db) (customerNr productId : string)
  : Prop :=
  throws (db PairStored20 [customerNr; productId])
  \/ (db PairStored20 [customerNr; productId] = Return []
      /\ (throws (db ProductStored30 [productId])
          \/ (db ProductStored30 [productId] = Return []
              /\ throws (db CustomerStored50 [customerNr])))).

(** Some query that [calculateSuggestedMarkup] issues on every run of the
    branch taken throws (with direct history, the two queries of the
    fallback probability are issued only if no similar offer is found, and
    are left out). *)
Definition markupQueryThrows (db : Db) (customerNr productId : string)
  : Prop :=
  throws (db PairSuccess10 [customerNr; productId])
  \/ (exists history,
         db PairSuccess10 [customerNr; productId] = Return history
         /\ history <> []
         /\ (throws (db CustomerComputed30 [customerNr])
             \/ throws (db PairComputed20 [customerNr; productId])))
  \/ (db PairSuccess10 [customerNr; productId] = Return []
      /\ (throws (db ProductSuccess20 [productId])
          \/ throws (db CustomerSuccess20 [customerNr])
          \/ throws (db ProductComputed30 [productId])
          \/ throws (db CustomerComputed30 [customerNr]))).

End Spec.

(** ** Sample stores *)

Module Sample.

(** A row with an outcome flag, a markup and an encoding date. *)
Definition offer (s : Q) (m : option JS.number) (date : option string)
  : HistoricalOffer :=
  {| success := Some (JS.Fin s); offer__nr := None; product__id := None;
     offer_answer__box_price_chf := None;
     purchase_price__gross_purchase_price := None; rate := None;
     offer_answer__qty := None; markup := m; offer__encoding_date := date |}.

(** A store that answers every statement from a table. *)
Definition store (rows : Sql -> list HistoricalOffer) : Db :=
  fun sql _ => Return (rows sql).

(** A store whose every query fails. *)
Definition brokenStore : Db := fun _ _ => Throw "SQLITE_ERROR".

Definition world (db : Db) (now : Z) (random : Q) : World :=
  {| getDb := Return db; Date_now := now; Math_random := random |}.

Definition digit (c : ascii) : option Z :=
  let n := Z.of_nat (nat_of_ascii c) in
  if ((48 <=? n) && (n <=? 57))%Z then Some (n - 48)%Z else None.

Definition isLeap (y : Z) : bool :=
  ((y mod 4 =? 0) && negb (y mod 100 =? 0) || (y mod 400 =? 0))%Z.

Definition daysInMonth (y m : Z) : Z :=
  if (m =? 2)%Z then (if isLeap y then 29 else 28)%Z
  else if ((m =? 4) || (m =? 6) || (m =? 9) || (m =? 11))%Z then 30%Z
  else 31%Z.

(** Days from 1970-01-01 to the civil date [y]-[m]-[d]. *)
Definition daysFromCivil (y m d : Z) : Z :=
  let y' := (if m <=? 2 then y - 1 else y)%Z in
  let era := (y' / 400)%Z in
  let yoe := (y' - era * 400)%Z in
  let doy := ((153 * (if m >? 2 then m - 3 else m + 9) + 2) / 5 + d - 1)%Z in
  let doe := (yoe * 365 + yoe / 4 - yoe / 100 + doy)%Z in
  (era * 146097 + doe - 719468)%Z.

(** A date parser for the samples: the ECMAScript date-only form
    [YYYY-MM-DD] of a calendar date, read as UTC midnight; anything else is
    reported as an Invalid Date. *)
Definition isoDate (s : string) : option Z :=
  match s with
  | String y1 (String y2 (String y3 (String y4 (String "-"
      (String m1 (String m2 (String "-"
        (String d1 (String d2 EmptyString))))))))) =>
      match digit y1, digit y2, digit y3, digit y4,
            digit m1, digit m2, digit d1, digit d2 with
      | Some a, Some b, Some c, Some d, Some e, Some f, Some g, Some h =>
          let y := (a * 1000 + b * 100 + c * 10 + d)%Z in
          let m := (e * 10 + f)%Z in
          let dd := (g * 10 + h)%Z in
          if ((1 <=? m) && (m <=? 12) && (1 <=? dd)
              && (dd <=? daysInMonth y m))%Z
          then Some (daysFromCivil y m dd * 86400000)%Z
          else None
      | _, _, _, _, _, _, _, _ => None
      end
  | _ => None
  end.

(** Every query fails. *)
Definition brokenWorld : World := world brokenStore 0 0.

(** Only the customer has history (with other products); two hosts that
    differ in the random draw alone. *)
Definition customerOnly (sql : Sql) : list HistoricalOffer :=
  match sql with
  | CustomerStored50 => [offer 1 (Some (JS.Fin 20)) None]
  | _ => []
  end.

Definition drawLow : World := world (store customerOnly) 0 0.
Definition drawHigh : World := world (store customerOnly) 0 (1 # 2).

(** Two offers of the pair, both sold at cost (markup 0). *)
Definition atCost (sql : Sql) : list HistoricalOffer :=
  match sql with
  | PairStored20 =>
      [offer 1 (Some (JS.Fin 0)) None; offer 0 (Some (JS.Fin 0)) None]
  | _ => []
  end.

Definition atCostWorld : World := world (store atCost) 0 0.

(** No history at all. *)
Definition emptyWorld : World := world (store (fun _ => [])) 0 0.

(** The product has one offer, far from the proposed markup. *)
Definition sparse (sql : Sql) : list HistoricalOffer :=
  match sql with
  | ProductComputed30 => [offer 1 (Some (JS.Fin 100)) None]
  | _ => []
  end.

(** Four offers of the pair near a markup of 20, three of them accepted. *)
Definition fourSimilar (sql : Sql) : list HistoricalOffer :=
  match sql with
  | PairComputed20 =>
      [offer 1 (Some (JS.Fin 18)) None; offer 1 (Some (JS.Fin 20)) None;
       offer 0 (Some (JS.Fin 22)) None; offer 1 (Some (JS.Fin 25)) None;
       offer 0 (Some (JS.Fin 40)) None; offer 1 None None]
  | _ => []
  end.

(** The clock at 2025-11-03T00:00:00Z. *)
Definition today : Z := 1762128000000.

(** One offer whose date field does not hold a date. *)
Definition undatable : list HistoricalOffer :=
  [offer 1 (Some (JS.Fin 20)) (Some "n/a"%string)].

(** Two offers encoded exactly 365 days before [today], one without date. *)
Definition yearOld : list HistoricalOffer :=
  [offer 1 (Some (JS.Fin 20)) (Some "2024-11-03"%string);
   offer 0 (Some (JS.Fin 25)) None;
   offer 0 (Some (JS.Fin 30)) (Some "2024-11-03"%string)].


(** One offer of the pair, dated a year after [today]. *)
Definition postdated (sql : Sql) : list HistoricalOffer :=
  match sql with
  | PairStored20 => [offer 1 (Some (JS.Fin 20)) (Some "2026-11-03"%string)]
  | _ => []
  end.

End Sample.

(** ** Further formulas and sample stores *)

Module Cases.


(** The value of an optional factor in a sum: a factor that is not reported
    counts 0. *)
Definition factor (f : option JS.number) : JS.number :=
  match f with
  | Some a => a
  | None => 0
  end.

(** The markup that the reported factors explain: their sum, limited to
    [[MIN_MARKUP, MAX_MARKUP]] and rounded to one decimal. *)
Definition explained (f : SuggestedMarkupRepository.MarkupFactors)
  : JS.number :=
  JS.toFixed1
    (JS.Math.max SuggestedMarkupRepository.MIN_MARKUP
       (JS.Math.min SuggestedMarkupRepository.MAX_MARKUP
          (SuggestedMarkupRepository.baseMarkup f
           + factor (SuggestedMarkupRepository.clientHistory f)
           + factor (SuggestedMarkupRepository.competitiveAdjustment f)
           + factor (SuggestedMarkupRepository.volumeDiscount f)
           + factor (SuggestedMarkupRepository.urgencyFactor f))%js)).

(** Ten successful offers of the pair at markup 30 and quantity 4; the
    customer accepted four offers out of five. *)
Definition loyal (sql : Sql) : list HistoricalOffer :=
  let sold (m : Q) : HistoricalOffer :=
    {| success := Some (JS.Fin 1); offer__nr := None; product__id := None;
       offer_answer__box_price_chf := None;
       purchase_price__gross_purchase_price := None; rate := None;
       offer_answer__qty := Some (JS.Fin 4); markup := Some (JS.Fin m);
       offer__encoding_date := None |} in
  match sql with
  | PairSuccess10 => [sold 30; sold 30]
  | CustomerComputed30 =>
      [Sample.offer 1 (Some (JS.Fin 30)) None;
       Sample.offer 1 (Some (JS.Fin 30)) None;
       Sample.offer 1 (Some (JS.Fin 12)) None;
       Sample.offer 1 (Some (JS.Fin 50)) None;
       Sample.offer 0 (Some (JS.Fin 60)) None]
  | PairComputed20 =>
      [Sample.offer 1 (Some (JS.Fin 30)) None;
       Sample.offer 1 (Some (JS.Fin 30)) None;
       Sample.offer 0 (Some (JS.Fin 60)) None]
  | _ => []
  end.

Definition loyalWorld : World := Sample.world (Sample.store loyal) 0 0.

(** A row has no usable quantity: the column is missing, NULL, 0 or [NaN]. *)
Definition noQuantity (h : HistoricalOffer) : Prop :=
  match offer_answer__qty h with
  | Some a => JS.truthy a = false
  | None => True
  end.

(** A number is finite and lies between [lo] and [hi]. *)
Definition between (lo hi : Q) (a : JS.number) : Prop :=
  exists q, a = JS.Fin q /\ lo <= q <= hi.

(** No row holds an infinite markup. *)
Definition noInfiniteMarkup (history : list HistoricalOffer) : Prop :=
  Forall (fun h => markup h <> Some JS.PInf /\ markup h <> Some JS.NInf)
    history.

(** Successful offers of the product at markups 18, 40 and 26. *)
Definition threeMarkups : list HistoricalOffer :=
  [Sample.offer 1 (Some (JS.Fin 18)) None;
   Sample.offer 1 (Some (JS.Fin 40)) None;
   Sample.offer 1 None None;
   Sample.offer 1 (Some (JS.Fin 26)) None].

(** No query of the store returns a row with an infinite markup. *)
Definition finiteStore (db : Db) : Prop :=
  forall sql params rows,
    db sql params = Return rows -> noInfiniteMarkup rows.

(** A number is [NaN], [Infinity] or finite and not negative. *)
Definition notNegative (a : JS.number) : Prop :=
  a = JS.NaN \/ a = JS.PInf \/ exists q, a = JS.Fin q /\ 0 <= q.

(** Three offers of the pair at the same markup 10. *)
Definition steady : list HistoricalOffer :=
  [Sample.offer 1 (Some (JS.Fin 10)) None;
   Sample.offer 0 (Some (JS.Fin 10)) None;
   Sample.offer 0 None None;
   Sample.offer 1 (Some (JS.Fin 10)) None].

(** No row that the store returns carries a date later than [now]. *)
Definition noPostdatedOffer (Date_parse : string -> option Z) (now : Z)
    (db : Db) : Prop :=
  forall sql params rows,
    db sql params = Return rows ->
    forall t,
      In t (Spec.validTimes Date_parse
              (filter ReliabilityRepository.hasDate rows)) ->
      (t <= now)%Z.

(** Five dated offers of the pair. *)
Definition regular (sql : Sql) : list HistoricalOffer :=
  match sql with
  | PairStored20 =>
      [Sample.offer 1 (Some (JS.Fin 20)) (Some "2025-10-01"%string);
       Sample.offer 1 (Some (JS.Fin 22)) (Some "2025-08-15"%string);
       Sample.offer 0 (Some (JS.Fin 25)) (Some "2025-05-02"%string);
       Sample.offer 1 (Some (JS.Fin 21)) (Some "2025-01-20"%string);
       Sample.offer 1 (Some (JS.Fin 19)) (Some "2024-12-24"%string)]
  | _ => []
  end.

Definition regularWorld : World :=
  Sample.world (Sample.store regular) Sample.today 0.

(** The quantity of a row as the volume discount counts it: a missing
    quantity counts 0. *)
Definition quantityOf (h : HistoricalOffer) : Q :=
  match offer_answer__qty h with
  | Some (JS.Fin q) => q
  | _ => 0
  end.

(** The quantity of a row is missing or a finite number. *)
Definition finiteQuantity (h : HistoricalOffer) : Prop :=
  match offer_answer__qty h with
  | Some (JS.Fin _) | None => True
  | Some _ => False
  end.

Fixpoint totalQuantity (history : list HistoricalOffer) : Q :=
  match history with
  | [] => 0
  | h :: rest => quantityOf h + totalQuantity rest
  end.

(** Average historical quantity. *)
Definition avgQuantity (history : list HistoricalOffer) : Q :=
  totalQuantity history / Spec.size history.

(** A number is finite and not below [lo]. *)
Definition atLeast (lo : Q) (a : JS.number) : Prop :=
  exists q, a = JS.Fin q /\ lo <= q.



(** A row with a quantity. *)
Definition withQuantity (qty : Q) : HistoricalOffer :=
  {| success := Some (JS.Fin 1); offer__nr := None; product__id := None;
     offer_answer__box_price_chf := None;
     purchase_price__gross_purchase_price := None; rate := None;
     offer_answer__qty := Some (JS.Fin qty); markup := Some (JS.Fin 25);
     offer__encoding_date := None |}.

End Cases.

(** * Properties *)

(** ** Comparisons and arithmetic of numbers *)

Lemma Qlt_bool_true (x y : Q) : JS.Qlt_bool x y = true <-> x < y.
Proof.
  unfold JS.Qlt_bool.
  rewrite negb_true_iff, <- not_true_iff_false, Qle_bool_iff.
  split; [apply Qnot_le_lt | apply Qlt_not_le].
Qed.

Lemma Qlt_bool_false (x y : Q) : JS.Qlt_bool x y = false <-> y <= x.
Proof.
  unfold JS.Qlt_bool. rewrite negb_false_iff. apply Qle_bool_iff.
Qed.

Lemma Qle_bool_false (x y : Q) : Qle_bool x y = false <-> y < x.
Proof.
  rewrite <- not_true_iff_false, Qle_bool_iff.
  split; [apply Qnot_le_lt | apply Qlt_not_le].
Qed.

Lemma Qeq_bool_false (x y : Q) : Qeq_bool x y = false <-> ~ x == y.
Proof. rewrite <- not_true_iff_false, Qeq_bool_iff. tauto. Qed.

(** Turns the boolean tests on rationals in the context and the goal into
    propositions. *)
Ltac reflect_Q :=
  repeat match goal with
  | H : JS.Qlt_bool _ _ = true |- _ => apply Qlt_bool_true in H
  | H : JS.Qlt_bool _ _ = false |- _ => apply Qlt_bool_false in H
  | H : Qle_bool _ _ = true |- _ => apply Qle_bool_iff in H
  | H : Qle_bool _ _ = false |- _ => apply Qle_bool_false in H
  | H : Qeq_bool _ _ = true |- _ => apply Qeq_bool_iff in H
  | H : Qeq_bool _ _ = false |- _ => apply Qeq_bool_false in H
  | |- JS.Qlt_bool _ _ = true => apply Qlt_bool_true
  | |- JS.Qlt_bool _ _ = false => apply Qlt_bool_false
  | |- Qle_bool _ _ = true => apply Qle_bool_iff
  | |- Qle_bool _ _ = false => apply Qle_bool_false
  | |- Qeq_bool _ _ = true => apply Qeq_bool_iff
  | |- Qeq_bool _ _ = false => apply Qeq_bool_false
  end.

Lemma length_eqb_0 {A : Type} (l : list A) :
  (List.length l =? 0)%nat = true <-> l = [].
Proof. destruct l; simpl; split; congruence. Qed.

Lemma length_ltb_0 {A : Type} (l : list A) :
  l <> [] -> (0 <? List.length l)%nat = true.
Proof. destruct l; [congruence | reflexivity]. Qed.

Lemma Return_inj {A : Type} (a b : A) : Return a = Return b -> a = b.
Proof. intros H. now injection H. Qed.

Lemma try_catch_returns {A : Type} (body : Completion A) (d : A) :
  exists r, try_catch body (fun _ => Return d) = Return r.
Proof. destruct body; simpl; eauto. Qed.

(** ** Error handling (C1) *)

(** C1, as stated, fails: [calculateSuccessProbability] has no handler, so a
    query that raises rejects the call. *)
Lemma probability_propagates_query_failure :
  ProbabilityCalculator.calculateSuccessProbability
    Sample.brokenWorld "C1" "P1" 20 1 0 1 = Throw "SQLITE_ERROR".
Proof. reflexivity. Qed.

Lemma fallbackProbability_returns (db : Db) (markup : JS.number)
    (productId customerNr : string) (product customer : list HistoricalOffer) :
  db ProductComputed30 [productId] = Return product ->
  db CustomerComputed30 [customerNr] = Return customer ->
  exists v,
    ProbabilityCalculator._calculateFallbackProbability
      db markup productId customerNr = Return v.
Proof.
  intros Hproduct Hcustomer.
  unfold ProbabilityCalculator._calculateFallbackProbability,
    ProbabilityCalculator._fetchCompleteProductHistory,
    ProbabilityCalculator._fetchCompleteCustomerHistory.
  rewrite Hproduct, Hcustomer. cbn [bind].
  destruct (List.length (product ++ customer) =? 0)%nat; [eauto|].
  destruct (List.length _ <? 3)%nat; [|eauto].
  destruct (0 <? List.length (product ++ customer))%nat; eauto.
Qed.

(** [getDb] is awaited outside every handler: when it fails, each of the
    three entry points rejects. *)
Lemma failing_getDb_rejects (Date_parse : string -> option Z) (w : World)
    (e : string) (customerNr productId : string)
    (markup quantity purchasePrice rate : JS.number) :
  getDb w = Throw e ->
  ProbabilityCalculator.calculateSuccessProbability
    w customerNr productId markup quantity purchasePrice rate = Throw e
  /\ ReliabilityRepository.calculateProductReliability
       Date_parse w customerNr productId = Throw e
  /\ SuggestedMarkupRepository.calculateSuggestedMarkup
       w customerNr productId quantity purchasePrice rate = Throw e.
Proof.
  intros Hdb.
  unfold ProbabilityCalculator.calculateSuccessProbability,
    ReliabilityRepository.calculateProductReliability,
    SuggestedMarkupRepository.calculateSuggestedMarkup,
    SuggestedMarkupRepository.calculateSuggestedMarkup_try.
  rewrite Hdb. repeat split.
Qed.

Lemma fallbackProbability_throws (db : Db) (markup : JS.number)
    (productId customerNr : string) :
  Spec.throws (db ProductComputed30 [productId])
  \/ Spec.throws (db CustomerComputed30 [customerNr]) ->
  Spec.throws
    (ProbabilityCalculator._calculateFallbackProbability
       db markup productId customerNr).
Proof.
  unfold ProbabilityCalculator._calculateFallbackProbability,
    ProbabilityCalculator._fetchCompleteProductHistory,
    ProbabilityCalculator._fetchCompleteCustomerHistory.
  intros [[e He]|[e He]].
  - exists e. now rewrite He.
  - destruct (db ProductComputed30 [productId]) as [ph|e'].
    + exists e. now rewrite He.
    + now exists e'.
Qed.

(** C1 (amended): once [getDb] has handed out the database,
    [calculateProductReliability] and [calculateSuggestedMarkup] always
    return a result; an exception inside their [try] block, as a query that
    raises causes it, gives their fixed default.
    [calculateSuccessProbability] returns a probability when none of its
    queries raises. *)
Theorem reliability_and_markup_never_throw :
  forall (Date_parse : string -> option Z) (w : World) (db : Db)
         (customerNr productId : string)
         (markup quantity purchasePrice rate : JS.number),
    getDb w = Return db ->
    let reliability :=
      ReliabilityRepository.calculateProductReliability
        Date_parse w customerNr productId in
    let suggested :=
      SuggestedMarkupRepository.calculateSuggestedMarkup
        w customerNr productId quantity purchasePrice rate in
    (exists r, reliability = Return r)
    /\ (exists r, suggested = Return r)
    /\ (Spec.throws
          (ReliabilityRepository.calculateProductReliability_try
             Date_parse w db customerNr productId) ->
        reliability = Return ReliabilityRepository.degraded)
    /\ (Spec.throws
          (SuggestedMarkupRepository.calculateSuggestedMarkup_try
             db customerNr productId quantity purchasePrice rate) ->
        suggested = Return SuggestedMarkupRepository.fallback)
    /\ (Spec.reliabilityQueryThrows db customerNr productId ->
        reliability = Return ReliabilityRepository.degraded)
    /\ (Spec.markupQueryThrows db customerNr productId ->
        suggested = Return SuggestedMarkupRepository.fallback)
    /\ (forall pair product customer,
           db PairComputed20 [customerNr; productId] = Return pair ->
           db ProductComputed30 [productId] = Return product ->
           db CustomerComputed30 [customerNr] = Return customer ->
           exists v,
             ProbabilityCalculator.calculateSuccessProbability
               w customerNr productId markup quantity purchasePrice rate
             = Return v).
Proof.
  intros Date_parse w db customerNr productId markup quantity purchasePrice rate
         Hdb reliability suggested.
  unfold reliability, suggested,
    ReliabilityRepository.calculateProductReliability,
    SuggestedMarkupRepository.calculateSuggestedMarkup,
    ProbabilityCalculator.calculateSuccessProbability.
  rewrite Hdb. cbn [bind].
  split; [apply try_catch_returns|].
  split; [apply try_catch_returns|].
  split; [intros [e ->]; reflexivity|].
  split; [intros [e ->]; reflexivity|].
  split; [|split].
  - unfold ReliabilityRepository.calculateProductReliability_try,
      ReliabilityRepository._fetchCompleteProductCustomerHistory,
      ReliabilityRepository._fetchCompleteProductHistory,
      ReliabilityRepository._fetchCompleteCustomerHistory.
    intros [[e He]|[Hpair [[e He]|[Hproduct [e He]]]]].
    + rewrite He. reflexivity.
    + rewrite Hpair, He. reflexivity.
    + rewrite Hpair, Hproduct, He. reflexivity.
  - unfold SuggestedMarkupRepository.calculateSuggestedMarkup_try,
      SuggestedMarkupRepository._fetchProductCustomerHistorySuccess,
      SuggestedMarkupRepository._fetchGeneralProductHistorySuccess,
      SuggestedMarkupRepository._fetchGeneralCustomerHistorySuccess,
      SuggestedMarkupRepository._calculateClientHistoryAdjustment,
      SuggestedMarkupRepository._fetchCompleteCustomerHistory.
    intros [[e He]|[(history & Hhist & Hne & Hthrow)|[Hhist Hthrow]]].
    + rewrite He. reflexivity.
    + rewrite Hhist. cbn [bind]. rewrite (length_ltb_0 _ Hne).
      destruct (db CustomerComputed30 [customerNr]) as [all|e'];
        [|reflexivity].
      destruct Hthrow as [[e He]|[e He]]; [discriminate He|].
      cbn [bind].
      destruct (List.length all =? 0)%nat; cbn [bind].
      2: destruct (_ >? 0.7)%js; cbn [bind].
      3: destruct (_ && _)%bool; cbn [bind].
      all: repeat match goal with
           | |- context [let '(_, _) := ?x in _] => destruct x
           end;
        unfold ProbabilityCalculator._calculateSuccessProbability,
          ProbabilityCalculator._fetchCompleteProductCustomerHistory;
        rewrite He; reflexivity.
    + rewrite Hhist. cbn [bind List.length Nat.ltb Nat.leb].
      destruct (db ProductSuccess20 [productId]) as [ph|e'];
        [cbn [bind]|reflexivity].
      destruct (db CustomerSuccess20 [customerNr]) as [ch|e'];
        [cbn [bind]|reflexivity].
      assert (Hfb : Spec.throws (db ProductComputed30 [productId])
                    \/ Spec.throws (db CustomerComputed30 [customerNr])).
      { destruct Hthrow as [[e He]|[[e He]|[H|H]]];
          try discriminate He; auto. }
      match goal with
      | |- context [let '(_, _) := ?x in _] => destruct x as [vd m]
      end.
      destruct (fallbackProbability_throws db m productId customerNr Hfb)
        as (e & He).
      rewrite He. reflexivity.
  - intros pair product customer Hpair Hproduct Hcustomer.
    destruct (fallbackProbability_returns db markup productId customerNr
                product customer Hproduct Hcustomer) as (v & Hv).
    unfold ProbabilityCalculator._calculateSuccessProbability,
      ProbabilityCalculator._fetchCompleteProductCustomerHistory.
    rewrite Hpair. cbn [bind]. rewrite Hv.
    destruct (List.length pair =? 0)%nat; [eauto|].
    destruct (List.length _ =? 0)%nat; eauto.
Qed.

Lemma reliability_and_markup_never_throw_witness :
  ReliabilityRepository.calculateProductReliability
    Sample.isoDate Sample.brokenWorld "C1" "P1"
  = Return ReliabilityRepository.degraded
  /\ SuggestedMarkupRepository.calculateSuggestedMarkup
       Sample.brokenWorld "C1" "P1" 1 0 1
     = Return SuggestedMarkupRepository.fallback.
Proof.
  destruct (reliability_and_markup_never_throw Sample.isoDate
              Sample.brokenWorld Sample.brokenStore "C1" "P1" 20 1 0 1
              eq_refl) as (_ & _ & _ & _ & H1 & H2 & _).
  split.
  - apply H1. left. exists "SQLITE_ERROR"%string. reflexivity.
  - apply H2. left. exists "SQLITE_ERROR"%string. reflexivity.
Defined.

(** ** Reproducibility (C2) *)

(** C2, as stated, fails: with the store, the clock and the arguments
    unchanged, two hosts that differ in what [Math.random()] returns get
    different [fallbacksUsed] factors from [calculateProductReliability]. *)
Lemma reliability_depends_on_random_draw :
  Spec.sameStore Sample.drawLow Sample.drawHigh
  /\ Date_now Sample.drawLow = Date_now Sample.drawHigh
  /\ exists r1 r2,
      ReliabilityRepository.calculateProductReliability
        Sample.isoDate Sample.drawLow "C1" "P1" = Return r1
      /\ ReliabilityRepository.calculateProductReliability
           Sample.isoDate Sample.drawHigh "C1" "P1" = Return r2
      /\ ReliabilityRepository.fallbacksUsed
           (ReliabilityRepository.reliabilityFactors r1) = 15
      /\ ReliabilityRepository.fallbacksUsed
           (ReliabilityRepository.reliabilityFactors r2) = 20.
Proof.
  split; [intros sql params; reflexivity|].
  split; [reflexivity|].
  eexists. eexists.
  split; [vm_compute; reflexivity|].
  split; [vm_compute; reflexivity|].
  split; reflexivity.
Qed.

Section SameStore.

Variables db1 db2 : Db.
Hypothesis same_answers : forall sql params, db1 sql params = db2 sql params.

Lemma fallbackProbability_same_store markup productId customerNr :
  ProbabilityCalculator._calculateFallbackProbability
    db1 markup productId customerNr
  = ProbabilityCalculator._calculateFallbackProbability
      db2 markup productId customerNr.
Proof.
  unfold ProbabilityCalculator._calculateFallbackProbability,
    ProbabilityCalculator._fetchCompleteProductHistory,
    ProbabilityCalculator._fetchCompleteCustomerHistory.
  rewrite !same_answers. reflexivity.
Qed.

Lemma successProbability_same_store markup productId customerNr q pp r :
  ProbabilityCalculator._calculateSuccessProbability
    db1 markup productId customerNr q pp r
  = ProbabilityCalculator._calculateSuccessProbability
      db2 markup productId customerNr q pp r.
Proof.
  unfold ProbabilityCalculator._calculateSuccessProbability,
    ProbabilityCalculator._fetchCompleteProductCustomerHistory.
  rewrite same_answers.
  destruct (db2 PairComputed20 [customerNr; productId]) as [history|e];
    cbn [bind]; [|reflexivity].
  rewrite !fallbackProbability_same_store. reflexivity.
Qed.

Lemma clientHistoryAdjustment_same_store customerNr :
  SuggestedMarkupRepository._calculateClientHistoryAdjustment db1 customerNr
  = SuggestedMarkupRepository._calculateClientHistoryAdjustment db2 customerNr.
Proof.
  unfold SuggestedMarkupRepository._calculateClientHistoryAdjustment,
    SuggestedMarkupRepository._fetchCompleteCustomerHistory.
  rewrite same_answers. reflexivity.
Qed.

End SameStore.

(** C2 (amended): for identical arguments and an unchanged store,
    [calculateSuccessProbability] and [calculateSuggestedMarkup] return
    identical results whatever the clock and the random source;
    [calculateProductReliability] returns identical results when, in
    addition, the clock reading and the value drawn by [Math.random()] are
    the same. *)
Theorem estimators_repeatable :
  forall (Date_parse : string -> option Z) (w1 w2 : World)
         (customerNr productId : string)
         (markup quantity purchasePrice rate : JS.number),
    Spec.sameStore w1 w2 ->
    ProbabilityCalculator.calculateSuccessProbability
      w1 customerNr productId markup quantity purchasePrice rate
    = ProbabilityCalculator.calculateSuccessProbability
        w2 customerNr productId markup quantity purchasePrice rate
    /\ SuggestedMarkupRepository.calculateSuggestedMarkup
         w1 customerNr productId quantity purchasePrice rate
       = SuggestedMarkupRepository.calculateSuggestedMarkup
           w2 customerNr productId quantity purchasePrice rate
    /\ (Date_now w1 = Date_now w2 -> Math_random w1 = Math_random w2 ->
        ReliabilityRepository.calculateProductReliability
          Date_parse w1 customerNr productId
        = ReliabilityRepository.calculateProductReliability
            Date_parse w2 customerNr productId).
Proof.
  intros Date_parse w1 w2 customerNr productId markup quantity purchasePrice
         rate Hsame.
  unfold Spec.sameStore in Hsame.
  unfold ProbabilityCalculator.calculateSuccessProbability,
    SuggestedMarkupRepository.calculateSuggestedMarkup,
    SuggestedMarkupRepository.calculateSuggestedMarkup_try,
    ReliabilityRepository.calculateProductReliability,
    ReliabilityRepository.calculateProductReliability_try.
  destruct (getDb w1) as [db1|e1], (getDb w2) as [db2|e2];
    try contradiction; cbn [bind].
  - split; [apply successProbability_same_store; assumption|].
    split.
    + unfold SuggestedMarkupRepository._fetchProductCustomerHistorySuccess,
        SuggestedMarkupRepository._fetchGeneralProductHistorySuccess,
        SuggestedMarkupRepository._fetchGeneralCustomerHistorySuccess.
      rewrite Hsame.
      destruct (db2 PairSuccess10 [customerNr; productId]) as [history|e];
        cbn [bind]; [|reflexivity].
      destruct (0 <? List.length history)%nat.
      * rewrite (clientHistoryAdjustment_same_store db1 db2 Hsame).
        destruct (SuggestedMarkupRepository._calculateClientHistoryAdjustment
                    db2 customerNr) as [adj|e]; cbn [bind]; [|reflexivity].
        destruct (SuggestedMarkupRepository.applyAdjustment _ adj)
          as [clientHistory m1].
        destruct (SuggestedMarkupRepository.applyAdjustment m1 _)
          as [volumeDiscount m2].
        rewrite (successProbability_same_store db1 db2 Hsame). reflexivity.
      * rewrite !Hsame.
        destruct (db2 ProductSuccess20 [productId]) as [ph|e];
          cbn [bind]; [|reflexivity].
        destruct (db2 CustomerSuccess20 [customerNr]) as [ch|e];
          cbn [bind]; [|reflexivity].
        match goal with
        | |- context [let '(_, _) := ?x in _] => destruct x as [vd m]
        end.
        rewrite (fallbackProbability_same_store db1 db2 Hsame). reflexivity.
    + intros Hnow Hrandom.
      unfold ReliabilityRepository._fetchCompleteProductCustomerHistory,
        ReliabilityRepository._fetchCompleteProductHistory,
        ReliabilityRepository._fetchCompleteCustomerHistory.
      rewrite !Hsame, Hnow, Hrandom. reflexivity.
  - subst e2. repeat split; reflexivity.
Qed.

Lemma estimators_repeatable_witness :
  ProbabilityCalculator.calculateSuccessProbability
    Sample.drawLow "C1" "P1" 20 1 0 1
  = ProbabilityCalculator.calculateSuccessProbability
      Sample.drawHigh "C1" "P1" 20 1 0 1
  /\ SuggestedMarkupRepository.calculateSuggestedMarkup
       Sample.drawLow "C1" "P1" 1 0 1
     = SuggestedMarkupRepository.calculateSuggestedMarkup
         Sample.drawHigh "C1" "P1" 1 0 1.
Proof.
  destruct (estimators_repeatable Sample.isoDate Sample.drawLow
              Sample.drawHigh "C1" "P1" 20 1 0 1 (fun _ _ => eq_refl))
    as (H1 & H2 & _).
  exact (conj H1 H2).
Defined.

(** ** The reliability score (C6, C7) *)

(** C6, as stated, fails: the character codes of ["00"] add up to 96, not 0,
    so without any history [directHistory] is 5 + 96 mod 15 = 11. *)
Lemma directHistory_of_00_is_11 :
  exists r,
    ReliabilityRepository.calculateProductReliability
      Sample.isoDate Sample.emptyWorld "C1" "00" = Return r
    /\ ReliabilityRepository.directHistory
         (ReliabilityRepository.reliabilityFactors r) = 11
    /\ ~ Spec.same (ReliabilityRepository.directHistory
                      (ReliabilityRepository.reliabilityFactors r)) 5.
Proof.
  eexists. split; [vm_compute; reflexivity|].
  split; [reflexivity|].
  cbn. intros H. discriminate H.
Qed.

(** C6 (amended): when pair, product and customer history are all empty,
    [directHistory] is 5 plus the sum of the character codes of [productId]
    modulo 15; for ["00"] that sum is 96 and [directHistory] is 11. *)
Theorem directHistory_without_history :
  forall (Date_parse : string -> option Z) (w : World) (db : Db)
         (customerNr productId : string),
    getDb w = Return db ->
    db PairStored20 [customerNr; productId] = Return [] ->
    db ProductStored30 [productId] = Return [] ->
    db CustomerStored50 [customerNr] = Return [] ->
    exists r,
      ReliabilityRepository.calculateProductReliability
        Date_parse w customerNr productId = Return r
      /\ ReliabilityRepository.directHistory
           (ReliabilityRepository.reliabilityFactors r)
         = JS.of_Z (5 + Z.rem (JS.charCodeSum productId) 15)
      /\ (productId = "00"%string ->
          ReliabilityRepository.directHistory
            (ReliabilityRepository.reliabilityFactors r) = 11).
Proof.
  intros Date_parse w db customerNr productId Hdb Hpair Hproduct Hcustomer.
  unfold ReliabilityRepository.calculateProductReliability,
    ReliabilityRepository.calculateProductReliability_try,
    ReliabilityRepository._fetchCompleteProductCustomerHistory,
    ReliabilityRepository._fetchCompleteProductHistory,
    ReliabilityRepository._fetchCompleteCustomerHistory.
  rewrite Hdb. cbn [bind]. rewrite Hpair. cbn [bind List.length Nat.eqb].
  rewrite Hproduct. cbn [bind List.length Nat.ltb Nat.leb].
  rewrite Hcustomer. cbn [bind List.length Nat.ltb Nat.leb try_catch].
  eexists. split; [reflexivity|].
  cbn [ReliabilityRepository.reliabilityFactors
         ReliabilityRepository.directHistory].
  split; [reflexivity|].
  intros ->. reflexivity.
Qed.

Lemma directHistory_without_history_witness :
  exists r,
    ReliabilityRepository.calculateProductReliability
      Sample.isoDate Sample.emptyWorld "C1" "00" = Return r
    /\ ReliabilityRepository.directHistory
         (ReliabilityRepository.reliabilityFactors r) = 11.
Proof.
  destruct (directHistory_without_history Sample.isoDate Sample.emptyWorld
              (Sample.store (fun _ => [])) "C1" "00"
              eq_refl eq_refl eq_refl eq_refl) as (r & Hr & _ & H00).
  exists r. split; [exact Hr | exact (H00 eq_refl)].
Defined.





(** ** Success probability (C4, C8, C10) *)

Lemma size_nonzero {A : Type} (l : list A) : l <> [] -> ~ Spec.size l == 0.
Proof.
  intros Hl. unfold Spec.size, Qeq. simpl. destruct l; [congruence|].
  simpl List.length. lia.
Qed.

Lemma rate_of_lengths {A B : Type} (a : list A) (b : list B) :
  b <> [] ->
  (length_of a / length_of b * 100)%js
  = JS.Fin (Spec.size a / Spec.size b * 100).
Proof.
  intros Hb. unfold length_of, JS.of_nat, JS.of_Z. cbn [JS.div].
  fold (Spec.size a). fold (Spec.size b).
  destruct (Qeq_bool (Spec.size b) 0) eqn:E; [|reflexivity].
  reflect_Q. now apply size_nonzero in Hb.
Qed.

Lemma charCodeSum_from_le (s : string) :
  forall a, (a <= JS.charCodeSum_from a s)%Z.
Proof.
  induction s as [|c s IH]; intros a; cbn [JS.charCodeSum_from]; [lia|].
  specialize (IH (a + Z.of_nat (nat_of_ascii c))%Z). lia.
Qed.

Lemma charCodeSum_nonneg (s : string) : (0 <= JS.charCodeSum s)%Z.
Proof. apply charCodeSum_from_le. Qed.

Lemma size_filter_le {A : Type} (f : A -> bool) (l : list A) :
  0 <= Spec.size (filter f l) <= Spec.size l.
Proof.
  unfold Spec.size. split.
  - change 0 with (inject_Z 0). rewrite <- Zle_Qle. lia.
  - rewrite <- Zle_Qle. pose proof (filter_length_le f l). lia.
Qed.

Lemma rate_bounds {A : Type} (f : A -> bool) (l : list A) :
  l <> [] ->
  exists x,
    (length_of (filter f l) / length_of l * 100)%js = JS.Fin x
    /\ 0 <= x <= 100.
Proof.
  intros Hne. rewrite (rate_of_lengths _ _ Hne).
  eexists. split; [reflexivity|].
  destruct (size_filter_le f l) as [H0 Hle].
  assert (Hpos : 0 < Spec.size l).
  { pose proof (size_nonzero _ Hne). lra. }
  assert (H1 : 0 <= Spec.size (filter f l) / Spec.size l)
    by (apply Qle_shift_div_l; lra).
  assert (H2 : Spec.size (filter f l) / Spec.size l <= 1)
    by (apply Qle_shift_div_r; lra).
  lra.
Qed.

(** The filter of the code selects the records that the specification calls
    similar. *)
Lemma similarMarkup_within (t : Q) (proposed : JS.number)
    (h : HistoricalOffer) :
  ProbabilityCalculator.similarMarkup t proposed h = true
  <-> Spec.within t proposed h.
Proof.
  unfold ProbabilityCalculator.similarMarkup, Spec.within.
  destruct (markup h) as [[m| | |]|], proposed as [p| | |]; cbn;
    split; intros H;
    try discriminate H;
    try (destruct H as (m' & p' & Hm & Hp & _); discriminate).
  - exists m, p. reflect_Q. auto.
  - destruct H as (m' & p' & Hm & Hp & Hle).
    injection Hm as ->. injection Hp as ->. now reflect_Q.
Qed.




(** What the tests of the tier chain answer for a markup below 10. *)
Lemma tests_below_10 (markup : JS.number) :
  (markup <? 10)%js = true ->
  (markup >? 35)%js = false /\ (markup >? 25)%js = false
  /\ (markup <? 15)%js = true.
Proof.
  destruct markup as [m| | |]; cbn; intros H; try discriminate H;
    repeat split; try reflexivity; reflect_Q; lra.
Qed.

Lemma tests_not_below_15 (markup : JS.number) :
  (markup <? 15)%js = false -> (markup <? 10)%js = false.
Proof.
  destruct markup as [m| | |]; cbn; intros H; try discriminate H;
    try reflexivity; reflect_Q; lra.
Qed.

(** C10: in both pseudo-score computations of the probability fallback a
    markup below 10 gets the shift of the [markup < 15] tier, [5 + sum % 5]
    without data and [5] with sparse data, never the shift of the
    [markup < 10] tier. *)
Theorem tier_below_10_is_unreachable :
  forall (db : Db) (markup : JS.number) (productId customerNr : string)
         (productHistory customerHistory : list HistoricalOffer),
    (markup <? 10)%js = true ->
    db ProductComputed30 [productId] = Return productHistory ->
    db CustomerComputed30 [customerNr] = Return customerHistory ->
    let combined := productHistory ++ customerHistory in
    let productIdSum := JS.charCodeSum productId in
    let customerIdSum := JS.charCodeSum customerNr in
    (combined = [] ->
     ProbabilityCalculator._calculateFallbackProbability
       db markup productId customerNr
     = Return
         (JS.Math.min 85
            (JS.Math.max 15
               (JS.of_Z (50 + (Z.rem productIdSum 25 - 12)
                         + (5 + Z.rem productIdSum 5))))))
    /\ (combined <> [] ->
        (List.length
           (filter (ProbabilityCalculator.similarMarkup 10%Q markup) combined)
         < 3)%nat ->
        ProbabilityCalculator._calculateFallbackProbability
          db markup productId customerNr
        = Return
            (JS.of_Z (50 + (Z.rem (productIdSum + customerIdSum) 20 - 10) + 5)
             * 0.7
             + length_of (filter succeeded combined) / length_of combined
               * 100 * 0.3)%js).
Proof.
  intros db markup productId customerNr productHistory customerHistory
         Hlow Hproduct Hcustomer combined productIdSum customerIdSum.
  destruct (tests_below_10 markup Hlow) as (H35 & H25 & H15).
  unfold ProbabilityCalculator._calculateFallbackProbability,
    ProbabilityCalculator._fetchCompleteProductHistory,
    ProbabilityCalculator._fetchCompleteCustomerHistory.
  rewrite Hproduct, Hcustomer. cbn [bind]. fold combined.
  rewrite H35, H25, H15.
  split.
  - intros E. rewrite E. reflexivity.
  - intros Hne Hfew.
    destruct (List.length combined =? 0)%nat eqn:E0;
      [apply length_eqb_0 in E0; contradiction|].
    apply Nat.ltb_lt in Hfew.
    change (ProbabilityCalculator.SIMILAR_MARKUP_THRESHOLD * 2)%js
      with (JS.Fin 10).
    rewrite Hfew, (length_ltb_0 _ Hne). reflexivity.
Qed.

Lemma tier_below_10_is_unreachable_witness :
  ProbabilityCalculator._calculateFallbackProbability
    (Sample.store (fun _ => [])) 8 "P1" "C2"
  = Return (JS.Fin 51)
  /\ exists v,
      ProbabilityCalculator._calculateFallbackProbability
        (Sample.store Sample.sparse) 8 "P1" "C2" = Return (JS.Fin v)
      /\ v == 657 # 10.
Proof.
  split.
  - destruct (tier_below_10_is_unreachable
                (Sample.store (fun _ => [])) 8 "P1" "C2" [] []
                eq_refl eq_refl eq_refl) as (H & _).
    rewrite (H eq_refl). reflexivity.
  - destruct (tier_below_10_is_unreachable
                (Sample.store Sample.sparse) 8 "P1" "C2"
                (Sample.sparse ProductComputed30) [] eq_refl eq_refl eq_refl)
      as (_ & H).
    rewrite H; [| discriminate | vm_compute; lia].
    eexists. split; [vm_compute; reflexivity|]. reflexivity.
Defined.

(** C8, as stated, fails: with product id ["P1"], customer id ["C2"], a
    proposed markup of 40 and one accepted product offer far from it, the
    code returns 51.7; the blend with the tier shift [-(15 + sum % 5)] would
    be 48.9 over the product-id sum and 51 over the combined sum. *)
Lemma sparse_shift_ignores_character_sum :
  exists v,
    ProbabilityCalculator._calculateFallbackProbability
      (Sample.store Sample.sparse) 40 "P1" "C2" = Return (JS.Fin v)
    /\ v == 517 # 10
    /\ Spec.sparseBlend (JS.charCodeSum "P1") 40 "P1" "C2"
         (Sample.sparse ProductComputed30) == 489 # 10
    /\ Spec.sparseBlend (JS.charCodeSum "P1" + JS.charCodeSum "C2") 40
         "P1" "C2" (Sample.sparse ProductComputed30) == 51
    /\ ~ v == 489 # 10 /\ ~ v == 51.
Proof.
  eexists. split; [vm_compute; reflexivity|].
  repeat split; try reflexivity; intros H; discriminate H.
Qed.

(** C8 (amended): in the probability fallback, when the combined history is
    non-empty and fewer than 3 of its records lie within 10 points of the
    proposed markup, the result is a pseudo-score times 0.7 plus the overall
    success rate of the combined history (successes divided by records,
    times 100, a value in [0,100]) times 0.3, where the pseudo-score is 50
    plus (combined id character sums modulo 20) - 10, an offset in [-10,9],
    shifted by -15 for a markup above 35, by -5 for a markup above 25 and by
    +5 for a markup below 15; no shift depends on the character sums. *)
Theorem sparse_fallback_blend :
  forall (db : Db) (markup : JS.number) (productId customerNr : string)
         (productHistory customerHistory : list HistoricalOffer),
    db ProductComputed30 [productId] = Return productHistory ->
    db CustomerComputed30 [customerNr] = Return customerHistory ->
    let combined := productHistory ++ customerHistory in
    let idSum := (JS.charCodeSum productId + JS.charCodeSum customerNr)%Z in
    let offset := (Z.rem idSum 20 - 10)%Z in
    let pseudoScore := (50 + offset + Spec.sparseShift markup)%Z in
    let successRate :=
      (length_of (filter succeeded combined) / length_of combined * 100)%js in
    combined <> [] ->
    (List.length
       (filter (ProbabilityCalculator.similarMarkup 10%Q markup) combined)
     < 3)%nat ->
    ProbabilityCalculator._calculateFallbackProbability
      db markup productId customerNr
    = Return (JS.of_Z pseudoScore * 0.7 + successRate * 0.3)%js
    /\ (-10 <= offset <= 9)%Z
    /\ (25 <= pseudoScore <= 64)%Z
    /\ exists rate, successRate = JS.Fin rate /\ 0 <= rate <= 100.
Proof.
  intros db markup productId customerNr productHistory customerHistory
         Hproduct Hcustomer combined idSum offset pseudoScore successRate
         Hne Hfew.
  assert (Hoffset : (-10 <= offset <= 9)%Z).
  { pose proof (charCodeSum_nonneg productId).
    pose proof (charCodeSum_nonneg customerNr).
    assert (H20 : (0 <= Z.rem idSum 20 < 20)%Z)
      by (apply Z.rem_bound_pos; unfold idSum; lia).
    unfold offset. lia. }
  split; [|split; [exact Hoffset|split]].
  - unfold ProbabilityCalculator._calculateFallbackProbability,
      ProbabilityCalculator._fetchCompleteProductHistory,
      ProbabilityCalculator._fetchCompleteCustomerHistory.
    rewrite Hproduct, Hcustomer. cbn [bind]. fold combined.
    destruct (List.length combined =? 0)%nat eqn:E0;
      [apply length_eqb_0 in E0; contradiction|].
    apply Nat.ltb_lt in Hfew.
    change (ProbabilityCalculator.SIMILAR_MARKUP_THRESHOLD * 2)%js
      with (JS.Fin 10).
    rewrite Hfew, (length_ltb_0 _ Hne). fold idSum. fold offset.
    fold successRate. unfold pseudoScore, Spec.sparseShift.
    destruct (markup >? 35)%js; [reflexivity|].
    destruct (markup >? 25)%js; [reflexivity|].
    destruct (markup <? 15)%js eqn:E15; [reflexivity|].
    rewrite (tests_not_below_15 _ E15), Z.add_0_r. reflexivity.
  - unfold pseudoScore, Spec.sparseShift.
    destruct (markup >? 35)%js; [lia|].
    destruct (markup >? 25)%js; [lia|].
    destruct (markup <? 15)%js; lia.
  - apply rate_bounds. exact Hne.
Qed.

Lemma sparse_fallback_blend_witness :
  exists v,
    ProbabilityCalculator._calculateFallbackProbability
      (Sample.store Sample.sparse) 40 "P1" "C2" = Return (JS.Fin v)
    /\ v == 517 # 10.
Proof.
  destruct (sparse_fallback_blend (Sample.store Sample.sparse) 40 "P1" "C2"
              (Sample.sparse ProductComputed30) [] eq_refl eq_refl)
    as (Hv & _).
  - discriminate.
  - vm_compute. lia.
  - eexists. split; [rewrite Hv; vm_compute; reflexivity|]. reflexivity.
Defined.

(** ** Data recency (C9) *)

Section RecencyFacts.

Variable Date_parse : string -> option Z.
Variable now : Z.

Lemma fold_addAge (l : list HistoricalOffer) :
  forall (a : Q) (n : nat),
  exists q,
    fold_left (ReliabilityRepository.addAge Date_parse now) l (JS.Fin a, n)
    = (JS.Fin q, (n + List.length (Spec.validTimes Date_parse l))%nat)
    /\ q == a + Spec.totalAgeDays now (Spec.validTimes Date_parse l).
Proof.
  induction l as [|h l IH]; intros a n; cbn [fold_left Spec.validTimes].
  - exists a. split; [now rewrite Nat.add_0_r | cbn; lra].
  - unfold ReliabilityRepository.addAge at 2.
    destruct (offer__encoding_date h) as [s|]; [|apply IH].
    destruct (Date_parse s) as [t|]; [|apply IH].
    cbn [JS.of_Z JS.div JS.add].
    change (Qeq_bool (inject_Z (1000 * 60 * 60 * 24)) 0) with false.
    cbn iota.
    destruct (IH (a + inject_Z (now - t) / inject_Z (1000 * 60 * 60 * 24))
                (S n)) as (q & Hq & Heq).
    exists q. split.
    + rewrite Hq. cbn [List.length]. now rewrite Nat.add_succ_r.
    + rewrite Heq. cbn [Spec.totalAgeDays]. unfold Spec.msPerDay.
      change (1000 * 60 * 60 * 24)%Z with 86400000%Z. ring.
Qed.

Lemma max_0_Fin (e : Q) :
  exists v, JS.Math.max 0 (JS.Fin e) = JS.Fin v /\ v == Qmax 0 e.
Proof.
  cbn. destruct (JS.Qlt_bool 0 e) eqn:E; reflect_Q; eexists;
    (split; [reflexivity|]).
  - symmetry. apply Q.max_r. lra.
  - symmetry. apply Q.max_l. exact E.
Qed.

(** The recency score is a finite number and never negative. *)
Lemma dataRecency_nonneg (history : list HistoricalOffer) :
  exists x,
    ReliabilityRepository._calculateDataRecency Date_parse now history
    = JS.Fin x /\ 0 <= x.
Proof.
  unfold ReliabilityRepository._calculateDataRecency.
  destruct (List.length history =? 0)%nat;
    [exists 0; split; [reflexivity|lra]|].
  destruct (List.length _ =? 0)%nat;
    [exists 0; split; [reflexivity|lra]|].
  destruct (fold_addAge (filter ReliabilityRepository.hasDate history) 0 0%nat)
    as (q & -> & _).
  cbn [Nat.add].
  set (times := Spec.validTimes Date_parse _).
  destruct (List.length times =? 0)%nat eqn:E;
    [exists 50; split; [reflexivity|lra]|].
  assert (Hne : times <> []) by (intros E'; rewrite E' in E; discriminate E).
  pose proof (size_nonzero _ Hne) as Hsize.
  unfold JS.of_nat, JS.of_Z, ReliabilityRepository.MAX_DAYS_FOR_RECENT_DATA.
  fold (Spec.size times). cbn [JS.div].
  destruct (Qeq_bool (Spec.size times) 0) eqn:E3; [reflect_Q; contradiction|].
  change (Qeq_bool 365 0) with false. cbn iota.
  cbn [JS.mul JS.sub JS.neg JS.add].
  destruct (max_0_Fin (100 + - (q / Spec.size times / 365 * 100)))
    as (v & Hmax & Hv).
  exists v. split; [exact Hmax|]. rewrite Hv. apply Q.le_max_l.
Qed.

Lemma totalAgeDays_all_365 (times : list Z) :
  (forall t, In t times -> (now - t = 365 * Spec.msPerDay)%Z) ->
  Spec.totalAgeDays now times == 365 * Spec.size times.
Proof.
  unfold Spec.size.
  induction times as [|t times IH]; intros Hall.
  - reflexivity.
  - cbn [Spec.totalAgeDays List.length].
    rewrite IH by (intros t' Ht'; apply Hall; now right).
    rewrite (Hall t) by now left.
    rewrite Nat2Z.inj_succ. unfold Z.succ. rewrite inject_Z_plus.
    change (inject_Z (365 * Spec.msPerDay) / inject_Z Spec.msPerDay) with
      (inject_Z (365 * 86400000) / inject_Z 86400000).
    setoid_replace (inject_Z (365 * 86400000) / inject_Z 86400000) with 365
      by reflexivity.
    ring.
Qed.

(** C9 (amended): data recency is 0 for a history in which no record has a
    non-empty date field, and 50 when some have one but none of them holds a
    date that parses; otherwise it is max(0, 100 - avgAgeDays/365 x 100)
    over the average age in days of the records whose date parses, so that
    records all dated exactly 365 days before now score 0. *)
Theorem dataRecency_by_cases :
  forall (history : list HistoricalOffer),
    let dated := filter ReliabilityRepository.hasDate history in
    let times := Spec.validTimes Date_parse dated in
    let recency :=
      ReliabilityRepository._calculateDataRecency Date_parse now history in
    (dated = [] -> recency = 0)
    /\ (dated <> [] -> times = [] -> recency = 50)
    /\ (times <> [] ->
        exists v, recency = JS.Fin v
                  /\ v == Spec.recencyScore now times
                  /\ 0 <= v
                  /\ ((forall t, In t times ->
                                  (now - t = 365 * Spec.msPerDay)%Z) ->
                      v == 0)).
Proof.
  intros history dated times recency.
  unfold recency, ReliabilityRepository._calculateDataRecency.
  fold dated.
  destruct (fold_addAge dated 0 0%nat) as (q & Hq & Heq).
  fold times in Hq, Heq. rewrite Hq. cbn [Nat.add].
  split; [|split].
  - intros E. destruct (List.length history =? 0)%nat; [reflexivity|].
    rewrite E. reflexivity.
  - intros Hne E.
    destruct (List.length history =? 0)%nat eqn:E0.
    { apply length_eqb_0 in E0. unfold dated in Hne. rewrite E0 in Hne.
      now contradiction Hne. }
    destruct (List.length dated =? 0)%nat eqn:E1;
      [apply length_eqb_0 in E1; contradiction|].
    rewrite E. reflexivity.
  - intros Hne.
    assert (Hdated : dated <> []) by (intros E; apply Hne; unfold times;
                                      rewrite E; reflexivity).
    destruct (List.length history =? 0)%nat eqn:E0.
    { apply length_eqb_0 in E0. unfold dated in Hdated. rewrite E0 in Hdated.
      now contradiction Hdated. }
    destruct (List.length dated =? 0)%nat eqn:E1;
      [apply length_eqb_0 in E1; contradiction|].
    destruct (List.length times =? 0)%nat eqn:E2;
      [apply length_eqb_0 in E2; contradiction|].
    pose proof (size_nonzero _ Hne) as Hsize.
    unfold JS.of_nat, JS.of_Z, ReliabilityRepository.MAX_DAYS_FOR_RECENT_DATA.
    fold (Spec.size times).
    cbn [JS.div]. 
    destruct (Qeq_bool (Spec.size times) 0) eqn:E3; [reflect_Q; contradiction|].
    change (Qeq_bool 365 0) with false. cbn iota.
    cbn [JS.mul JS.sub JS.neg JS.add].
    destruct (max_0_Fin (100 + - (q / Spec.size times / 365 * 100)))
      as (v & Hv & Hmax).
    exists v. split; [exact Hv|].
    assert (Hscore : v == Spec.recencyScore now times).
    { rewrite Hmax. unfold Spec.recencyScore, Spec.avgAgeDays.
      apply Q.max_compat; [reflexivity|]. rewrite Heq. field. exact Hsize. }
    split; [exact Hscore|].
    split; [rewrite Hmax; apply Q.le_max_l|].
    intros Hall. rewrite Hscore.
    unfold Spec.recencyScore, Spec.avgAgeDays.
    rewrite (totalAgeDays_all_365 times Hall).
    apply Q.max_l.
    setoid_replace (365 * Spec.size times / Spec.size times) with 365
      by (field; exact Hsize).
    apply Qle_bool_iff. reflexivity.
Qed.

End RecencyFacts.

(** C9, as stated, fails: a record whose date field holds no date that
    parses makes the score 50; the claim gives 0 when "carries a date" means
    a date that parses, and has no average to score when it means a
    non-empty date field. *)
Lemma undatable_records_score_50 :
  ReliabilityRepository._calculateDataRecency
    Sample.isoDate Sample.today Sample.undatable = 50
  /\ Spec.dataRecency Sample.isoDate Sample.today Sample.undatable = 0
  /\ Spec.dataRecencyOfFields Sample.isoDate Sample.today Sample.undatable
     = JS.NaN.
Proof. repeat split; vm_compute; reflexivity. Qed.

Lemma dataRecency_by_cases_witness :
  exists v,
    ReliabilityRepository._calculateDataRecency
      Sample.isoDate Sample.today Sample.yearOld = JS.Fin v
    /\ v == 0.
Proof.
  destruct (dataRecency_by_cases Sample.isoDate Sample.today Sample.yearOld)
    as (_ & _ & H).
  destruct H as (v & Hv & _ & _ & H365); [discriminate|].
  exists v. split; [exact Hv|].
  apply H365. intros t [<-|[<-|[]]]; reflexivity.
Defined.

(** ** The weighted markup (C5) *)

Lemma validMarkups_as_computed (history : list HistoricalOffer) :
  numbers_of (map markup (filter (fun h => valid (markup h)) history))
  = Spec.validMarkups history.
Proof.
  unfold Spec.validMarkups.
  induction history as [|h history IH]; [reflexivity|].
  cbn [filter map]. destruct (valid (markup h)) eqn:E.
  - cbn [map numbers_of]. destruct (markup h); [|discriminate E].
    now rewrite IH.
  - exact IH.
Qed.





Section Sorting.

(** The comparator of [_computeWeightedMarkup]. *)
Local Notation "'byDifference'" := (fun a b : JS.number => (a - b)%js).

Lemma insert_permutation (x : JS.number) (s : list JS.number) :
  Permutation (SuggestedMarkupRepository.insert byDifference x s) (x :: s).
Proof.
  induction s as [|y s IH]; cbn [SuggestedMarkupRepository.insert].
  - apply Permutation_refl.
  - destruct ((x - y) >? 0)%js.
    + rewrite IH. apply perm_swap.
    + apply Permutation_refl.
Qed.

Lemma sort_permutation (l : list JS.number) :
  Permutation (SuggestedMarkupRepository.sort byDifference l) l.
Proof.
  induction l as [|x l IH]; cbn [SuggestedMarkupRepository.sort].
  - apply perm_nil.
  - rewrite insert_permutation. now apply perm_skip.
Qed.




End Sorting.

(** For an odd number of valid markups both readings of the median pick the
    middle element. *)
Lemma medians_agree_on_odd_counts (sorted : list JS.number) :
  Nat.odd (List.length sorted) = true ->
  Spec.weightedMarkupUpperMedian sorted = Spec.weightedMarkupLowerMedian sorted.
Proof.
  intros Hodd. unfold Spec.weightedMarkupUpperMedian,
    Spec.weightedMarkupLowerMedian.
  apply Nat.odd_spec in Hodd. destruct Hodd as (k & Hk).
  rewrite Hk.
  replace (2 * k + 1 - 1)%nat with (k * 2)%nat by lia.
  replace (2 * k + 1)%nat with (1 + k * 2)%nat by lia.
  rewrite Nat.div_add by lia. rewrite Nat.div_mul by lia.
  reflexivity.
Qed.




(** ** Bounds of the outputs (C3) *)

(** C3, the code at a failing input: for a pair history of two offers sold
    at cost the mean markup is 0, the coefficient of variation is [0/0], and
    both the [dataConsistency] factor and the overall reliability come out as
    [NaN] instead of a finite value in [0,100]. *)
Theorem reliability_of_offers_at_cost_is_NaN :
  ReliabilityRepository.calculateProductReliability
    Sample.isoDate Sample.atCostWorld "C1" "P1"
  = Return
      {| ReliabilityRepository.reliability := JS.NaN;
         ReliabilityRepository.reliabilityFactors :=
           {| ReliabilityRepository.directHistory := 40;
              ReliabilityRepository.dataRecency := 0;
              ReliabilityRepository.dataConsistency := JS.NaN;
              ReliabilityRepository.fallbacksUsed := 100 |} |}.
Proof. vm_compute. reflexivity. Qed.

(** A second input of that kind: the recency score has no upper clamp, so an
    offer dated after the clock reading (here by 365 days) scores 200. *)
Lemma postdated_offer_scores_200 :
  exists r,
    ReliabilityRepository.calculateProductReliability
      Sample.isoDate (Sample.world (Sample.store Sample.postdated)
                        Sample.today 0) "C1" "P1" = Return r
    /\ Spec.same (ReliabilityRepository.dataRecency
                    (ReliabilityRepository.reliabilityFactors r)) 200.
Proof. eexists. split; vm_compute; reflexivity. Qed.

(** *** Bounds that hold on every input *)

Lemma clamp_15_85 (b : Z) :
  exists x,
    JS.Math.min 85 (JS.Math.max 15 (JS.of_Z b)) = JS.Fin x /\ 15 <= x <= 85.
Proof.
  cbn. destruct (JS.Qlt_bool 15 (inject_Z b)) eqn:E1; cbn.
  - destruct (JS.Qlt_bool (inject_Z b) 85) eqn:E2; reflect_Q;
      eexists; (split; [reflexivity|]); lra.
  - eexists. split; [reflexivity|]. lra.
Qed.

Lemma fallbackProbability_bounds (db : Db) (markup : JS.number)
    (productId customerNr : string) (v : JS.number) :
  ProbabilityCalculator._calculateFallbackProbability
    db markup productId customerNr = Return v ->
  exists x, v = JS.Fin x /\ 0 <= x <= 100.
Proof.
  unfold ProbabilityCalculator._calculateFallbackProbability,
    ProbabilityCalculator._fetchCompleteProductHistory,
    ProbabilityCalculator._fetchCompleteCustomerHistory.
  destruct (db ProductComputed30 [productId]) as [ph|e];
    cbn [bind]; [|discriminate].
  destruct (db CustomerComputed30 [customerNr]) as [ch|e];
    cbn [bind]; [|discriminate].
  set (combined := ph ++ ch).
  destruct (List.length combined =? 0)%nat eqn:E0.
  { intros Hv; apply Return_inj in Hv; subst v.
    match goal with
    | |- context [JS.of_Z ?b] => destruct (clamp_15_85 b) as (x & Hx & Hb)
    end.
    exists x. split; [exact Hx | lra]. }
  assert (Hne : combined <> [])
    by (intros E; rewrite E in E0; discriminate E0).
  destruct (List.length _ <? 3)%nat eqn:E3.
  - rewrite (length_ltb_0 _ Hne). intros Hv; apply Return_inj in Hv; subst v.
    destruct (rate_bounds succeeded combined Hne) as (g & Hg & Hgb).
    rewrite Hg. cbn [JS.of_Z JS.mul JS.add].
    eexists. split; [reflexivity|].
    pose proof (charCodeSum_nonneg productId) as Hp.
    pose proof (charCodeSum_nonneg customerNr) as Hc.
    set (t := (JS.charCodeSum productId + JS.charCodeSum customerNr)%Z).
    assert (Hrem : (0 <= Z.rem t 20 < 20)%Z)
      by (apply Z.rem_bound_pos; unfold t; lia).
    match goal with
    | |- context [inject_Z ?b] =>
        assert (Hb : inject_Z 25 <= inject_Z b <= inject_Z 69)
    end.
    { rewrite <- !Zle_Qle.
      destruct (markup >? 35)%js, (markup >? 25)%js, (markup <? 15)%js,
        (markup <? 10)%js; lia. }
    change (inject_Z 25) with 25 in Hb. change (inject_Z 69) with 69 in Hb.
    change 0.7 with (7 # 10). change 0.3 with (3 # 10). lra.
  - intros Hv; apply Return_inj in Hv; subst v. apply rate_bounds.
    intros E. rewrite E in E3. discriminate E3.
Qed.

Lemma successProbability_bounds (db : Db) (markup : JS.number)
    (productId customerNr : string)
    (quantity purchasePrice rate v : JS.number) :
  ProbabilityCalculator._calculateSuccessProbability
    db markup productId customerNr quantity purchasePrice rate = Return v ->
  exists x, v = JS.Fin x /\ 0 <= x <= 100.
Proof.
  unfold ProbabilityCalculator._calculateSuccessProbability,
    ProbabilityCalculator._fetchCompleteProductCustomerHistory.
  destruct (db PairComputed20 [customerNr; productId]) as [history|e];
    cbn [bind]; [|discriminate].
  destruct (List.length history =? 0)%nat;
    [apply fallbackProbability_bounds|].
  destruct (List.length _ =? 0)%nat eqn:E;
    [apply fallbackProbability_bounds|].
  intros Hv; apply Return_inj in Hv; subst v. apply rate_bounds.
  intros E'. rewrite E' in E. discriminate E.
Qed.

(** Whenever [calculateSuccessProbability] returns, the probability is a
    finite value in [0,100]. *)
Lemma probability_within_0_100 (w : World) (customerNr productId : string)
    (markup quantity purchasePrice rate v : JS.number) :
  ProbabilityCalculator.calculateSuccessProbability
    w customerNr productId markup quantity purchasePrice rate = Return v ->
  exists x, v = JS.Fin x /\ 0 <= x <= 100.
Proof.
  unfold ProbabilityCalculator.calculateSuccessProbability.
  destruct (getDb w) as [db|e]; cbn [bind]; [|discriminate].
  apply successProbability_bounds.
Qed.

Lemma round_bounds (x : Q) (lo hi : Z) :
  inject_Z lo <= x <= inject_Z hi ->
  exists y, JS.Math.round (JS.Fin x) = JS.Fin y
            /\ inject_Z lo <= y <= inject_Z hi.
Proof.
  intros [Hlo Hhi]. unfold JS.Math.round, JS.of_Z.
  eexists. split; [reflexivity|].
  rewrite <- !Zle_Qle. split.
  - rewrite <- (Qfloor_Z lo). apply Qfloor_resp_le. lra.
  - assert (H1 : (Qfloor (x + (1 # 2)) <= Qfloor (inject_Z hi + (1 # 2)))%Z)
      by (apply Qfloor_resp_le; lra).
    assert (H2 : (Qfloor (inject_Z hi + (1 # 2)) <= hi)%Z).
    { apply Z.lt_succ_r. rewrite Zlt_Qlt.
      apply Qle_lt_trans with (y := inject_Z hi + (1 # 2));
        [apply Qfloor_le|].
      unfold Z.succ. rewrite inject_Z_plus. change (inject_Z 1) with 1. lra. }
    lia.
Qed.

Lemma toFixed1_bounds (x : Q) :
  1 <= x <= 1000 ->
  exists y, JS.toFixed1 (JS.Fin x) = JS.Fin y /\ 1 <= y <= 1000.
Proof.
  intros [Hlo Hhi]. unfold JS.toFixed1.
  destruct (JS.Qlt_bool x 0) eqn:E; [reflect_Q; lra|].
  eexists. split; [reflexivity|].
  assert (H1 : (Qfloor 10 <= Qfloor (x * 10 + (1 # 2)))%Z)
    by (apply Qfloor_resp_le; lra).
  assert (H2 : (Qfloor (x * 10 + (1 # 2)) <= Qfloor (10000 + (1 # 2)))%Z)
    by (apply Qfloor_resp_le; lra).
  change (Qfloor 10) with 10%Z in H1.
  change (Qfloor (10000 + (1 # 2))) with 10000%Z in H2.
  rewrite Zle_Qle in H1, H2.
  change (inject_Z 10) with 10 in H1. change (inject_Z 10000) with 10000 in H2.
  split.
  - apply Qle_shift_div_l; lra.
  - apply Qle_shift_div_r; lra.
Qed.

Lemma clamp_1_1000 (markup : JS.number) :
  JS.isNaN markup = false ->
  exists x,
    JS.Math.max SuggestedMarkupRepository.MIN_MARKUP
      (JS.Math.min SuggestedMarkupRepository.MAX_MARKUP markup) = JS.Fin x
    /\ 1 <= x <= 1000.
Proof.
  unfold SuggestedMarkupRepository.MIN_MARKUP,
    SuggestedMarkupRepository.MAX_MARKUP.
  destruct markup as [m| | |]; cbn; intros H; try discriminate H.
  - destruct (JS.Qlt_bool m 1000) eqn:E1; cbn.
    + destruct (JS.Qlt_bool 1 m) eqn:E2; reflect_Q;
        eexists; (split; [reflexivity|]); lra.
    + eexists. split; [reflexivity|]. lra.
  - eexists. split; [reflexivity|]. lra.
  - eexists. split; [reflexivity|]. lra.
Qed.

(** Whatever [calculateSuggestedMarkup] returns, the reported probability is
    a finite value in [0,100], and the suggested markup is in [1,1000] unless
    the markup computed before the clamp is [NaN]. *)
Lemma suggestedMarkup_bounds (w : World) (customerNr productId : string)
    (quantity purchasePrice rate : JS.number)
    (r : SuggestedMarkupRepository.MarkupResult) :
  SuggestedMarkupRepository.calculateSuggestedMarkup
    w customerNr productId quantity purchasePrice rate = Return r ->
  (exists p, SuggestedMarkupRepository.probability r = JS.Fin p
             /\ 0 <= p <= 100)
  /\ (SuggestedMarkupRepository.suggestedMarkup r = JS.NaN
      \/ exists x, SuggestedMarkupRepository.suggestedMarkup r = JS.Fin x
                   /\ 1 <= x <= 1000).
Proof.
  unfold SuggestedMarkupRepository.calculateSuggestedMarkup,
    SuggestedMarkupRepository.calculateSuggestedMarkup_try.
  destruct (getDb w) as [db|e]; cbn [bind]; [|discriminate].
  assert (Hdefault :
            (exists p,
                SuggestedMarkupRepository.probability
                  SuggestedMarkupRepository.fallback = JS.Fin p
                /\ 0 <= p <= 100)
            /\ (SuggestedMarkupRepository.suggestedMarkup
                  SuggestedMarkupRepository.fallback = JS.NaN
                \/ exists x,
                    SuggestedMarkupRepository.suggestedMarkup
                      SuggestedMarkupRepository.fallback = JS.Fin x
                    /\ 1 <= x <= 1000)).
  { split; [exists 50 | right; exists 20]; (split; [reflexivity|lra]). }
  assert (Hreport : forall markup historyCount probability factors,
             (exists x, probability = JS.Fin x /\ 0 <= x <= 100) ->
             let r' :=
               {| SuggestedMarkupRepository.suggestedMarkup :=
                    JS.toFixed1
                      (JS.Math.max SuggestedMarkupRepository.MIN_MARKUP
                         (JS.Math.min SuggestedMarkupRepository.MAX_MARKUP
                            markup));
                  SuggestedMarkupRepository.probability :=
                    JS.Math.round probability;
                  SuggestedMarkupRepository.historyCount := historyCount;
                  SuggestedMarkupRepository.markupFactors := factors |} in
             (exists p, SuggestedMarkupRepository.probability r' = JS.Fin p
                        /\ 0 <= p <= 100)
             /\ (SuggestedMarkupRepository.suggestedMarkup r' = JS.NaN
                 \/ exists x,
                     SuggestedMarkupRepository.suggestedMarkup r' = JS.Fin x
                     /\ 1 <= x <= 1000)).
  { intros markup historyCount probability factors (x & -> & Hx) r'.
    unfold r'. cbn [SuggestedMarkupRepository.probability
                      SuggestedMarkupRepository.suggestedMarkup].
    split; [exact (round_bounds x 0 100 Hx)|].
    destruct (JS.isNaN markup) eqn:E.
    - left. destruct markup; try discriminate E. reflexivity.
    - right. destruct (clamp_1_1000 markup E) as (c & -> & Hc).
      apply toFixed1_bounds. exact Hc. }
  unfold SuggestedMarkupRepository._fetchProductCustomerHistorySuccess.
  destruct (db PairSuccess10 [customerNr; productId]) as [history|e];
    cbn [bind try_catch];
    [|intros Hr; apply Return_inj in Hr; subst r; exact Hdefault].
  destruct (0 <? List.length history)%nat.
  - destruct (SuggestedMarkupRepository._calculateClientHistoryAdjustment
                db customerNr) as [adj|e]; cbn [bind try_catch];
      [|intros Hr; apply Return_inj in Hr; subst r; exact Hdefault].
    destruct (SuggestedMarkupRepository.applyAdjustment _ adj) as [ch m1].
    destruct (SuggestedMarkupRepository.applyAdjustment m1 _) as [vd m2].
    destruct (ProbabilityCalculator._calculateSuccessProbability
                db m2 productId customerNr quantity purchasePrice rate)
      as [pr|e] eqn:Epr; cbn [bind try_catch];
      intros Hr; apply Return_inj in Hr; subst r; [|exact Hdefault].
    apply Hreport. exact (successProbability_bounds _ _ _ _ _ _ _ _ Epr).
  - unfold SuggestedMarkupRepository._fetchGeneralProductHistorySuccess,
      SuggestedMarkupRepository._fetchGeneralCustomerHistorySuccess.
    destruct (db ProductSuccess20 [productId]) as [ph|e];
      cbn [bind try_catch];
      [|intros Hr; apply Return_inj in Hr; subst r; exact Hdefault].
    destruct (db CustomerSuccess20 [customerNr]) as [ch|e];
      cbn [bind try_catch];
      [|intros Hr; apply Return_inj in Hr; subst r; exact Hdefault].
    match goal with
    | |- context [let '(_, _) := ?x in _] => destruct x as [vd m]
    end.
    destruct (ProbabilityCalculator._calculateFallbackProbability
                db m productId customerNr) as [pr|e] eqn:Epr;
      cbn [bind try_catch];
      intros Hr; apply Return_inj in Hr; subst r; [|exact Hdefault].
    apply Hreport. exact (fallbackProbability_bounds _ _ _ _ _ Epr).
Qed.

Lemma directHistory_bounds {A : Type} (l : list A) :
  exists d, JS.Math.min 100 (length_of l * 20)%js = JS.Fin d /\ 0 <= d <= 100.
Proof.
  unfold length_of, JS.of_nat, JS.of_Z. fold (Spec.size l).
  assert (H : 0 <= Spec.size l).
  { unfold Spec.size. change 0 with (inject_Z 0). rewrite <- Zle_Qle. lia. }
  cbn. destruct (JS.Qlt_bool (Spec.size l * 20) 100) eqn:E; reflect_Q;
    eexists; (split; [reflexivity|]); lra.
Qed.

Lemma productPenalty_bounds {A : Type} (l : list A) :
  exists f,
    (100 - JS.Math.max 40 (80 - length_of l * 3))%js = JS.Fin f
    /\ 0 <= f <= 100.
Proof.
  unfold length_of, JS.of_nat, JS.of_Z. fold (Spec.size l).
  assert (H : 0 <= Spec.size l).
  { unfold Spec.size. change 0 with (inject_Z 0). rewrite <- Zle_Qle. lia. }
  cbn. destruct (JS.Qlt_bool 40 (80 + - (Spec.size l * 3))) eqn:E; reflect_Q;
    eexists; (split; [reflexivity|]); lra.
Qed.

Lemma customerPenalty_bounds (random : Q) :
  0 <= random < 1 ->
  exists f,
    (100 - (85 - JS.Math.floor (JS.Fin random * 10)))%js = JS.Fin f
    /\ 0 <= f <= 100.
Proof.
  intros [H0 H1]. unfold JS.Math.floor, JS.of_Z.
  cbn [JS.mul JS.sub JS.neg JS.add].
  eexists. split; [reflexivity|].
  assert (Hlo : (Qfloor 0 <= Qfloor (random * 10))%Z)
    by (apply Qfloor_resp_le; lra).
  assert (Hhi : (Qfloor (random * 10) <= Qfloor 10)%Z)
    by (apply Qfloor_resp_le; lra).
  change (Qfloor 0) with 0%Z in Hlo. change (Qfloor 10) with 10%Z in Hhi.
  rewrite Zle_Qle in Hlo, Hhi.
  change (inject_Z 0) with 0 in Hlo. change (inject_Z 10) with 10 in Hhi.
  lra.
Qed.

(** Whatever [calculateProductReliability] returns, [directHistory] and the
    reported [fallbacksUsed] are finite values in [0,100] (for a random draw
    in [0,1)) and [dataRecency] is finite and not negative. *)
Lemma reliability_factor_bounds (Date_parse : string -> option Z) (w : World)
    (customerNr productId : string)
    (r : ReliabilityRepository.ReliabilityResult) :
  0 <= Math_random w < 1 ->
  ReliabilityRepository.calculateProductReliability
    Date_parse w customerNr productId = Return r ->
  let f := ReliabilityRepository.reliabilityFactors r in
  (exists d, ReliabilityRepository.directHistory f = JS.Fin d
             /\ 0 <= d <= 100)
  /\ (exists u, ReliabilityRepository.fallbacksUsed f = JS.Fin u
                /\ 0 <= u <= 100)
  /\ (exists x, ReliabilityRepository.dataRecency f = JS.Fin x /\ 0 <= x).
Proof.
  intros Hrandom.
  unfold ReliabilityRepository.calculateProductReliability,
    ReliabilityRepository.calculateProductReliability_try,
    ReliabilityRepository._fetchCompleteProductCustomerHistory,
    ReliabilityRepository._fetchCompleteProductHistory,
    ReliabilityRepository._fetchCompleteCustomerHistory.
  destruct (getDb w) as [db|e]; cbn [bind]; [|discriminate].
  assert (Hdegraded :
            let f := ReliabilityRepository.reliabilityFactors
                       ReliabilityRepository.degraded in
            (exists d, ReliabilityRepository.directHistory f = JS.Fin d
                       /\ 0 <= d <= 100)
            /\ (exists u, ReliabilityRepository.fallbacksUsed f = JS.Fin u
                          /\ 0 <= u <= 100)
            /\ (exists x, ReliabilityRepository.dataRecency f = JS.Fin x
                          /\ 0 <= x)).
  { repeat split; exists 20; (split; [reflexivity|lra]). }
  destruct (db PairStored20 [customerNr; productId]) as [pair|e];
    cbn [bind try_catch];
    [|intros Hr; apply Return_inj in Hr; subst r; exact Hdegraded].
  destruct (List.length pair =? 0)%nat.
  - destruct (db ProductStored30 [productId]) as [product|e];
      cbn [bind try_catch];
      [|intros Hr; apply Return_inj in Hr; subst r; exact Hdegraded].
    destruct (0 <? List.length product)%nat.
    + cbn [bind try_catch]. intros Hr; apply Return_inj in Hr; subst r.
      cbn [ReliabilityRepository.reliabilityFactors
             ReliabilityRepository.directHistory
             ReliabilityRepository.fallbacksUsed
             ReliabilityRepository.dataRecency].
      split; [exists 0; split; [reflexivity|lra]|].
      split; [apply productPenalty_bounds | apply dataRecency_nonneg].
    + destruct (db CustomerStored50 [customerNr]) as [customer|e];
        cbn [bind try_catch];
        [|intros Hr; apply Return_inj in Hr; subst r; exact Hdegraded].
      destruct (0 <? List.length customer)%nat;
        cbn [bind try_catch]; intros Hr; apply Return_inj in Hr; subst r;
        cbn [ReliabilityRepository.reliabilityFactors
               ReliabilityRepository.directHistory
               ReliabilityRepository.fallbacksUsed
               ReliabilityRepository.dataRecency].
      * split; [exists 0; split; [reflexivity|lra]|].
        split; [apply customerPenalty_bounds; exact Hrandom|].
        destruct (dataRecency_nonneg Date_parse (Date_now w) customer)
          as (x & -> & Hx).
        eexists. split; [reflexivity|]. lra.
      * pose proof (charCodeSum_nonneg productId) as Hsum.
        assert (H15 : (0 <= Z.rem (JS.charCodeSum productId) 15 < 15)%Z)
          by (apply Z.rem_bound_pos; lia).
        assert (H20 : (0 <= Z.rem (JS.charCodeSum productId) 20 < 20)%Z)
          by (apply Z.rem_bound_pos; lia).
        unfold JS.of_Z.
        split; [|split].
        -- eexists. split; [reflexivity|].
           change 0 with (inject_Z 0). change 100 with (inject_Z 100).
           rewrite <- !Zle_Qle. lia.
        -- exists 0. split; [reflexivity|lra].
        -- eexists. split; [reflexivity|].
           change 0 with (inject_Z 0). rewrite <- Zle_Qle. lia.
  - cbn [bind try_catch]. intros Hr; apply Return_inj in Hr; subst r.
    cbn [ReliabilityRepository.reliabilityFactors
           ReliabilityRepository.directHistory
           ReliabilityRepository.fallbacksUsed
           ReliabilityRepository.dataRecency].
    split; [apply directHistory_bounds|].
    split; [exists 100; split; [reflexivity|lra] | apply dataRecency_nonneg].
Qed.

(** * Further properties of the code *)

(** ** ProbabilityCalculator *)

Lemma probability_within_0_100_witness :
  exists x,
    ProbabilityCalculator.calculateSuccessProbability
      (Sample.world (Sample.store Sample.fourSimilar) 0 0) "C1" "P1" 20 1 0 1
    = Return (JS.Fin x)
    /\ 0 <= x <= 100.
Proof.
  destruct (probability_within_0_100
              (Sample.world (Sample.store Sample.fourSimilar) 0 0)
              "C1" "P1" 20 1 0 1 (JS.Fin (300 # 4)) eq_refl)
    as (x & Hx & Hb).
  exists x. split; [rewrite <- Hx; reflexivity | exact Hb].
Defined.

(** [calculateSuccessProbability] returns exactly when [getDb] and the
    pair-history query return and, unless some record of the pair history is
    similar to the proposal, the product and customer queries of the fallback
    return as well; in every other case it rejects. *)
Theorem probability_returns_iff :
  forall (w : World) (customerNr productId : string)
         (markup quantity purchasePrice rate : JS.number),
    (exists v,
        ProbabilityCalculator.calculateSuccessProbability
          w customerNr productId markup quantity purchasePrice rate = Return v)
    <-> exists db pair,
        getDb w = Return db
        /\ db PairComputed20 [customerNr; productId] = Return pair
        /\ ((exists h, In h pair /\ Spec.within 5 markup h)
            \/ exists product customer,
                db ProductComputed30 [productId] = Return product
                /\ db CustomerComputed30 [customerNr] = Return customer).
Proof.
  intros w customerNr productId markup quantity purchasePrice rate.
  unfold ProbabilityCalculator.calculateSuccessProbability,
    ProbabilityCalculator._calculateSuccessProbability,
    ProbabilityCalculator._fetchCompleteProductCustomerHistory.
  assert (Hfb : forall db,
             (exists v,
                 ProbabilityCalculator._calculateFallbackProbability
                   db markup productId customerNr = Return v)
             <-> exists product customer,
                 db ProductComputed30 [productId] = Return product
                 /\ db CustomerComputed30 [customerNr] = Return customer).
  { intros db. split.
    - unfold ProbabilityCalculator._calculateFallbackProbability,
        ProbabilityCalculator._fetchCompleteProductHistory,
        ProbabilityCalculator._fetchCompleteCustomerHistory.
      destruct (db ProductComputed30 [productId]) as [ph|e]; cbn [bind];
        [|intros (v & Hv); discriminate Hv].
      destruct (db CustomerComputed30 [customerNr]) as [ch|e]; cbn [bind];
        [|intros (v & Hv); discriminate Hv].
      intros _. now exists ph, ch.
    - intros (ph & ch & Hp & Hc).
      exact (fallbackProbability_returns db markup productId customerNr
               ph ch Hp Hc). }
  assert (Hsim : forall pair,
             filter (ProbabilityCalculator.similarMarkup
                       ProbabilityCalculator.SIMILAR_MARKUP_THRESHOLD markup)
               pair <> []
             <-> exists h, In h pair /\ Spec.within 5 markup h).
  { intros pair. split.
    - destruct (filter _ pair) as [|h l] eqn:E; [congruence|]. intros _.
      assert (Hin : In h (filter
                            (ProbabilityCalculator.similarMarkup
                               ProbabilityCalculator.SIMILAR_MARKUP_THRESHOLD
                               markup) pair))
        by (rewrite E; now left).
      apply filter_In in Hin. destruct Hin as [Hin Hs].
      exists h. split; [exact Hin|]. now apply similarMarkup_within.
    - intros (h & Hin & Hw) E.
      assert (Hin' : In h (filter
                             (ProbabilityCalculator.similarMarkup
                                ProbabilityCalculator.SIMILAR_MARKUP_THRESHOLD
                                markup) pair)).
      { apply filter_In. split; [exact Hin|].
        now apply (similarMarkup_within 5). }
      rewrite E in Hin'. exact Hin'. }
  split.
  - destruct (getDb w) as [db|e]; cbn [bind];
      [|intros (v & Hv); discriminate Hv].
    destruct (db PairComputed20 [customerNr; productId]) as [pair|e] eqn:Ep;
      cbn [bind]; [|intros (v & Hv); discriminate Hv].
    specialize (Hsim pair).
    set (similar := filter _ pair) in *.
    intros Hret. exists db, pair. split; [reflexivity|]. split; [exact Ep|].
    destruct (List.length pair =? 0)%nat;
      [right; now apply Hfb|].
    destruct (List.length similar =? 0)%nat eqn:E;
      [right; now apply Hfb|].
    left. apply Hsim. intros E'. rewrite E' in E. discriminate E.
  - intros (db & pair & -> & Hp & Hcase). cbn [bind]. rewrite Hp. cbn [bind].
    specialize (Hsim pair).
    set (similar := filter _ pair) in *.
    destruct (List.length pair =? 0)%nat eqn:E0.
    + apply Hfb. destruct Hcase as [(h & Hin & _)|Hq]; [|exact Hq].
      apply length_eqb_0 in E0. subst pair. contradiction Hin.
    + destruct (List.length similar =? 0)%nat eqn:E; [|eauto].
      apply Hfb. destruct Hcase as [Hs|Hq]; [|exact Hq].
      apply Hsim in Hs. apply length_eqb_0 in E. contradiction.
Qed.

Lemma probability_returns_iff_witness :
  exists v,
    ProbabilityCalculator.calculateSuccessProbability
      (Sample.world (Sample.store (fun _ => [])) 0 0) "C1" "P1" 20 1 0 1
    = Return v.
Proof.
  destruct (probability_returns_iff
              (Sample.world (Sample.store (fun _ => [])) 0 0)
              "C1" "P1" 20 1 0 1) as [_ H].
  apply H. exists (Sample.store (fun _ => [])), [].
  split; [reflexivity|]. split; [reflexivity|].
  right. exists [], []. split; reflexivity.
Defined.

Lemma tests_above_35 (markup : JS.number) :
  (markup >? 35)%js = true -> (markup >? 25)%js = true.
Proof.
  destruct markup as [m| | |]; cbn; intros H; try discriminate H;
    try reflexivity; reflect_Q; lra.
Qed.

(** Without any product or customer history the fallback probability is a
    whole number between 19 and 71: the clamp to [15,85] never acts.  It lies
    in [19,47] for a markup above 35, in [29,57] for a markup above 25 (up to
    35), in [43,71] for a markup below 15, and in [38,62] otherwise. *)
Theorem fallback_without_data_range :
  forall (db : Db) (markup : JS.number) (productId customerNr : string),
    db ProductComputed30 [productId] = Return [] ->
    db CustomerComputed30 [customerNr] = Return [] ->
    exists b : Z,
      ProbabilityCalculator._calculateFallbackProbability
        db markup productId customerNr = Return (JS.of_Z b)
      /\ (19 <= b <= 71)%Z
      /\ ((markup >? 35)%js = true -> (19 <= b <= 47)%Z)
      /\ ((markup >? 35)%js = false -> (markup >? 25)%js = true ->
          (29 <= b <= 57)%Z)
      /\ ((markup >? 25)%js = false -> (markup <? 15)%js = true ->
          (43 <= b <= 71)%Z)
      /\ ((markup >? 35)%js = false -> (markup >? 25)%js = false ->
          (markup <? 15)%js = false -> (38 <= b <= 62)%Z).
Proof.
  intros db markup productId customerNr Hproduct Hcustomer.
  unfold ProbabilityCalculator._calculateFallbackProbability,
    ProbabilityCalculator._fetchCompleteProductHistory,
    ProbabilityCalculator._fetchCompleteCustomerHistory.
  rewrite Hproduct, Hcustomer. cbn [bind app List.length Nat.eqb].
  pose proof (charCodeSum_nonneg productId) as Hsum.
  set (s := JS.charCodeSum productId) in *.
  assert (H25 : (0 <= Z.rem s 25 < 25)%Z) by (apply Z.rem_bound_pos; lia).
  assert (H5 : (0 <= Z.rem s 5 < 5)%Z) by (apply Z.rem_bound_pos; lia).
  match goal with
  | |- context [JS.of_Z ?t] => set (b := t)
  end.
  assert (Hb : (19 <= b <= 71)%Z).
  { unfold b. destruct (markup >? 35)%js, (markup >? 25)%js,
      (markup <? 15)%js eqn:E15; try rewrite (tests_not_below_15 _ E15);
      lia. }
  exists b. split.
  - f_equal. unfold JS.of_Z. cbn.
    assert (E1 : JS.Qlt_bool 15 (inject_Z b) = true).
    { reflect_Q. change 15 with (inject_Z 15). rewrite <- Zlt_Qlt. lia. }
    rewrite E1. cbn.
    assert (E2 : JS.Qlt_bool (inject_Z b) 85 = true).
    { reflect_Q. change 85 with (inject_Z 85). rewrite <- Zlt_Qlt. lia. }
    rewrite E2. reflexivity.
  - split; [exact Hb|]. unfold b.
    destruct (markup >? 35)%js eqn:E35;
      [rewrite (tests_above_35 _ E35);
       repeat split; intros; try discriminate; lia|].
    destruct (markup >? 25)%js, (markup <? 15)%js eqn:E15;
      try rewrite (tests_not_below_15 _ E15);
      repeat split; intros; try discriminate; lia.
Qed.

Lemma fallback_without_data_range_witness :
  ProbabilityCalculator._calculateFallbackProbability
    (Sample.store (fun _ => [])) 40 "P1" "C2" = Return (JS.Fin 23).
Proof.
  destruct (fallback_without_data_range (Sample.store (fun _ => [])) 40
              "P1" "C2" eq_refl eq_refl) as (b & Hb & _).
  rewrite Hb. vm_compute in Hb. injection Hb as Hb.
  subst b. reflexivity.
Defined.



(** ** Numbers that denote the same value *)

Lemma same_refl (a : JS.number) : Spec.same a a.
Proof. destruct a; cbn; auto. reflexivity. Qed.

Lemma same_sym (a b : JS.number) : Spec.same a b -> Spec.same b a.
Proof. destruct a, b; cbn; auto. intros H. now symmetry. Qed.

Lemma same_trans (a b c : JS.number) :
  Spec.same a b -> Spec.same b c -> Spec.same a c.
Proof.
  destruct a, b, c; cbn; auto; try contradiction.
  intros H1 H2. now rewrite H1.
Qed.

Lemma Qlt_bool_same (x x' y y' : Q) :
  x == x' -> y == y' -> JS.Qlt_bool x y = JS.Qlt_bool x' y'.
Proof.
  intros Hx Hy.
  destruct (JS.Qlt_bool x y) eqn:E, (JS.Qlt_bool x' y') eqn:E';
    try reflexivity; reflect_Q; exfalso; rewrite Hx, Hy in E; lra.
Qed.

Lemma add_same (a a' b b' : JS.number) :
  Spec.same a a' -> Spec.same b b' -> Spec.same (a + b)%js (a' + b')%js.
Proof.
  destruct a, a', b, b'; cbn; auto; try contradiction.
  intros H1 H2. now rewrite H1, H2.
Qed.

Lemma add_0_same (a : JS.number) : Spec.same a (a + 0)%js.
Proof. destruct a; cbn; auto. ring. Qed.

Lemma lt_same (a a' b b' : JS.number) :
  Spec.same a a' -> Spec.same b b' -> (a <? b)%js = (a' <? b')%js.
Proof.
  destruct a, a', b, b'; cbn; auto; try contradiction.
  apply Qlt_bool_same.
Qed.

Lemma max_same (a a' b b' : JS.number) :
  Spec.same a a' -> Spec.same b b' ->
  Spec.same (JS.Math.max a b) (JS.Math.max a' b').
Proof.
  intros Ha Hb. unfold JS.Math.max.
  rewrite (lt_same a a' b b' Ha Hb).
  destruct a, a', b, b'; cbn in *; auto; try contradiction;
    destruct (JS.Qlt_bool _ _); cbn; auto.
Qed.

Lemma min_same (a a' b b' : JS.number) :
  Spec.same a a' -> Spec.same b b' ->
  Spec.same (JS.Math.min a b) (JS.Math.min a' b').
Proof.
  intros Ha Hb. unfold JS.Math.min.
  rewrite (lt_same b b' a a' Hb Ha).
  destruct a, a', b, b'; cbn in *; auto; try contradiction;
    destruct (JS.Qlt_bool _ _); cbn; auto.
Qed.

Lemma toFixed1_same (a a' : JS.number) :
  Spec.same a a' -> Spec.same (JS.toFixed1 a) (JS.toFixed1 a').
Proof.
  destruct a as [x| | |], a' as [x'| | |]; cbn [Spec.same JS.toFixed1]; auto;
    try contradiction.
  intros H. rewrite (Qlt_bool_same x x' 0 0 H (Qeq_refl 0)).
  destruct (JS.Qlt_bool x' 0); cbn [Spec.same]; now rewrite H.
Qed.

(** ** SuggestedMarkupRepository: the adjustments *)

Lemma div_of_lengths {A B : Type} (a : list A) (b : list B) :
  b <> [] ->
  (length_of a / length_of b)%js = JS.Fin (Spec.size a / Spec.size b).
Proof.
  intros Hb. unfold length_of, JS.of_nat, JS.of_Z. cbn [JS.div].
  fold (Spec.size a). fold (Spec.size b).
  destruct (Qeq_bool (Spec.size b) 0) eqn:E; [|reflexivity].
  reflect_Q. now apply size_nonzero in Hb.
Qed.

Lemma rate_between_0_and_1 {A : Type} (f : A -> bool) (l : list A) :
  l <> [] -> 0 <= Spec.size (filter f l) / Spec.size l <= 1.
Proof.
  intros Hne. destruct (size_filter_le f l) as [H0 Hle].
  assert (Hpos : 0 < Spec.size l).
  { pose proof (size_nonzero _ Hne). lra. }
  split; [apply Qle_shift_div_l | apply Qle_shift_div_r]; lra.
Qed.

(** [Math.min(5, Math.round(successRate * 5))] for a rate above 0.7. *)
Lemma good_client_adjustment (x : Q) :
  7 # 10 < x <= 1 ->
  (x < 9 # 10 ->
   JS.Math.min 5 (JS.Math.round (JS.Fin x * 5)%js) = JS.Fin 4)
  /\ (9 # 10 <= x ->
      JS.Math.min 5 (JS.Math.round (JS.Fin x * 5)%js) = JS.Fin 5).
Proof.
  intros [Hlo Hhi]. cbn [JS.mul]. unfold JS.Math.round, JS.of_Z.
  assert (H4 : (Qfloor 4 <= Qfloor (x * 5 + (1 # 2)))%Z)
    by (apply Qfloor_resp_le; lra).
  assert (H5 : (Qfloor (x * 5 + (1 # 2)) <= Qfloor (5 + (1 # 2)))%Z)
    by (apply Qfloor_resp_le; lra).
  change (Qfloor 4) with 4%Z in H4.
  change (Qfloor (5 + (1 # 2))) with 5%Z in H5.
  split; intros Hx.
  - assert (Hk : Qfloor (x * 5 + (1 # 2)) = 4%Z).
    { assert (Hlt : (Qfloor (x * 5 + (1 # 2)) < 5)%Z); [|lia].
      rewrite Zlt_Qlt.
      apply Qle_lt_trans with (y := x * 5 + (1 # 2)); [apply Qfloor_le|].
      change (inject_Z 5) with 5. lra. }
    rewrite Hk. reflexivity.
  - assert (Hk : Qfloor (x * 5 + (1 # 2)) = 5%Z).
    { assert (Hge : (Qfloor 5 <= Qfloor (x * 5 + (1 # 2)))%Z)
        by (apply Qfloor_resp_le; lra).
      change (Qfloor 5) with 5%Z in Hge. lia. }
    rewrite Hk. reflexivity.
Qed.

(** The client-history adjustment is decided by the success rate of the
    customer's offers: +5 from a rate of 0.9, +4 for a rate above 0.7 and
    below 0.9, -2 for a rate below 0.3 over more than 3 offers, and 0
    otherwise, in particular for a customer without offers. *)
Theorem client_adjustment_by_success_rate :
  forall (db : Db) (customerNr : string) (allHistory : list HistoricalOffer),
    db CustomerComputed30 [customerNr] = Return allHistory ->
    let successRate :=
      Spec.count succeeded allHistory / Spec.size allHistory in
    exists adjustment,
      SuggestedMarkupRepository._calculateClientHistoryAdjustment
        db customerNr = Return (JS.Fin adjustment)
      /\ (allHistory = [] -> adjustment = 0)
      /\ (allHistory <> [] ->
          (9 # 10 <= successRate -> adjustment = 5)
          /\ (7 # 10 < successRate < 9 # 10 -> adjustment = 4)
          /\ (3 # 10 <= successRate <= 7 # 10 -> adjustment = 0)
          /\ (successRate < 3 # 10 ->
              ((3 < List.length allHistory)%nat -> adjustment = -2)
              /\ ((List.length allHistory <= 3)%nat -> adjustment = 0))).
Proof.
  intros db customerNr allHistory Hall successRate.
  unfold SuggestedMarkupRepository._calculateClientHistoryAdjustment,
    SuggestedMarkupRepository._fetchCompleteCustomerHistory.
  rewrite Hall. cbn [bind].
  destruct (List.length allHistory =? 0)%nat eqn:E0.
  { apply length_eqb_0 in E0. exists 0. split; [reflexivity|].
    split; [reflexivity|]. intros Hne. contradiction. }
  assert (Hne : allHistory <> [])
    by (intros E; rewrite E in E0; discriminate E0).
  rewrite (div_of_lengths _ _ Hne).
  pose proof (rate_between_0_and_1 succeeded allHistory Hne) as Hrate.
  change (Spec.size (filter succeeded allHistory) / Spec.size allHistory)
    with successRate in Hrate |- *.
  clearbody successRate.
  unfold JS.gt. cbn [JS.lt].
  destruct (JS.Qlt_bool 0.7 successRate) eqn:E7.
  - reflect_Q. change 0.7 with (7 # 10) in E7.
    destruct (good_client_adjustment successRate (conj E7 (proj2 Hrate)))
      as [H4 H5].
    destruct (Qlt_le_dec successRate (9 # 10)) as [Hlt|Hge].
    + exists 4. split; [rewrite (H4 Hlt); reflexivity|].
      split; [intros E; contradiction|]. intros _.
      repeat split; intros; try reflexivity; exfalso; lra.
    + exists 5. split; [rewrite (H5 Hge); reflexivity|].
      split; [intros E; contradiction|]. intros _.
      repeat split; intros; try reflexivity; exfalso; lra.
  - reflect_Q. change 0.7 with (7 # 10) in E7.
    destruct (JS.Qlt_bool successRate 0.3) eqn:E3; reflect_Q;
      change 0.3 with (3 # 10) in E3.
    + destruct (3 <? List.length allHistory)%nat eqn:Elen; cbn [andb].
      * apply Nat.ltb_lt in Elen.
        exists (-2). split; [reflexivity|].
        split; [intros E; contradiction|]. intros _.
        repeat split; intros; try reflexivity; exfalso; try lra; lia.
      * apply Nat.ltb_ge in Elen.
        exists 0. split; [reflexivity|].
        split; [intros E; contradiction|]. intros _.
        repeat split; intros; try reflexivity; exfalso; try lra; lia.
    + cbn [andb]. exists 0. split; [reflexivity|].
      split; [intros E; contradiction|]. intros _.
      repeat split; intros; try reflexivity; exfalso; lra.
Qed.

Lemma client_adjustment_by_success_rate_witness :
  SuggestedMarkupRepository._calculateClientHistoryAdjustment
    (Sample.store Cases.loyal) "C1" = Return (JS.Fin 4).
Proof.
  destruct (client_adjustment_by_success_rate (Sample.store Cases.loyal) "C1"
              (Cases.loyal CustomerComputed30) eq_refl)
    as (a & Ha & _ & H).
  rewrite Ha. destruct H as (_ & H4 & _); [discriminate|].
  rewrite H4; [reflexivity|]. split; vm_compute; reflexivity.
Defined.

Lemma clientHistoryAdjustment_values (db : Db) (customerNr : string)
    (a : JS.number) :
  SuggestedMarkupRepository._calculateClientHistoryAdjustment db customerNr
  = Return a ->
  a = 0 \/ a = (-2) \/ a = 4 \/ a = 5.
Proof.
  unfold SuggestedMarkupRepository._calculateClientHistoryAdjustment,
    SuggestedMarkupRepository._fetchCompleteCustomerHistory.
  destruct (db CustomerComputed30 [customerNr]) as [allHistory|e];
    cbn [bind]; [|discriminate].
  destruct (List.length allHistory =? 0)%nat eqn:E0;
    [intros H; apply Return_inj in H; auto|].
  assert (Hne : allHistory <> [])
    by (intros E; rewrite E in E0; discriminate E0).
  rewrite (div_of_lengths _ _ Hne).
  pose proof (rate_between_0_and_1 succeeded allHistory Hne) as Hrate.
  set (x := Spec.size (filter succeeded allHistory) / Spec.size allHistory)
    in *.
  unfold JS.gt. cbn [JS.lt].
  destruct (JS.Qlt_bool 0.7 x) eqn:E7.
  - reflect_Q. change 0.7 with (7 # 10) in E7.
    destruct (good_client_adjustment x (conj E7 (proj2 Hrate))) as [H4 H5].
    intros H. apply Return_inj in H. subst a.
    destruct (Qlt_le_dec x (9 # 10)) as [Hlt|Hge];
      [rewrite (H4 Hlt) | rewrite (H5 Hge)]; auto.
  - destruct (JS.Qlt_bool x 0.3 && (3 <? List.length allHistory)%nat)%bool;
      intros H; apply Return_inj in H; auto.
Qed.

Lemma volumeDiscount_values (quantity : JS.number)
    (history : list HistoricalOffer) :
  let d := SuggestedMarkupRepository._calculateVolumeDiscount quantity history
  in d = 0 \/ d = (-5) \/ d = (-3) \/ d = 2.
Proof.
  unfold SuggestedMarkupRepository._calculateVolumeDiscount.
  destruct (List.length history =? 0)%nat; [auto|].
  destruct (_ >? _)%js; [auto|].
  destruct (_ >? _)%js; [auto|].
  destruct (_ <? _)%js; auto.
Qed.

(** An adjustment among the values that the code produces is reported when
    it is not 0, and the markup moves by the reported factor. *)
Lemma applyAdjustment_reports (markup adj : JS.number) (values : list Q) :
  (exists q, adj = JS.Fin q /\ In q (0 :: values)) ->
  Forall (fun q => ~ q == 0) values ->
  let '(reported, moved) :=
    SuggestedMarkupRepository.applyAdjustment markup adj in
  Spec.same moved (markup + Cases.factor reported)%js
  /\ (forall a, reported = Some a -> exists q, a = JS.Fin q /\ In q values).
Proof.
  intros (q & -> & Hin) Hvalues.
  unfold SuggestedMarkupRepository.applyAdjustment. cbn [JS.strict_eq].
  destruct (Qeq_bool q 0) eqn:E; cbn [negb]; reflect_Q.
  - split; [apply add_0_same | discriminate].
  - split; [apply same_refl|].
    intros a Ha. injection Ha as <-. exists q. split; [reflexivity|].
    destruct Hin as [<-|Hin]; [now contradiction E | exact Hin].
Qed.

(** What [calculateSuggestedMarkup] returns: its default, or a result built
    from a base markup, a client adjustment and a volume discount. *)
Lemma suggestedMarkup_shape (w : World) (customerNr productId : string)
    (quantity purchasePrice rate : JS.number)
    (r : SuggestedMarkupRepository.MarkupResult) :
  SuggestedMarkupRepository.calculateSuggestedMarkup
    w customerNr productId quantity purchasePrice rate = Return r ->
  r = SuggestedMarkupRepository.fallback
  \/ exists (base adjClient adjVolume : JS.number) count probability,
      (adjClient = 0 \/ adjClient = (-2) \/ adjClient = 4 \/ adjClient = 5)
      /\ (adjVolume = 0 \/ adjVolume = (-5) \/ adjVolume = (-3)
          \/ adjVolume = 2)
      /\ r = (let '(clientHistory, m1) :=
                SuggestedMarkupRepository.applyAdjustment base adjClient in
              let '(volumeDiscount, m2) :=
                SuggestedMarkupRepository.applyAdjustment m1 adjVolume in
              {| SuggestedMarkupRepository.suggestedMarkup :=
                   JS.toFixed1
                     (JS.Math.max SuggestedMarkupRepository.MIN_MARKUP
                        (JS.Math.min SuggestedMarkupRepository.MAX_MARKUP m2));
                 SuggestedMarkupRepository.probability :=
                   JS.Math.round probability;
                 SuggestedMarkupRepository.historyCount := count;
                 SuggestedMarkupRepository.markupFactors :=
                   {| SuggestedMarkupRepository.baseMarkup := base;
                      SuggestedMarkupRepository.clientHistory := clientHistory;
                      SuggestedMarkupRepository.competitiveAdjustment := None;
                      SuggestedMarkupRepository.volumeDiscount :=
                        volumeDiscount;
                      SuggestedMarkupRepository.urgencyFactor := None |} |}).
Proof.
  unfold SuggestedMarkupRepository.calculateSuggestedMarkup,
    SuggestedMarkupRepository.calculateSuggestedMarkup_try,
    SuggestedMarkupRepository._fetchProductCustomerHistorySuccess.
  destruct (getDb w) as [db|e]; cbn [bind]; [|discriminate].
  destruct (db PairSuccess10 [customerNr; productId]) as [history|e];
    cbn [bind try_catch];
    [|intros Hr; apply Return_inj in Hr; auto].
  destruct (0 <? List.length history)%nat.
  - destruct (SuggestedMarkupRepository._calculateClientHistoryAdjustment
                db customerNr) as [adj|e] eqn:Eadj; cbn [bind try_catch];
      [|intros Hr; apply Return_inj in Hr; auto].
    pose proof (clientHistoryAdjustment_values _ _ _ Eadj) as Hadj.
    pose proof (volumeDiscount_values quantity history) as Hvol.
    cbn zeta in Hvol.
    set (base := SuggestedMarkupRepository._computeWeightedMarkup history).
    set (vol := SuggestedMarkupRepository._calculateVolumeDiscount
                  quantity history) in *.
    destruct (SuggestedMarkupRepository.applyAdjustment base adj)
      as [clientHistory m1] eqn:E1.
    destruct (SuggestedMarkupRepository.applyAdjustment m1 vol)
      as [volumeDiscount m2] eqn:E2.
    destruct (ProbabilityCalculator._calculateSuccessProbability
                db m2 productId customerNr quantity purchasePrice rate)
      as [pr|e]; cbn [bind try_catch];
      intros Hr; apply Return_inj in Hr; [|auto].
    right. exists base, adj, vol, (List.length history), pr.
    split; [exact Hadj|]. split; [exact Hvol|].
    rewrite E1, E2. symmetry. exact Hr.
  - unfold SuggestedMarkupRepository._fetchGeneralProductHistorySuccess,
      SuggestedMarkupRepository._fetchGeneralCustomerHistorySuccess.
    destruct (db ProductSuccess20 [productId]) as [ph|e];
      cbn [bind try_catch];
      [|intros Hr; apply Return_inj in Hr; auto].
    destruct (db CustomerSuccess20 [customerNr]) as [ch|e];
      cbn [bind try_catch];
      [|intros Hr; apply Return_inj in Hr; auto].
    set (base := SuggestedMarkupRepository._combineFallbackHistories
                   ph ch quantity productId).
    pose proof (volumeDiscount_values quantity (ph ++ ch)) as Hvol.
    cbn zeta in Hvol.
    set (vol := SuggestedMarkupRepository._calculateVolumeDiscount
                  quantity (ph ++ ch)) in *.
    destruct (0 <? List.length ph + List.length ch)%nat.
    + destruct (SuggestedMarkupRepository.applyAdjustment base vol)
        as [volumeDiscount m2] eqn:E2.
      destruct (ProbabilityCalculator._calculateFallbackProbability
                  db m2 productId customerNr) as [pr|e];
        cbn [bind try_catch];
        intros Hr; apply Return_inj in Hr; [|auto].
      right.
      exists base, (JS.Fin 0), vol, (List.length ph + List.length ch)%nat, pr.
      split; [auto|]. split; [exact Hvol|].
      change (SuggestedMarkupRepository.applyAdjustment base 0)
        with (@None JS.number, base).
      cbv beta iota. rewrite E2. symmetry. exact Hr.
    + destruct (ProbabilityCalculator._calculateFallbackProbability
                  db base productId customerNr) as [pr|e];
        cbn [bind try_catch];
        intros Hr; apply Return_inj in Hr; [|auto].
      right.
      exists base, (JS.Fin 0), (JS.Fin 0),
        (List.length ph + List.length ch)%nat, pr.
      split; [auto|]. split; [auto|].
      change (SuggestedMarkupRepository.applyAdjustment base 0)
        with (@None JS.number, base).
      symmetry. exact Hr.
Qed.

Lemma adjustment_values_listed (adj : JS.number) (a b c : Q) :
  adj = 0 \/ adj = JS.Fin a \/ adj = JS.Fin b \/ adj = JS.Fin c ->
  exists q, adj = JS.Fin q /\ In q [0; a; b; c].
Proof.
  intros [ -> | [ -> | [ -> | -> ] ] ]; eexists; (split; [reflexivity|]);
    cbn; auto.
Qed.

(** The suggested markup is explained by the reported factors: it is their
    sum (a factor that is not reported counting 0), limited to [1,1000] and
    rounded to one decimal.  This holds for the default result as well. *)
Theorem suggested_markup_is_explained :
  forall (w : World) (customerNr productId : string)
         (quantity purchasePrice rate : JS.number)
         (r : SuggestedMarkupRepository.MarkupResult),
    SuggestedMarkupRepository.calculateSuggestedMarkup
      w customerNr productId quantity purchasePrice rate = Return r ->
    Spec.same (SuggestedMarkupRepository.suggestedMarkup r)
      (Cases.explained (SuggestedMarkupRepository.markupFactors r)).
Proof.
  intros w customerNr productId quantity purchasePrice rate r Hr.
  destruct (suggestedMarkup_shape _ _ _ _ _ _ _ Hr)
    as [Er|(base & adjC & adjV & count & pr & HC & HV & Er)]; subst r.
  { vm_compute. reflexivity. }
  pose proof (applyAdjustment_reports base adjC [-2; 4; 5]
                (adjustment_values_listed adjC (-2) 4 5 HC)) as H1.
  destruct (SuggestedMarkupRepository.applyAdjustment base adjC)
    as [clientHistory m1].
  destruct H1 as [H1 _].
  { repeat constructor; intros H; discriminate H. }
  pose proof (applyAdjustment_reports m1 adjV [-5; -3; 2]
                (adjustment_values_listed adjV (-5) (-3) 2 HV)) as H2.
  destruct (SuggestedMarkupRepository.applyAdjustment m1 adjV)
    as [volumeDiscount m2].
  destruct H2 as [H2 _].
  { repeat constructor; intros H; discriminate H. }
  unfold Cases.explained.
  cbn [SuggestedMarkupRepository.suggestedMarkup
         SuggestedMarkupRepository.markupFactors
         SuggestedMarkupRepository.baseMarkup
         SuggestedMarkupRepository.clientHistory
         SuggestedMarkupRepository.competitiveAdjustment
         SuggestedMarkupRepository.volumeDiscount
         SuggestedMarkupRepository.urgencyFactor].
  apply toFixed1_same. apply max_same; [apply same_refl|].
  apply min_same; [apply same_refl|].
  eapply same_trans; [exact H2|].
  eapply same_trans; [|apply add_0_same].
  apply add_same; [|apply same_refl].
  eapply same_trans; [exact H1|]. apply add_0_same.
Qed.

Lemma suggested_markup_is_explained_witness :
  exists r,
    SuggestedMarkupRepository.calculateSuggestedMarkup
      Cases.loyalWorld "C1" "P1" 4 0 1 = Return r
    /\ Spec.same (SuggestedMarkupRepository.suggestedMarkup r) 36
    /\ Spec.same (SuggestedMarkupRepository.suggestedMarkup r)
         (Cases.explained (SuggestedMarkupRepository.markupFactors r)).
Proof.
  eexists. split; [vm_compute; reflexivity|].
  split; [reflexivity|].
  apply (suggested_markup_is_explained Cases.loyalWorld "C1" "P1" 4 0 1).
  vm_compute. reflexivity.
Defined.

(** The factors that [calculateSuggestedMarkup] reports: a client-history
    factor is -2, 4 or 5, a volume discount is -5, -3 or 2 (an adjustment of
    0 is not reported), and the competitive and urgency factors are never
    set. *)
Theorem reported_factors_values :
  forall (w : World) (customerNr productId : string)
         (quantity purchasePrice rate : JS.number)
         (r : SuggestedMarkupRepository.MarkupResult),
    SuggestedMarkupRepository.calculateSuggestedMarkup
      w customerNr productId quantity purchasePrice rate = Return r ->
    let f := SuggestedMarkupRepository.markupFactors r in
    (forall a, SuggestedMarkupRepository.clientHistory f = Some a ->
               exists q, a = JS.Fin q /\ In q [-2; 4; 5])
    /\ (forall a, SuggestedMarkupRepository.volumeDiscount f = Some a ->
                  exists q, a = JS.Fin q /\ In q [-5; -3; 2])
    /\ SuggestedMarkupRepository.competitiveAdjustment f = None
    /\ SuggestedMarkupRepository.urgencyFactor f = None.
Proof.
  intros w customerNr productId quantity purchasePrice rate r Hr.
  destruct (suggestedMarkup_shape _ _ _ _ _ _ _ Hr)
    as [Er|(base & adjC & adjV & count & pr & HC & HV & Er)]; subst r.
  { cbn. repeat split; discriminate. }
  pose proof (applyAdjustment_reports base adjC [-2; 4; 5]
                (adjustment_values_listed adjC (-2) 4 5 HC)) as H1.
  destruct (SuggestedMarkupRepository.applyAdjustment base adjC)
    as [clientHistory m1].
  destruct H1 as [_ H1].
  { repeat constructor; intros H; discriminate H. }
  pose proof (applyAdjustment_reports m1 adjV [-5; -3; 2]
                (adjustment_values_listed adjV (-5) (-3) 2 HV)) as H2.
  destruct (SuggestedMarkupRepository.applyAdjustment m1 adjV)
    as [volumeDiscount m2].
  destruct H2 as [_ H2].
  { repeat constructor; intros H; discriminate H. }
  cbn. repeat split; assumption.
Qed.

Lemma reported_factors_values_witness :
  exists r,
    SuggestedMarkupRepository.calculateSuggestedMarkup
      Cases.loyalWorld "C1" "P1" 9 0 1 = Return r
    /\ SuggestedMarkupRepository.clientHistory
         (SuggestedMarkupRepository.markupFactors r) = Some (JS.Fin 4)
    /\ SuggestedMarkupRepository.volumeDiscount
         (SuggestedMarkupRepository.markupFactors r) = Some (JS.Fin (-5))
    /\ SuggestedMarkupRepository.competitiveAdjustment
         (SuggestedMarkupRepository.markupFactors r) = None.
Proof.
  eexists. split; [vm_compute; reflexivity|].
  split; [reflexivity|]. split; [reflexivity|].
  apply (reported_factors_values Cases.loyalWorld "C1" "P1" 9 0 1).
  vm_compute. reflexivity.
Defined.

Lemma sum_without_quantities (history : list HistoricalOffer) :
  Forall Cases.noQuantity history ->
  forall z, z == 0 ->
  exists z',
    fold_left (fun sum h => (sum + JS.or_default (offer_answer__qty h) 0)%js)
      history (JS.Fin z) = JS.Fin z'
    /\ z' == 0.
Proof.
  induction 1 as [|h history Hh _ IH]; intros z Hz; cbn [fold_left].
  - now exists z.
  - assert (E : JS.or_default (offer_answer__qty h) 0 = 0).
    { unfold Cases.noQuantity in Hh. unfold JS.or_default.
      destruct (offer_answer__qty h) as [a|]; [now rewrite Hh | reflexivity]. }
    rewrite E. cbn [JS.add]. apply IH. rewrite Hz. reflexivity.
Qed.

Lemma lt_asym (a b : JS.number) : (a <? b)%js = true -> (b <? a)%js = false.
Proof.
  destruct a as [x| | |], b as [y| | |]; cbn; intros H;
    try discriminate H; try reflexivity.
  reflect_Q. lra.
Qed.

(** Rows without a usable quantity count as quantity 0 in the average of
    [_calculateVolumeDiscount] (so do the rows of the customer-history query
    of the fallback, which selects the markup alone): when no row has one,
    every positive requested quantity gets the largest discount -5, a
    negative one gets +2, and 0 or [NaN] get none. *)
Theorem volume_discount_without_quantities :
  forall (quantity : JS.number) (history : list HistoricalOffer),
    history <> [] ->
    Forall Cases.noQuantity history ->
    let discount :=
      SuggestedMarkupRepository._calculateVolumeDiscount quantity history in
    ((0 <? quantity)%js = true -> discount = (-5))
    /\ ((quantity <? 0)%js = true -> discount = 2)
    /\ ((0 <? quantity)%js = false -> (quantity <? 0)%js = false ->
        discount = 0).
Proof.
  intros quantity history Hne Hall discount. unfold discount,
    SuggestedMarkupRepository._calculateVolumeDiscount.
  destruct (List.length history =? 0)%nat eqn:E0;
    [apply length_eqb_0 in E0; contradiction|].
  destruct (sum_without_quantities history Hall 0 (Qeq_refl 0))
    as (z & -> & Hz).
  pose proof (size_nonzero _ Hne) as Hsize.
  unfold length_of, JS.of_nat, JS.of_Z. fold (Spec.size history).
  cbn [JS.div].
  destruct (Qeq_bool (Spec.size history) 0) eqn:E; [reflect_Q; contradiction|].
  assert (Havg : z / Spec.size history == 0)
    by (rewrite Hz; field; exact Hsize).
  unfold JS.gt. cbn [JS.mul].
  rewrite (lt_same (JS.Fin (z / Spec.size history * 2)) 0 quantity quantity),
    (lt_same (JS.Fin (z / Spec.size history * 1.5)) 0 quantity quantity),
    (lt_same quantity quantity (JS.Fin (z / Spec.size history * 0.5)) 0);
    try apply same_refl; try (cbn; rewrite Havg; reflexivity).
  destruct (0 <? quantity)%js eqn:Epos.
  - rewrite (lt_asym _ _ Epos). repeat split; intros; congruence.
  - destruct (quantity <? 0)%js; repeat split; intros; congruence.
Qed.

Lemma volume_discount_without_quantities_witness :
  SuggestedMarkupRepository._calculateVolumeDiscount 1
    [Sample.offer 1 (Some (JS.Fin 30)) None] = (-5).
Proof.
  destruct (volume_discount_without_quantities 1
              [Sample.offer 1 (Some (JS.Fin 30)) None]) as (H & _).
  - discriminate.
  - repeat constructor.
  - apply H. reflexivity.
Defined.

(** ** SuggestedMarkupRepository: the weighted markup and its blends *)

Lemma size_cons {A : Type} (x : A) (l : list A) :
  Spec.size (x :: l) == Spec.size l + 1.
Proof.
  unfold Spec.size. cbn [List.length]. rewrite Nat2Z.inj_succ.
  unfold Z.succ. rewrite inject_Z_plus. reflexivity.
Qed.

Lemma size_nonneg {A : Type} (l : list A) : 0 <= Spec.size l.
Proof.
  unfold Spec.size. change 0 with (inject_Z 0). rewrite <- Zle_Qle. lia.
Qed.

Lemma size_pos {A : Type} (l : list A) : l <> [] -> 0 < Spec.size l.
Proof.
  intros Hne. pose proof (size_nonzero _ Hne) as Hsize.
  pose proof (size_nonneg l) as Hpos.
  destruct (Qlt_le_dec 0 (Spec.size l)) as [H|H]; [exact H|].
  exfalso. apply Hsize. apply Qle_antisym; assumption.
Qed.

Lemma sum_between (lo hi : Q) (l : list JS.number) :
  Forall (Cases.between lo hi) l ->
  forall a,
  exists s,
    fold_left JS.add l (JS.Fin a) = JS.Fin s
    /\ a + Spec.size l * lo <= s <= a + Spec.size l * hi.
Proof.
  induction 1 as [|x l (q & -> & Hq) _ IH]; intros a; cbn [fold_left].
  - exists a. split; [reflexivity|].
    change (Spec.size (@nil JS.number)) with 0. lra.
  - cbn [JS.add]. destruct (IH (a + q)) as (s & Hs & Hb).
    exists s. split; [exact Hs|]. rewrite size_cons. lra.
Qed.

Lemma validMarkups_finite (history : list HistoricalOffer) :
  Cases.noInfiniteMarkup history ->
  Forall (fun a => exists q, a = JS.Fin q) (Spec.validMarkups history).
Proof.
  unfold Spec.validMarkups.
  induction 1 as [|h history [Hp Hn] _ IH]; [constructor|].
  cbn [map filter]. destruct (valid (markup h)) eqn:E; [|exact IH].
  destruct (markup h) as [[q| | |]|]; cbn [numbers_of];
    try discriminate E; try congruence.
  constructor; [now exists q | exact IH].
Qed.

Lemma finite_numbers_between (l : list JS.number) :
  Forall (fun a => exists q, a = JS.Fin q) l ->
  exists lo hi, Forall (Cases.between lo hi) l.
Proof.
  induction 1 as [|x l (q & ->) _ (lo & hi & IH)].
  - exists 0, 0. constructor.
  - exists (Qmin lo q), (Qmax hi q). constructor.
    + exists q. split; [reflexivity|].
      split; [apply Q.le_min_r | apply Q.le_max_r].
    + eapply Forall_impl; [|exact IH].
      intros a (y & -> & Hy). exists y. split; [reflexivity|].
      pose proof (Q.le_min_l lo q). pose proof (Q.le_max_l hi q). lra.
Qed.

(** The weighted markup of a history is the default 20 when no markup is
    valid; when the valid markups are finite and none is below [lo], it is
    not below [lo + 2]: the function never suggests less than 2 points above
    the lowest markup of the history. *)
Theorem weighted_markup_not_below_lowest :
  forall (history : list HistoricalOffer) (lo : Q),
    Forall (Cases.atLeast lo) (Spec.validMarkups history) ->
    (Spec.validMarkups history = [] ->
     SuggestedMarkupRepository._computeWeightedMarkup history
     = SuggestedMarkupRepository.DEFAULT_MARKUP)
    /\ (Spec.validMarkups history <> [] ->
        (JS.Fin (lo + 2)
         <=? SuggestedMarkupRepository._computeWeightedMarkup history)%js
        = true).
Proof.
  intros history lo Hall.
  unfold SuggestedMarkupRepository._computeWeightedMarkup.
  rewrite validMarkups_as_computed.
  set (sorted := SuggestedMarkupRepository.sort _ _).
  assert (Hperm : Permutation sorted (Spec.validMarkups history))
    by apply sort_permutation.
  split.
  - intros E. unfold sorted. rewrite E. reflexivity.
  - intros Hne.
    assert (Hsorted : Forall (Cases.atLeast lo) sorted)
      by exact (Permutation_Forall (Permutation_sym Hperm) Hall).
    assert (Hnes : sorted <> []).
    { intros E. rewrite E in Hperm. apply Permutation_nil in Hperm.
      contradiction. }
    destruct (List.length sorted =? 0)%nat eqn:E0;
      [apply length_eqb_0 in E0; contradiction|].
    assert (Hmed : Cases.atLeast lo
                     (nth (List.length sorted / 2) sorted JS.NaN)).
    { rewrite Forall_forall in Hsorted. apply Hsorted, nth_In.
      apply Nat.div_lt; [|lia]. destruct sorted; [congruence|cbn; lia]. }
    destruct Hmed as (m & -> & Hm).
    assert (Hfin : Forall (fun a => exists q, a = JS.Fin q) sorted).
    { eapply Forall_impl; [|exact Hsorted]. intros a (q & -> & _).
      now exists q. }
    destruct (finite_numbers_between _ Hfin) as (lo' & hi' & Hbetween).
    unfold sum_numbers.
    destruct (sum_between lo' hi' sorted Hbetween 0) as (s & -> & _).
    pose proof (size_nonzero _ Hnes) as Hsize.
    unfold length_of, JS.of_nat, JS.of_Z. fold (Spec.size sorted).
    cbn [JS.div].
    destruct (Qeq_bool (Spec.size sorted) 0) eqn:E;
      [reflect_Q; contradiction|].
    cbn. destruct (JS.Qlt_bool m (s / Spec.size sorted)) eqn:Emax;
      cbn; reflect_Q; lra.
Qed.

Lemma weighted_markup_not_below_lowest_witness :
  (JS.Fin (18 + 2)
   <=? SuggestedMarkupRepository._computeWeightedMarkup Cases.threeMarkups)%js
  = true.
Proof.
  destruct (weighted_markup_not_below_lowest Cases.threeMarkups 18)
    as (_ & H).
  - repeat constructor; eexists; (split; [reflexivity|]);
      vm_compute; discriminate.
  - apply H. discriminate.
Defined.

Lemma weightedMarkup_finite (history : list HistoricalOffer) :
  Cases.noInfiniteMarkup history ->
  exists q, SuggestedMarkupRepository._computeWeightedMarkup history = JS.Fin q.
Proof.
  intros Hfin.
  destruct (finite_numbers_between _ (validMarkups_finite history Hfin))
    as (lo & hi & Hall).
  unfold SuggestedMarkupRepository._computeWeightedMarkup.
  rewrite validMarkups_as_computed.
  set (sorted := SuggestedMarkupRepository.sort _ _).
  assert (Hperm : Permutation sorted (Spec.validMarkups history))
    by apply sort_permutation.
  assert (Hsorted : Forall (Cases.between lo hi) sorted)
    by exact (Permutation_Forall (Permutation_sym Hperm) Hall).
  destruct (List.length sorted =? 0)%nat eqn:E0; [now exists 20|].
  assert (Hnes : sorted <> [])
    by (intros E; rewrite E in E0; discriminate E0).
  assert (Hmed : Cases.between lo hi
                   (nth (List.length sorted / 2) sorted JS.NaN)).
  { rewrite Forall_forall in Hsorted. apply Hsorted, nth_In.
    apply Nat.div_lt; [|lia]. destruct sorted; [congruence|cbn; lia]. }
  destruct Hmed as (m & -> & Hm).
  unfold sum_numbers.
  destruct (sum_between lo hi sorted Hsorted 0) as (s & -> & Hs).
  pose proof (size_nonzero _ Hnes) as Hsize.
  unfold length_of, JS.of_nat, JS.of_Z. fold (Spec.size sorted).
  cbn [JS.div].
  destruct (Qeq_bool (Spec.size sorted) 0) eqn:E;
    [reflect_Q; contradiction|].
  cbn. destruct (JS.Qlt_bool m (s / Spec.size sorted)); eexists; reflexivity.
Qed.

(** Without any history the quantity adjustment compares the requested
    quantity with the default average 10. *)
Lemma adjustForQuantity_without_history (currentQty : JS.number) (base : Q) :
  let adjusted :=
    SuggestedMarkupRepository._adjustForQuantity currentQty [] (JS.Fin base)
  in
  ((currentQty >? 20)%js = true -> adjusted = JS.Fin (base * 0.9))
  /\ ((currentQty <? 5)%js = true -> adjusted = JS.Fin (base * 1.1))
  /\ ((currentQty >? 20)%js = false -> (currentQty <? 5)%js = false ->
      adjusted = JS.Fin base).
Proof.
  unfold SuggestedMarkupRepository._adjustForQuantity,
    SuggestedMarkupRepository.DEFAULT_AVG_QUANTITY.
  cbn [List.length Nat.ltb Nat.leb].
  destruct currentQty as [q| | |]; cbn;
    try (repeat split; intros; try discriminate; reflexivity).
  assert (H2 : JS.Qlt_bool 2 (q / 10) = JS.Qlt_bool 20 q).
  { destruct (JS.Qlt_bool 2 (q / 10)) eqn:E1, (JS.Qlt_bool 20 q) eqn:E2;
      try reflexivity; reflect_Q; exfalso.
    - apply (Qmult_lt_r _ _ 10) in E1; [|reflexivity].
      assert (q / 10 * 10 == q) by field. lra.
    - apply (Qmult_le_r _ _ 10) in E1; [|reflexivity].
      assert (q / 10 * 10 == q) by field. lra. }
  assert (H5 : JS.Qlt_bool (q / 10) 0.5 = JS.Qlt_bool q 5).
  { destruct (JS.Qlt_bool (q / 10) 0.5) eqn:E1, (JS.Qlt_bool q 5) eqn:E2;
      try reflexivity; reflect_Q; exfalso.
    - apply (Qmult_lt_r _ _ 10) in E1; [|reflexivity].
      assert (q / 10 * 10 == q) by field.
      assert (0.5 * 10 == 5) by reflexivity. lra.
    - apply (Qmult_le_r _ _ 10) in E1; [|reflexivity].
      assert (q / 10 * 10 == q) by field.
      assert (0.5 * 10 == 5) by reflexivity. lra. }
  rewrite H2, H5.
  destruct (JS.Qlt_bool 20 q) eqn:E20.
  - repeat split; intros; try discriminate; try reflexivity.
    exfalso. reflect_Q. lra.
  - destruct (JS.Qlt_bool q 5); repeat split; intros; try discriminate;
      reflexivity.
Qed.

(** With neither product nor customer history the fallback markup is finite
    and lies between 9 and 40.7: a base of 20 (for an empty [productId]) or
    between 10 and 37 (20 plus a variation in [-7,12] and a category
    adjustment of -3, 0 or 5), taken as it is for a requested quantity from
    5 to 20, times 0.9 above 20 and times 1.1 below 5.  The limits
    [MIN_MARKUP + 2] and [MAX_MARKUP - 5] never act. *)
Theorem fallback_markup_without_history :
  forall (currentQty : JS.number) (productId : string),
    exists base v,
      SuggestedMarkupRepository._combineFallbackHistories
        [] [] currentQty productId = JS.Fin v
      /\ 10 <= base <= 37
      /\ 9 <= v <= 407 # 10
      /\ ((currentQty >? 20)%js = true -> v = base * 0.9)
      /\ ((currentQty <? 5)%js = true -> v = base * 1.1)
      /\ ((currentQty >? 20)%js = false -> (currentQty <? 5)%js = false ->
          v = base).
Proof.
  intros currentQty productId.
  unfold SuggestedMarkupRepository._combineFallbackHistories.
  cbn [List.length Nat.ltb Nat.leb app].
  change (0 + 0 >? 0)%js with false. cbv iota.
  match goal with
  | |- context [SuggestedMarkupRepository._adjustForQuantity _ _ ?b] =>
      assert (Hbase : exists base, b = JS.Fin base /\ 10 <= base <= 37)
  end.
  { destruct productId as [|c rest].
    - exists 20. split; [reflexivity|lra].
    - set (productId := String c rest).
      pose proof (charCodeSum_nonneg productId) as Hsum.
      assert (Hrem : (0 <= Z.rem (JS.charCodeSum productId) 20 < 20)%Z)
        by (apply Z.rem_bound_pos; lia).
      set (variation := (Z.rem (JS.charCodeSum productId) 20 - 7)%Z).
      assert (Hvar : -7 <= inject_Z variation <= 12).
      { change (-7) with (inject_Z (-7)). change 12 with (inject_Z 12).
        rewrite <- !Zle_Qle. unfold variation. lia. }
      set (last := JS.or_default _ 0).
      assert (Hclamp : forall cat : Q,
                 -3 <= cat <= 5 ->
                 exists base,
                   JS.Math.max (SuggestedMarkupRepository.MIN_MARKUP + 2)%js
                     (JS.Math.min
                        (SuggestedMarkupRepository.MAX_MARKUP - 5)%js
                        (SuggestedMarkupRepository.DEFAULT_MARKUP
                         + JS.of_Z variation + JS.Fin cat)%js)
                   = JS.Fin base
                   /\ 10 <= base <= 37).
      { intros cat Hcat.
        unfold SuggestedMarkupRepository.MIN_MARKUP,
          SuggestedMarkupRepository.MAX_MARKUP,
          SuggestedMarkupRepository.DEFAULT_MARKUP, JS.of_Z.
        cbn [JS.add JS.sub JS.neg].
        unfold JS.Math.min. cbn [JS.lt].
        destruct (JS.Qlt_bool (20 + inject_Z variation + cat) (1000 + - (5)))
          eqn:E1; [|reflect_Q; lra].
        unfold JS.Math.max. cbn [JS.lt].
        destruct (JS.Qlt_bool (1 + 2) (20 + inject_Z variation + cat))
          eqn:E2; [|reflect_Q; lra].
        eexists. split; [reflexivity|]. lra. }
      destruct (last <? 20)%js; [apply Hclamp; lra|].
      destruct (last >? 80)%js; apply Hclamp; lra. }
  destruct Hbase as (base & -> & Hb).
  destruct (adjustForQuantity_without_history currentQty base)
    as (Hhigh & Hlow & Hmid).
  destruct (currentQty >? 20)%js eqn:E20.
  - exists base, (base * 0.9). split; [apply Hhigh; reflexivity|].
    split; [exact Hb|]. split; [change 0.9 with (9 # 10); lra|].
    split; [reflexivity|]. split; [|discriminate].
    intros E5. exfalso. clear - E20 E5. unfold JS.gt in E20.
    destruct currentQty; cbn in E20, E5; try discriminate. reflect_Q. lra.
  - destruct (currentQty <? 5)%js eqn:E5.
    + exists base, (base * 1.1). split; [apply Hlow; reflexivity|].
      split; [exact Hb|]. split; [change 1.1 with (11 # 10); lra|].
      split; [discriminate|]. split; [reflexivity|discriminate].
    + exists base, base. split; [apply Hmid; reflexivity|].
      split; [exact Hb|]. split; [lra|].
      split; [discriminate|]. split; [discriminate|reflexivity].
Qed.

Lemma fallback_markup_without_history_witness :
  exists v,
    SuggestedMarkupRepository._combineFallbackHistories [] [] 30 "P1"
    = JS.Fin v
    /\ 9 <= v <= 407 # 10.
Proof.
  destruct (fallback_markup_without_history 30 "P1")
    as (base & v & H & _ & Hv & _).
  exists v. split; [exact H | exact Hv].
Defined.






Lemma adjustForQuantity_finite (currentQty : JS.number)
    (history : list HistoricalOffer) (base : Q) :
  exists v,
    SuggestedMarkupRepository._adjustForQuantity currentQty history
      (JS.Fin base) = JS.Fin v.
Proof.
  unfold SuggestedMarkupRepository._adjustForQuantity.
  destruct (_ >? 2)%js; [eexists; reflexivity|].
  destruct (_ <? 0.5)%js; eexists; reflexivity.
Qed.

Lemma limits_keep_finite (lo hi x : Q) :
  exists b, JS.Math.max (JS.Fin lo) (JS.Math.min (JS.Fin hi) (JS.Fin x))
            = JS.Fin b.
Proof.
  cbn. destruct (JS.Qlt_bool x hi); cbn;
    destruct (JS.Qlt_bool lo _); eexists; reflexivity.
Qed.

Lemma combineFallbackHistories_finite
    (productHistory customerHistory : list HistoricalOffer)
    (currentQty : JS.number) (productId : string) :
  Cases.noInfiniteMarkup productHistory ->
  Cases.noInfiniteMarkup customerHistory ->
  exists v,
    SuggestedMarkupRepository._combineFallbackHistories
      productHistory customerHistory currentQty productId = JS.Fin v.
Proof.
  intros Hp Hc.
  destruct (weightedMarkup_finite _ Hp) as (pm & Hpm).
  destruct (weightedMarkup_finite _ Hc) as (cm & Hcm).
  unfold SuggestedMarkupRepository._combineFallbackHistories.
  rewrite Hpm, Hcm.
  match goal with
  | |- context [SuggestedMarkupRepository._adjustForQuantity _ _ ?b] =>
      assert (Hbase : exists base, b = JS.Fin base)
  end.
  { destruct (0 <? List.length productHistory)%nat,
      (0 <? List.length customerHistory)%nat.
    - change (0.7 + 0.3 >? 0)%js with true. cbv iota.
      cbn [JS.mul JS.add JS.div].
      change (Qeq_bool (0.7 + 0.3) 0) with false. eexists. reflexivity.
    - change (0.7 + 0 >? 0)%js with true. cbv iota.
      unfold SuggestedMarkupRepository.DEFAULT_MARKUP.
      cbn [JS.mul JS.add JS.div].
      change (Qeq_bool (0.7 + 0) 0) with false. eexists. reflexivity.
    - change (0 + 0.3 >? 0)%js with true. cbv iota.
      unfold SuggestedMarkupRepository.DEFAULT_MARKUP.
      cbn [JS.mul JS.add JS.div].
      change (Qeq_bool (0 + 0.3) 0) with false. eexists. reflexivity.
    - change (0 + 0 >? 0)%js with false. cbv iota.
      destruct productId as [|c rest]; [now exists 20|].
      unfold SuggestedMarkupRepository.MIN_MARKUP,
        SuggestedMarkupRepository.MAX_MARKUP,
        SuggestedMarkupRepository.DEFAULT_MARKUP, JS.of_Z.
      destruct (_ <? 20)%js; [cbn [JS.add JS.sub JS.neg];
                              apply limits_keep_finite|].
      destruct (_ >? 80)%js; cbn [JS.add JS.sub JS.neg];
        apply limits_keep_finite. }
  destruct Hbase as (base & ->). apply adjustForQuantity_finite.
Qed.

Lemma applyAdjustment_finite (markup adj : Q) :
  exists m,
    snd (SuggestedMarkupRepository.applyAdjustment (JS.Fin markup) (JS.Fin adj))
    = JS.Fin m.
Proof.
  unfold SuggestedMarkupRepository.applyAdjustment.
  destruct (negb _); eexists; reflexivity.
Qed.

Lemma listed_value_finite (a : JS.number) (x y z : Q) :
  a = 0 \/ a = JS.Fin x \/ a = JS.Fin y \/ a = JS.Fin z ->
  exists q, a = JS.Fin q.
Proof. intros [ -> | [ -> | [ -> | -> ] ] ]; eexists; reflexivity. Qed.

(** For a store that holds no infinite markup, every suggested markup is a
    finite number between 1 and 1000, whichever branch computes it. *)
Theorem suggested_markup_within_limits :
  forall (w : World) (db : Db) (customerNr productId : string)
         (quantity purchasePrice rate : JS.number)
         (r : SuggestedMarkupRepository.MarkupResult),
    getDb w = Return db ->
    Cases.finiteStore db ->
    SuggestedMarkupRepository.calculateSuggestedMarkup
      w customerNr productId quantity purchasePrice rate = Return r ->
    Cases.between 1 1000 (SuggestedMarkupRepository.suggestedMarkup r).
Proof.
  intros w db customerNr productId quantity purchasePrice rate r Hdb Hfin.
  unfold SuggestedMarkupRepository.calculateSuggestedMarkup,
    SuggestedMarkupRepository.calculateSuggestedMarkup_try,
    SuggestedMarkupRepository._fetchProductCustomerHistorySuccess.
  rewrite Hdb. cbn [bind].
  assert (Hdefault : Cases.between 1 1000
                       (SuggestedMarkupRepository.suggestedMarkup
                          SuggestedMarkupRepository.fallback)).
  { exists 20. split; [reflexivity|lra]. }
  assert (Hreport : forall m count probability factors,
             Cases.between 1 1000
               (SuggestedMarkupRepository.suggestedMarkup
                  {| SuggestedMarkupRepository.suggestedMarkup :=
                       JS.toFixed1
                         (JS.Math.max SuggestedMarkupRepository.MIN_MARKUP
                            (JS.Math.min SuggestedMarkupRepository.MAX_MARKUP
                               (JS.Fin m)));
                     SuggestedMarkupRepository.probability := probability;
                     SuggestedMarkupRepository.historyCount := count;
                     SuggestedMarkupRepository.markupFactors := factors |})).
  { intros m count probability factors.
    cbn [SuggestedMarkupRepository.suggestedMarkup].
    destruct (clamp_1_1000 (JS.Fin m) eq_refl) as (c & -> & Hc).
    exact (toFixed1_bounds c Hc). }
  destruct (db PairSuccess10 [customerNr; productId]) as [history|e] eqn:Eh;
    cbn [bind try_catch];
    [|intros Hr; apply Return_inj in Hr; subst r; exact Hdefault].
  destruct (0 <? List.length history)%nat.
  - destruct (SuggestedMarkupRepository._calculateClientHistoryAdjustment
                db customerNr) as [adj|e] eqn:Eadj; cbn [bind try_catch];
      [|intros Hr; apply Return_inj in Hr; subst r; exact Hdefault].
    destruct (weightedMarkup_finite history (Hfin _ _ _ Eh)) as (base & ->).
    destruct (listed_value_finite adj _ _ _
                (clientHistoryAdjustment_values _ _ _ Eadj)) as (a & ->).
    destruct (listed_value_finite _ _ _ _
                (volumeDiscount_values quantity history)) as (v & ->).
    destruct (applyAdjustment_finite base a) as (m1 & Hm1).
    destruct (SuggestedMarkupRepository.applyAdjustment base a)
      as [clientHistory m1'].
    cbn [snd] in Hm1. subst m1'.
    destruct (applyAdjustment_finite m1 v) as (m2 & Hm2).
    destruct (SuggestedMarkupRepository.applyAdjustment m1 v)
      as [volumeDiscount m2'].
    cbn [snd] in Hm2. subst m2'.
    destruct (ProbabilityCalculator._calculateSuccessProbability
                db m2 productId customerNr quantity purchasePrice rate)
      as [pr|e]; cbn [bind try_catch];
      intros Hr; apply Return_inj in Hr; subst r;
      [apply Hreport | exact Hdefault].
  - unfold SuggestedMarkupRepository._fetchGeneralProductHistorySuccess,
      SuggestedMarkupRepository._fetchGeneralCustomerHistorySuccess.
    destruct (db ProductSuccess20 [productId]) as [ph|e] eqn:Eph;
      cbn [bind try_catch];
      [|intros Hr; apply Return_inj in Hr; subst r; exact Hdefault].
    destruct (db CustomerSuccess20 [customerNr]) as [ch|e] eqn:Ech;
      cbn [bind try_catch];
      [|intros Hr; apply Return_inj in Hr; subst r; exact Hdefault].
    destruct (combineFallbackHistories_finite ph ch quantity productId
                (Hfin _ _ _ Eph) (Hfin _ _ _ Ech)) as (base & ->).
    destruct (listed_value_finite _ _ _ _
                (volumeDiscount_values quantity (ph ++ ch))) as (v & ->).
    destruct (applyAdjustment_finite base v) as (m2 & Hm2).
    destruct (0 <? List.length ph + List.length ch)%nat.
    + destruct (SuggestedMarkupRepository.applyAdjustment base v)
        as [volumeDiscount m2'].
      cbn [snd] in Hm2. subst m2'.
      destruct (ProbabilityCalculator._calculateFallbackProbability
                  db m2 productId customerNr) as [pr|e];
        cbn [bind try_catch];
        intros Hr; apply Return_inj in Hr; subst r;
        [apply Hreport | exact Hdefault].
    + destruct (ProbabilityCalculator._calculateFallbackProbability
                  db base productId customerNr) as [pr|e];
        cbn [bind try_catch];
        intros Hr; apply Return_inj in Hr; subst r;
        [apply Hreport | exact Hdefault].
Qed.

Lemma suggested_markup_within_limits_witness :
  exists r,
    SuggestedMarkupRepository.calculateSuggestedMarkup
      Cases.loyalWorld "C1" "P1" 9 0 1 = Return r
    /\ Cases.between 1 1000 (SuggestedMarkupRepository.suggestedMarkup r).
Proof.
  eexists. split; [vm_compute; reflexivity|].
  apply (suggested_markup_within_limits Cases.loyalWorld
           (Sample.store Cases.loyal) "C1" "P1" 9 0 1).
  - reflexivity.
  - intros sql params rows Hrows. apply Return_inj in Hrows. subst rows.
    destruct sql; repeat constructor; discriminate.
  - vm_compute. reflexivity.
Defined.

(** ** ReliabilityRepository: consistency and recency *)

Lemma Qsqrt_nonneg (q : Q) : 0 <= JS.Math.Qsqrt q.
Proof.
  unfold JS.Math.Qsqrt, Qle. cbn. rewrite Z.mul_1_r. apply Z.sqrt_nonneg.
Qed.

Lemma Qsqrt_0 (q : Q) : q == 0 -> JS.Math.Qsqrt q == 0.
Proof.
  unfold Qeq. cbn. rewrite Z.mul_1_r. intros ->.
  unfold JS.Math.Qsqrt, Qeq. cbn. reflexivity.
Qed.

Lemma sqrt_notNegative (a : JS.number) : Cases.notNegative (JS.Math.sqrt a).
Proof.
  unfold Cases.notNegative.
  destruct a as [q| | |]; cbn; auto.
  destruct (JS.Qlt_bool q 0); auto.
  right. right. eexists. split; [reflexivity | apply Qsqrt_nonneg].
Qed.

Lemma abs_notNegative (a : JS.number) : Cases.notNegative (JS.Math.abs a).
Proof.
  unfold Cases.notNegative.
  destruct a as [q| | |]; cbn; auto.
  right. right. eexists. split; [reflexivity | apply Qabs_nonneg].
Qed.

Lemma div_notNegative (a b : JS.number) :
  Cases.notNegative a -> Cases.notNegative b -> Cases.notNegative (a / b)%js.
Proof.
  unfold Cases.notNegative.
  intros [->|[->|(x & -> & Hx)]] [->|[->|(y & -> & Hy)]]; cbn; auto.
  - destruct (JS.Qlt_bool y 0) eqn:E; [reflect_Q; lra | auto].
  - right. right. exists 0. split; [reflexivity | lra].
  - destruct (Qeq_bool y 0) eqn:E; reflect_Q.
    + destruct (x ?= 0) eqn:Ec; cbn; auto.
      apply Qlt_alt in Ec. lra.
    + right. right. eexists. split; [reflexivity|].
      apply Qle_shift_div_l; lra.
Qed.

(** [Math.max(0, 100 - cv * 100 * 2)] for a coefficient [cv] that is not
    negative. *)
Lemma consistency_score_range (cv : JS.number) :
  Cases.notNegative cv ->
  let score := JS.Math.max 0 (100 - cv * 100 * 2)%js in
  score = JS.NaN \/ Cases.between 0 100 score.
Proof.
  intros [->|[->|(x & -> & Hx)]]; cbn; auto.
  - right. exists 0. split; [reflexivity|lra].
  - right. destruct (JS.Qlt_bool 0 (100 + - (x * 100 * 2))) eqn:E;
      reflect_Q; eexists; (split; [reflexivity|]); lra.
Qed.

Lemma dataConsistency_NaN_or_between (history : list HistoricalOffer) :
  let score := ReliabilityRepository._calculateDataConsistency history in
  score = JS.NaN \/ Cases.between 0 100 score.
Proof.
  unfold ReliabilityRepository._calculateDataConsistency.
  assert (Hzero : JS.Fin 0 = JS.NaN \/ Cases.between 0 100 (JS.Fin 0)).
  { right. exists 0. split; [reflexivity|lra]. }
  destruct (List.length history <? 2)%nat; [exact Hzero|].
  destruct (List.length _ <? 2)%nat; [exact Hzero|].
  apply consistency_score_range.
  apply div_notNegative; [apply sqrt_notNegative | apply abs_notNegative].
Qed.

(** The consistency score is [NaN] or a finite number in [0,100]; it is 0
    when fewer than two markups of the history are valid. *)
Theorem data_consistency_range :
  forall (history : list HistoricalOffer),
    let score := ReliabilityRepository._calculateDataConsistency history in
    (score = JS.NaN \/ Cases.between 0 100 score)
    /\ ((List.length (Spec.validMarkups history) < 2)%nat -> score = 0).
Proof.
  intros history score.
  split; [apply dataConsistency_NaN_or_between|].
  unfold score, ReliabilityRepository._calculateDataConsistency.
  fold (Spec.validMarkups history).
  destruct (List.length history <? 2)%nat; [reflexivity|].
  destruct (List.length (Spec.validMarkups history) <? 2)%nat eqn:E;
    [reflexivity|].
  intros Hlt. apply Nat.ltb_ge in E. lia.
Qed.

Lemma data_consistency_range_witness :
  ReliabilityRepository._calculateDataConsistency
    [Sample.offer 1 (Some (JS.Fin 10)) None; Sample.offer 1 None None;
     Sample.offer 0 (Some JS.NaN) None] = 0.
Proof.
  destruct (data_consistency_range
              [Sample.offer 1 (Some (JS.Fin 10)) None;
               Sample.offer 1 None None;
               Sample.offer 0 (Some JS.NaN) None]) as (_ & H).
  apply H. vm_compute. lia.
Defined.

Lemma squares_of_equal_markups (m mean : Q) (l : list JS.number) :
  mean == m ->
  Forall (Cases.between m m) l ->
  forall t, t == 0 ->
  exists t',
    fold_left (fun sum a => (sum + JS.Math.pow2 (a - JS.Fin mean))%js) l
      (JS.Fin t) = JS.Fin t'
    /\ t' == 0.
Proof.
  intros Hmean. induction 1 as [|a l (q & -> & Hq) _ IH]; intros t Ht;
    cbn [fold_left].
  - now exists t.
  - unfold JS.Math.pow2. cbn [JS.sub JS.neg JS.add JS.mul].
    apply IH. rewrite Ht, Hmean.
    assert (Hqm : q == m) by (apply Qle_antisym; tauto).
    rewrite Hqm. ring.
Qed.

(** Two or more valid markups that are all the same whole number [z], not
    0, are perfectly consistent: the score is 100.  The count times [|z|]
    is to stay below 2^53, so that the sum of the markups is itself a whole
    number that a double holds exactly. *)
Theorem equal_markups_score_100 :
  forall (history : list HistoricalOffer) (z : Z),
    z <> 0%Z ->
    (2 <= List.length (Spec.validMarkups history))%nat ->
    (Z.of_nat (List.length (Spec.validMarkups history)) * Z.abs z
     < 2 ^ 53)%Z ->
    Forall (fun a => a = JS.of_Z z) (Spec.validMarkups history) ->
    exists v,
      ReliabilityRepository._calculateDataConsistency history = JS.Fin v
      /\ v == 100.
Proof.
  intros history z Hz Hlen _ Hsame.
  set (m := inject_Z z).
  assert (Hm : ~ m == 0).
  { unfold m. change 0 with (inject_Z 0). rewrite inject_Z_injective.
    exact Hz. }
  assert (Hall : Forall (Cases.between m m) (Spec.validMarkups history)).
  { eapply Forall_impl; [|exact Hsame]. intros a ->. exists m.
    split; [reflexivity|]. split; apply Qle_refl. }
  unfold ReliabilityRepository._calculateDataConsistency.
  fold (Spec.validMarkups history).
  set (markups := Spec.validMarkups history) in *.
  assert (Hhist : (List.length history <? 2)%nat = false).
  { apply Nat.ltb_ge. unfold markups, Spec.validMarkups in Hlen.
    assert (Hle : forall l : list (option JS.number),
               (List.length (numbers_of l) <= List.length l)%nat).
    { induction l as [|[a|] l IH]; cbn; lia. }
    pose proof (Hle (filter valid (map markup history))).
    pose proof (filter_length_le valid (map markup history)).
    rewrite length_map in *. lia. }
  rewrite Hhist.
  destruct (List.length markups <? 2)%nat eqn:E;
    [apply Nat.ltb_lt in E; lia|].
  assert (Hne : markups <> [])
    by (intros E'; rewrite E' in Hlen; cbn in Hlen; lia).
  pose proof (size_nonzero _ Hne) as Hsize.
  pose proof (size_pos _ Hne) as Hpos.
  unfold sum_numbers.
  destruct (sum_between m m markups Hall 0) as (s & -> & Hs).
  unfold length_of, JS.of_nat, JS.of_Z. fold (Spec.size markups).
  cbn [JS.div].
  destruct (Qeq_bool (Spec.size markups) 0) eqn:E0;
    [reflect_Q; contradiction|].
  assert (Hmean : s / Spec.size markups == m).
  { assert (Hs' : s == Spec.size markups * m) by (apply Qle_antisym; lra).
    rewrite Hs'. field. exact Hsize. }
  destruct (squares_of_equal_markups m _ markups Hmean Hall 0 (Qeq_refl 0))
    as (t & -> & Ht).
  cbn [JS.div]. rewrite E0.
  assert (Hvar : t / Spec.size markups == 0)
    by (rewrite Ht; field; exact Hsize).
  unfold JS.Math.sqrt.
  destruct (JS.Qlt_bool (t / Spec.size markups) 0) eqn:Eneg;
    [reflect_Q; lra|].
  pose proof (Qsqrt_0 _ Hvar) as Hstd.
  set (stdDev := JS.Math.Qsqrt (t / Spec.size markups)) in *.
  cbn [JS.Math.abs JS.div].
  assert (Habs : ~ Qabs (s / Spec.size markups) == 0).
  { rewrite Hmean. apply Qabs_case; intros _ H; apply Hm; lra. }
  destruct (Qeq_bool (Qabs (s / Spec.size markups)) 0) eqn:Ea;
    [reflect_Q; contradiction|].
  cbn [JS.mul JS.sub JS.neg JS.add].
  assert (Hscore : 100 + - (stdDev / Qabs (s / Spec.size markups) * 100 * 2)
                   == 100).
  { rewrite Hstd. field. exact Habs. }
  unfold JS.Math.max. cbn [JS.lt].
  destruct (JS.Qlt_bool 0 _) eqn:El.
  - eexists. split; [reflexivity | exact Hscore].
  - reflect_Q. lra.
Qed.

Lemma equal_markups_score_100_witness :
  exists v,
    ReliabilityRepository._calculateDataConsistency Cases.steady = JS.Fin v
    /\ v == 100.
Proof.
  apply (equal_markups_score_100 Cases.steady 10).
  - discriminate.
  - vm_compute. lia.
  - vm_compute. reflexivity.
  - repeat constructor.
Defined.

Lemma totalAgeDays_nonneg (now : Z) (times : list Z) :
  (forall t, In t times -> (t <= now)%Z) ->
  0 <= Spec.totalAgeDays now times.
Proof.
  induction times as [|t times IH]; intros Hall; cbn [Spec.totalAgeDays].
  - lra.
  - assert (H0 : 0 <= inject_Z (now - t) / inject_Z Spec.msPerDay).
    { apply Qle_shift_div_l; [reflexivity|].
      change (0 * inject_Z Spec.msPerDay) with (inject_Z 0).
      rewrite <- Zle_Qle. pose proof (Hall t (or_introl eq_refl)). lia. }
    pose proof (IH (fun t' Ht' => Hall t' (or_intror Ht'))). lra.
Qed.

(** When no date that parses is later than the clock reading, the recency
    score is a finite number in [0,100]. *)
Lemma dataRecency_between_0_100 (Date_parse : string -> option Z) (now : Z)
    (history : list HistoricalOffer) :
  (forall t,
      In t (Spec.validTimes Date_parse
              (filter ReliabilityRepository.hasDate history)) ->
      (t <= now)%Z) ->
  Cases.between 0 100
    (ReliabilityRepository._calculateDataRecency Date_parse now history).
Proof.
  intros Hpast.
  unfold ReliabilityRepository._calculateDataRecency.
  destruct (List.length history =? 0)%nat;
    [exists 0; split; [reflexivity|lra]|].
  destruct (List.length _ =? 0)%nat;
    [exists 0; split; [reflexivity|lra]|].
  destruct (fold_addAge Date_parse now
              (filter ReliabilityRepository.hasDate history) 0 0%nat)
    as (q & -> & Hq).
  cbn [Nat.add].
  set (times := Spec.validTimes Date_parse _) in *.
  destruct (List.length times =? 0)%nat eqn:E;
    [exists 50; split; [reflexivity|lra]|].
  assert (Hne : times <> []) by (intros E'; rewrite E' in E; discriminate E).
  pose proof (size_nonzero _ Hne) as Hsize.
  pose proof (size_pos _ Hne) as Hpos.
  pose proof (totalAgeDays_nonneg now times Hpast) as Hage.
  unfold JS.of_nat, JS.of_Z, ReliabilityRepository.MAX_DAYS_FOR_RECENT_DATA.
  fold (Spec.size times). cbn [JS.div].
  destruct (Qeq_bool (Spec.size times) 0) eqn:E3; [reflect_Q; contradiction|].
  change (Qeq_bool 365 0) with false. cbn iota.
  cbn [JS.mul JS.sub JS.neg JS.add].
  destruct (max_0_Fin (100 + - (q / Spec.size times / 365 * 100)))
    as (v & Hmax & Hv).
  exists v. split; [exact Hmax|]. rewrite Hv.
  split; [apply Q.le_max_l|].
  apply Q.max_lub; [lra|].
  assert (Havg : 0 <= q / Spec.size times)
    by (apply Qle_shift_div_l; lra).
  assert (H365 : 0 <= q / Spec.size times / 365)
    by (apply Qle_shift_div_l; lra).
  lra.
Qed.



(** ** Entry points *)

Lemma suggestedMarkup_bounds_witness :
  exists r,
    SuggestedMarkupRepository.calculateSuggestedMarkup
      Cases.loyalWorld "C1" "P1" 9 0 1 = Return r
    /\ exists p, SuggestedMarkupRepository.probability r = JS.Fin p
                 /\ 0 <= p <= 100.
Proof.
  eexists. split; [vm_compute; reflexivity|].
  apply (suggestedMarkup_bounds Cases.loyalWorld "C1" "P1" 9 0 1).
  vm_compute. reflexivity.
Defined.

Lemma reliability_factor_bounds_witness :
  exists r,
    ReliabilityRepository.calculateProductReliability
      Sample.isoDate Sample.drawHigh "C1" "P1" = Return r
    /\ exists u,
        ReliabilityRepository.fallbacksUsed
          (ReliabilityRepository.reliabilityFactors r) = JS.Fin u
        /\ 0 <= u <= 100.
Proof.
  eexists. split; [vm_compute; reflexivity|].
  apply (reliability_factor_bounds Sample.isoDate Sample.drawHigh "C1" "P1").
  - split; vm_compute; [discriminate | reflexivity].
  - vm_compute. reflexivity.
Defined.

(** The purchase price and the exchange rate passed to the entry points
    never influence a result, and neither does the quantity passed to
    [calculateSuccessProbability]: the arguments are accepted and unused. *)
Theorem price_and_rate_are_ignored :
  forall (w : World) (customerNr productId : string)
         (markup quantity quantity' purchasePrice purchasePrice'
            rate rate' : JS.number),
    ProbabilityCalculator.calculateSuccessProbability
      w customerNr productId markup quantity purchasePrice rate
    = ProbabilityCalculator.calculateSuccessProbability
        w customerNr productId markup quantity' purchasePrice' rate'
    /\ SuggestedMarkupRepository.calculateSuggestedMarkup
         w customerNr productId quantity purchasePrice rate
       = SuggestedMarkupRepository.calculateSuggestedMarkup
           w customerNr productId quantity purchasePrice' rate'.
Proof.
  intros. split; reflexivity.
Qed.

Lemma report_between (d rec cons f : JS.number) :
  Cases.between 0 100 d -> Cases.between 0 100 rec ->
  Cases.between 0 100 cons -> Cases.between 0 100 (100 - f)%js ->
  let r :=
    {| ReliabilityRepository.reliability :=
         JS.Math.round (d * 0.7 + rec * 0.2 + cons * 0.1)%js;
       ReliabilityRepository.reliabilityFactors :=
         {| ReliabilityRepository.directHistory := d;
            ReliabilityRepository.dataRecency := rec;
            ReliabilityRepository.dataConsistency := cons;
            ReliabilityRepository.fallbacksUsed := (100 - f)%js |} |} in
  let factors := ReliabilityRepository.reliabilityFactors r in
  Cases.between 0 100 (ReliabilityRepository.reliability r)
  /\ Cases.between 0 100 (ReliabilityRepository.directHistory factors)
  /\ Cases.between 0 100 (ReliabilityRepository.dataRecency factors)
  /\ Cases.between 0 100 (ReliabilityRepository.dataConsistency factors)
  /\ Cases.between 0 100 (ReliabilityRepository.fallbacksUsed factors).
Proof.
  intros Hd Hrec Hcons Hf r factors. unfold factors, r.
  cbn [ReliabilityRepository.reliabilityFactors
         ReliabilityRepository.reliability
         ReliabilityRepository.directHistory
         ReliabilityRepository.dataRecency
         ReliabilityRepository.dataConsistency
         ReliabilityRepository.fallbacksUsed].
  repeat split; try assumption.
  destruct Hd as (x & -> & Hx), Hrec as (y & -> & Hy), Hcons as (z & -> & Hz).
  cbn [JS.mul JS.add].
  apply (round_bounds _ 0 100).
  change (inject_Z 0) with 0. change (inject_Z 100) with 100.
  change 0.7 with (7 # 10). change 0.2 with (2 # 10).
  change 0.1 with (1 # 10). lra.
Qed.

Lemma between_scaled (a : JS.number) (k : Q) :
  0 <= k <= 1 -> Cases.between 0 100 a ->
  Cases.between 0 100 (a * JS.Fin k)%js.
Proof.
  intros Hk (x & -> & Hx). cbn [JS.mul]. eexists. split; [reflexivity|].
  split; [apply Qmult_le_0_compat; lra|].
  assert (H : x * k <= 100 * 1); [|lra].
  apply Qmult_le_compat_nonneg; split; lra.
Qed.

(** The reliability result is within its documented range under two
    conditions that the code does not check: when no offer returned by the
    store is dated after the clock reading, and the reported consistency is
    not [NaN], the overall reliability and all four factors are finite
    numbers in [0,100] (for a random draw in [0,1)). *)
Theorem reliability_within_0_100 :
  forall (Date_parse : string -> option Z) (w : World) (db : Db)
         (customerNr productId : string)
         (r : ReliabilityRepository.ReliabilityResult),
    getDb w = Return db ->
    0 <= Math_random w < 1 ->
    Cases.noPostdatedOffer Date_parse (Date_now w) db ->
    ReliabilityRepository.calculateProductReliability
      Date_parse w customerNr productId = Return r ->
    let f := ReliabilityRepository.reliabilityFactors r in
    ReliabilityRepository.dataConsistency f <> JS.NaN ->
    Cases.between 0 100 (ReliabilityRepository.reliability r)
    /\ Cases.between 0 100 (ReliabilityRepository.directHistory f)
    /\ Cases.between 0 100 (ReliabilityRepository.dataRecency f)
    /\ Cases.between 0 100 (ReliabilityRepository.dataConsistency f)
    /\ Cases.between 0 100 (ReliabilityRepository.fallbacksUsed f).
Proof.
  intros Date_parse w db customerNr productId r Hdb Hrandom Hpast.
  unfold ReliabilityRepository.calculateProductReliability,
    ReliabilityRepository.calculateProductReliability_try,
    ReliabilityRepository._fetchCompleteProductCustomerHistory,
    ReliabilityRepository._fetchCompleteProductHistory,
    ReliabilityRepository._fetchCompleteCustomerHistory.
  rewrite Hdb. cbn [bind].
  assert (Hdegraded :
            let f := ReliabilityRepository.reliabilityFactors
                       ReliabilityRepository.degraded in
            Cases.between 0 100
              (ReliabilityRepository.reliability
                 ReliabilityRepository.degraded)
            /\ Cases.between 0 100 (ReliabilityRepository.directHistory f)
            /\ Cases.between 0 100 (ReliabilityRepository.dataRecency f)
            /\ Cases.between 0 100 (ReliabilityRepository.dataConsistency f)
            /\ Cases.between 0 100 (ReliabilityRepository.fallbacksUsed f)).
  { repeat split; exists 20; (split; [reflexivity|lra]). }
  assert (H0 : Cases.between 0 100 (JS.Fin 0))
    by (exists 0; split; [reflexivity|lra]).
  destruct (db PairStored20 [customerNr; productId]) as [pair|e] eqn:Epair;
    cbn [bind try_catch];
    [|intros Hr _; apply Return_inj in Hr; subst r; exact Hdegraded].
  destruct (List.length pair =? 0)%nat.
  - destruct (db ProductStored30 [productId]) as [product|e] eqn:Eproduct;
      cbn [bind try_catch];
      [|intros Hr _; apply Return_inj in Hr; subst r; exact Hdegraded].
    destruct (0 <? List.length product)%nat.
    + cbn [bind try_catch]. intros Hr; apply Return_inj in Hr; subst r.
      cbn [ReliabilityRepository.reliabilityFactors
             ReliabilityRepository.dataConsistency].
      intros Hnan.
      destruct (dataConsistency_NaN_or_between product) as [E|Hcons];
        [contradiction|].
      apply report_between; [exact H0 | | exact Hcons |].
      * exact (dataRecency_between_0_100 _ _ _ (Hpast _ _ _ Eproduct)).
      * destruct (productPenalty_bounds product) as (u & -> & Hu).
        now exists u.
    + destruct (db CustomerStored50 [customerNr]) as [customer|e]
        eqn:Ecustomer; cbn [bind try_catch];
        [|intros Hr _; apply Return_inj in Hr; subst r; exact Hdegraded].
      destruct (0 <? List.length customer)%nat;
        cbn [bind try_catch]; intros Hr; apply Return_inj in Hr; subst r;
        cbn [ReliabilityRepository.reliabilityFactors
               ReliabilityRepository.dataConsistency];
        intros Hnan.
      * destruct (dataConsistency_NaN_or_between customer) as [E|Hcons].
        { rewrite E in Hnan. now contradiction Hnan. }
        apply report_between; [exact H0 | | |].
        -- apply (between_scaled _ 0.5); [split; discriminate|].
           exact (dataRecency_between_0_100 _ _ _ (Hpast _ _ _ Ecustomer)).
        -- apply (between_scaled _ 0.3); [split; discriminate | exact Hcons].
        -- destruct (customerPenalty_bounds _ Hrandom) as (u & -> & Hu).
           now exists u.
      * pose proof (charCodeSum_nonneg productId) as Hsum.
        assert (H15 : (0 <= Z.rem (JS.charCodeSum productId) 15 < 15)%Z)
          by (apply Z.rem_bound_pos; lia).
        assert (H20 : (0 <= Z.rem (JS.charCodeSum productId) 20 < 20)%Z)
          by (apply Z.rem_bound_pos; lia).
        apply report_between; unfold JS.of_Z;
          try (eexists; split; [reflexivity|];
               change 0 with (inject_Z 0); change 100 with (inject_Z 100);
               rewrite <- !Zle_Qle; lia).
        exists (100 + - 100). split; [reflexivity|lra].
  - cbn [bind try_catch]. intros Hr; apply Return_inj in Hr; subst r.
    cbn [ReliabilityRepository.reliabilityFactors
           ReliabilityRepository.dataConsistency].
    intros Hnan.
    destruct (dataConsistency_NaN_or_between pair) as [E|Hcons];
      [contradiction|].
    apply report_between; [| | exact Hcons |].
    + destruct (directHistory_bounds pair) as (d & -> & Hd). now exists d.
    + exact (dataRecency_between_0_100 _ _ _ (Hpast _ _ _ Epair)).
    + exists (100 + - 0). split; [reflexivity|lra].
Qed.

Lemma reliability_within_0_100_witness :
  exists r,
    ReliabilityRepository.calculateProductReliability
      Sample.isoDate Cases.regularWorld "C1" "P1" = Return r
    /\ Cases.between 0 100 (ReliabilityRepository.reliability r)
    /\ Spec.same (ReliabilityRepository.directHistory
                    (ReliabilityRepository.reliabilityFactors r)) 100.
Proof.
  eexists. split; [vm_compute; reflexivity|].
  split; [|vm_compute; reflexivity].
  apply (reliability_within_0_100 Sample.isoDate Cases.regularWorld
           (Sample.store Cases.regular) "C1" "P1").
  - reflexivity.
  - split; vm_compute; [discriminate | reflexivity].
  - intros sql params rows Hrows. apply Return_inj in Hrows. subst rows.
    intros t Ht.
    destruct sql; vm_compute in Ht; try contradiction;
      repeat (destruct Ht as [<-|Ht]; [vm_compute; discriminate|]);
      contradiction.
  - vm_compute. reflexivity.
  - vm_compute. discriminate.
Defined.

(** ** SuggestedMarkupRepository: quantities *)

Lemma sum_of_quantities (history : list HistoricalOffer) :
  Forall Cases.finiteQuantity history ->
  forall a,
  exists s,
    fold_left (fun sum h => (sum + JS.or_default (offer_answer__qty h) 0)%js)
      history (JS.Fin a) = JS.Fin s
    /\ s == a + Cases.totalQuantity history.
Proof.
  induction 1 as [|h history Hh _ IH]; intros a;
    cbn [fold_left Cases.totalQuantity].
  - exists a. split; [reflexivity|ring].
  - assert (E : exists q, JS.or_default (offer_answer__qty h) 0 = JS.Fin q
                          /\ q == Cases.quantityOf h).
    { unfold Cases.finiteQuantity in Hh. unfold Cases.quantityOf, JS.or_default.
      destruct (offer_answer__qty h) as [[q| | |]|]; try contradiction.
      - cbn [JS.truthy]. destruct (Qeq_bool q 0) eqn:Eq; cbn [negb].
        + exists 0. split; [reflexivity|]. reflect_Q. now symmetry.
        + exists q. split; reflexivity.
      - exists 0. split; reflexivity. }
    destruct E as (q & -> & Hq). cbn [JS.add].
    destruct (IH (a + q)) as (s & Hs & Heq).
    exists s. split; [exact Hs|]. rewrite Heq, Hq. ring.
Qed.

(** The volume discount compares the requested quantity with the average
    historical quantity (a missing quantity counting 0): -5 above twice the
    average, -3 above 1.5 times the average, +2 below half the average, and
    0 otherwise. *)
Theorem volume_discount_by_average :
  forall (quantity : Q) (history : list HistoricalOffer),
    history <> [] ->
    Forall Cases.finiteQuantity history ->
    let avg := Cases.avgQuantity history in
    let discount :=
      SuggestedMarkupRepository._calculateVolumeDiscount
        (JS.Fin quantity) history in
    (avg * 2 < quantity -> discount = (-5))
    /\ (quantity <= avg * 2 -> avg * (3 # 2) < quantity -> discount = (-3))
    /\ (quantity <= avg * (3 # 2) -> quantity <= avg * 2 ->
        quantity < avg * (1 # 2) -> discount = 2)
    /\ (quantity <= avg * (3 # 2) -> quantity <= avg * 2 ->
        avg * (1 # 2) <= quantity -> discount = 0).
Proof.
  intros quantity history Hne Hall avg discount. unfold discount,
    SuggestedMarkupRepository._calculateVolumeDiscount.
  destruct (List.length history =? 0)%nat eqn:E0;
    [apply length_eqb_0 in E0; contradiction|].
  destruct (sum_of_quantities history Hall 0) as (s & -> & Hs).
  pose proof (size_nonzero _ Hne) as Hsize.
  unfold length_of, JS.of_nat, JS.of_Z. fold (Spec.size history).
  cbn [JS.div].
  destruct (Qeq_bool (Spec.size history) 0) eqn:E; [reflect_Q; contradiction|].
  assert (Havg : s / Spec.size history == avg).
  { unfold avg, Cases.avgQuantity. rewrite Hs. field. exact Hsize. }
  unfold JS.gt. cbn [JS.mul JS.lt].
  rewrite (Qlt_bool_same (s / Spec.size history * 2) (avg * 2)
             quantity quantity),
    (Qlt_bool_same (s / Spec.size history * 1.5) (avg * (3 # 2))
       quantity quantity),
    (Qlt_bool_same quantity quantity
       (s / Spec.size history * 0.5) (avg * (1 # 2)));
    try reflexivity; try (rewrite Havg; lra).
  destruct (JS.Qlt_bool (avg * 2) quantity) eqn:E2; reflect_Q.
  { repeat split; intros; try reflexivity; exfalso; lra. }
  destruct (JS.Qlt_bool (avg * (3 # 2)) quantity) eqn:E15; reflect_Q.
  { repeat split; intros; try reflexivity; exfalso; lra. }
  destruct (JS.Qlt_bool quantity (avg * (1 # 2))) eqn:E05; reflect_Q;
    repeat split; intros; try reflexivity; exfalso; lra.
Qed.

Lemma volume_discount_by_average_witness :
  SuggestedMarkupRepository._calculateVolumeDiscount 12
    [Cases.withQuantity 2; Cases.withQuantity 6] = (-5).
Proof.
  destruct (volume_discount_by_average 12
              [Cases.withQuantity 2; Cases.withQuantity 6]) as (H & _).
  - discriminate.
  - repeat constructor.
  - apply H. vm_compute. reflexivity.
Defined.

Lemma sum_with_default_quantities (history : list HistoricalOffer) :
  Forall Cases.noQuantity history ->
  forall a,
  exists s,
    fold_left (fun sum h => (sum + JS.or_default (offer_answer__qty h) 1)%js)
      history (JS.Fin a) = JS.Fin s
    /\ s == a + Spec.size history.
Proof.
  induction 1 as [|h history Hh _ IH]; intros a; cbn [fold_left].
  - exists a. split; [reflexivity|].
    change (Spec.size (@nil HistoricalOffer)) with 0. ring.
  - assert (E : JS.or_default (offer_answer__qty h) 1 = 1).
    { unfold Cases.noQuantity in Hh. unfold JS.or_default.
      destruct (offer_answer__qty h) as [a'|]; [now rewrite Hh | reflexivity]. }
    rewrite E. cbn [JS.add]. destruct (IH (a + 1)) as (s & Hs & Heq).
    exists s. split; [exact Hs|]. rewrite Heq, size_cons. ring.
Qed.

(** In [_adjustForQuantity] a row without a usable quantity counts as
    quantity 1 (not 0 as in the volume discount): when no row has one, the
    base markup is taken times 0.9 for a requested quantity above 2, times
    1.1 below 0.5, and unchanged in between. *)
Theorem quantity_adjustment_without_quantities :
  forall (currentQty base : Q) (history : list HistoricalOffer),
    history <> [] ->
    Forall Cases.noQuantity history ->
    let adjusted :=
      SuggestedMarkupRepository._adjustForQuantity
        (JS.Fin currentQty) history (JS.Fin base) in
    (2 < currentQty -> adjusted = JS.Fin (base * 0.9))
    /\ (currentQty < 1 # 2 -> adjusted = JS.Fin (base * 1.1))
    /\ (1 # 2 <= currentQty <= 2 -> adjusted = JS.Fin base).
Proof.
  intros currentQty base history Hne Hall adjusted. unfold adjusted,
    SuggestedMarkupRepository._adjustForQuantity.
  rewrite (length_ltb_0 _ Hne).
  destruct (sum_with_default_quantities history Hall 0) as (s & -> & Hs).
  pose proof (size_nonzero _ Hne) as Hsize.
  unfold length_of, JS.of_nat, JS.of_Z. fold (Spec.size history).
  cbn [JS.div].
  destruct (Qeq_bool (Spec.size history) 0) eqn:E; [reflect_Q; contradiction|].
  assert (Havg : s / Spec.size history == 1)
    by (rewrite Hs; field; exact Hsize).
  destruct (Qeq_bool (s / Spec.size history) 0) eqn:Ea;
    [reflect_Q; rewrite Havg in Ea; discriminate Ea|].
  assert (Hratio : currentQty / (s / Spec.size history) == currentQty)
    by (rewrite Havg; field).
  unfold JS.gt. cbn [JS.lt].
  rewrite (Qlt_bool_same 2 2 _ currentQty (Qeq_refl 2) Hratio),
    (Qlt_bool_same _ currentQty 0.5 (1 # 2) Hratio ltac:(lra)).
  destruct (JS.Qlt_bool 2 currentQty) eqn:E2; reflect_Q.
  { repeat split; intros; try reflexivity; exfalso; lra. }
  destruct (JS.Qlt_bool currentQty (1 # 2)) eqn:E05; reflect_Q;
    repeat split; intros; try reflexivity; exfalso; lra.
Qed.

Lemma quantity_adjustment_without_quantities_witness :
  SuggestedMarkupRepository._adjustForQuantity 3
    [Sample.offer 1 (Some (JS.Fin 30)) None] 30
  = JS.Fin (30 * 0.9).
Proof.
  destruct (quantity_adjustment_without_quantities 3 30
              [Sample.offer 1 (Some (JS.Fin 30)) None]) as (H & _).
  - discriminate.
  - repeat constructor.
  - apply H. reflexivity.
Defined.
